(** * A shallow embedding of the fastapi-example contacts backend

    The development follows the layout of the repository:
    - [Py]            exceptions and results of the Python code;
    - [RateLimiter]   [service/rate_limiter.py];
    - [Models]        [entity/models.py];
    - [Schemas]       [schemas/contact.py], [schemas/auth.py];
    - [Db]            the rows of the two tables and a session on them;
    - [Obj]           attribute access and calls on values that may be [None];
    - [Jose]          the token library, with tokens as symbolic terms;
    - [RepoUser]      [repository/user.py];
    - [Auth]          [service/auth.py];
    - [RepoContact]   [repository/contact.py];
    - [RouterContact] [routers/contact.py];
    - [RepoUserMore], [RepoContactMore], [AuthSignup], [RouterAuth]
                      the remaining functions of the repositories, the
                      signup of [service/auth.py] and [routers/auth.py].

    Clock readings of [time.time()] are rationals, a [datetime] is a
    number of microseconds.  Everything the outside world decides (clock
    readings, random draws) is an explicit argument of the function that
    asks for it; the signing secret, the password hash check and the LIKE
    operator of the database are the fields of the class [Platform].
    The engine is the one that [conf/secret.py] configures,
    [postgresql+asyncpg]: its driver takes only naive values for the
    [DateTime] columns ([Db.bind_timestamp]). *)

From Stdlib Require Import ZArith QArith Lqa String Ascii List Lia.
From stdpp Require Import base option gmap strings list pretty.

Local Open Scope string_scope.
Local Open Scope Z_scope.

(* ===================================================================== *)
(** * Python plumbing *)
(* ===================================================================== *)

Module Py.

(** The exceptions that the modelled code raises or lets escape. *)
Inductive exn : Type :=
| HTTPException (status_code : Z) (detail : string)
| AttributeError (msg : string)
| KeyError (key : string)
| TypeError (msg : string)
| MultipleResultsFound
| UnmappedInstanceError (msg : string)
| DBAPIError (msg : string).

(** A computation either returns a value or raises. *)
Inductive result (A : Type) : Type :=
| Ok (a : A)
| Raise (e : exn).
Arguments Ok {A} a.
Arguments Raise {A} e.

Definition bind {A B} (m : result A) (k : A -> result B) : result B :=
  match m with
  | Ok a => k a
  | Raise e => Raise e
  end.

Definition is_ok {A} (m : result A) : bool :=
  match m with Ok _ => true | Raise _ => false end.

(** [fastapi.status] constants used by the code. *)
Definition HTTP_303_SEE_OTHER : Z := 303.
Definition HTTP_401_UNAUTHORIZED : Z := 401.
Definition HTTP_404_NOT_FOUND : Z := 404.
Definition HTTP_409_CONFLICT : Z := 409.
Definition HTTP_429_TOO_MANY_REQUESTS : Z := 429.

(** An HTTP error with status 401, whatever its detail text. *)
Definition unauthorized {A} (m : result A) : Prop :=
  exists detail, m = Raise (HTTPException HTTP_401_UNAUTHORIZED detail).

(** An HTTP error with status 404. *)
Definition not_found {A} (m : result A) : Prop :=
  exists detail, m = Raise (HTTPException HTTP_404_NOT_FOUND detail).

(** An exception that is not an [HTTPException]: no handler turns it
    into a structured response. *)
Definition unhandled {A} (m : result A) : Prop :=
  match m with
  | Raise (HTTPException _ _) => False
  | Raise _ => True
  | Ok _ => False
  end.

End Py.

Import Py.

(** [result] is a monad; stdpp's [x ← m; k] sequences two steps and stops
  at the first exception. *)
#[export] Instance result_ret : MRet result := fun _ a => Ok a.
#[export] Instance result_bind : MBind result := fun _ _ k m => bind m k.
#[export] Instance result_fmap : FMap result := fun _ _ f m => bind m (fun a => Ok (f a)).

(* ===================================================================== *)
(** * service/rate_limiter.py *)
(* ===================================================================== *)

Module RateLimiter.

(** [request.client] is an (host, port) address, or [None]. *)
Definition Address : Type := (string * Z)%type.
Definition client_id : Type := option Address.

Record Request : Type := { client : client_id }.

(** The instance attributes set by [__init__].  A dictionary entry is
    the two-element list [[window start, count]]. *)
Record t : Type := {
  requests : gmap client_id (Q * Z);
  max_requests : Z;
  window_time : Q
}.

Definition init (max_requests : Z) (window_time : Q) : t :=
  {| requests := ∅; max_requests := max_requests; window_time := window_time |}.

(** [self.requests[client_id] = entry] *)
Definition set_entry (self : t) (c : client_id) (entry : Q * Z) : t :=
  {| requests := <[c := entry]> (requests self);
     max_requests := max_requests self;
     window_time := window_time self |}.

(** Strict comparison of rationals, as a boolean. *)
Definition Qlt_bool (x y : Q) : bool := negb (Qle_bool y x).

(** [RateLimiter.is_allowed]; [current_time] is the value that
    [time.time()] returns. *)
Definition is_allowed (self : t) (c : client_id) (current_time : Q) : t * bool :=
  match requests self !! c with
  | None => (set_entry self c (current_time, 1), true)
  | Some (last_request_time, request_count) =>
      if Qlt_bool (window_time self) (current_time - last_request_time)
      then (set_entry self c (current_time, 1), true)
      else if request_count <? max_requests self
      then (set_entry self c (last_request_time, request_count + 1), true)
      else (self, false)
  end.

(** The process-wide instance: [rate_limiter = RateLimiter(3, 120)]. *)
Definition rate_limiter : t := init 3 120.

(** [limit_allowed]: the dependency attached to the auth routes. *)
Definition limit_allowed (rl : t) (request : Request) (current_time : Q)
  : t * result bool :=
  let '(rl', allowed) := is_allowed rl (client request) current_time in
  if allowed then (rl', Ok true)
  else (rl', Raise (HTTPException 429 "Too Many Requests")).

(** A run of requests against the shared instance, answers in order. *)
Fixpoint serve (rl : t) (reqs : list (client_id * Q)) : t * list bool :=
  match reqs with
  | [] => (rl, [])
  | (c, now) :: rest =>
      let '(rl1, a) := is_allowed rl c now in
      let '(rl2, answers) := serve rl1 rest in
      (rl2, a :: answers)
  end.

(** The algorithm in the words of the design: what the fixed-window
    policy decides for a record and a request time. *)
Inductive verdict : Type :=
| Allow (record : Q * Z)
| Deny.

Definition fixed_window (max : Z) (window : Q) (record : option (Q * Z)) (T : Q)
  : verdict :=
  match record with
  | None => Allow (T, 1)
  | Some (start, count) =>
      if Qlt_bool window (T - start) then Allow (T, 1)
      else if count <? max then Allow (start, count + 1)
      else Deny
  end.

End RateLimiter.

(* ===================================================================== *)
(** * entity/models.py and schemas *)
(* ===================================================================== *)

Module Models.

(** A [datetime] is a number of microseconds since the epoch (UTC), a
    [timedelta] a number of microseconds, a [date] a day number. *)
Definition datetime : Type := Z.
Definition timedelta : Type := Z.
Definition date : Type := Z.

Definition timedelta_minutes (minutes : Z) : timedelta := minutes * 60 * 1000000.
Definition timedelta_days (days : Z) : Z := days.

(** [calendar.timegm(dt.utctimetuple())]: whole seconds since the epoch. *)
Definition timegm (dt : datetime) : Z := dt / 1000000.

(** A Python [datetime] value as an attribute receives it: naive, which
    is what [datetime.now()] returns, or aware, which is what
    [datetime.now(timezone.utc)] returns.  Both carry the instant. *)
Inductive pydatetime : Type :=
| naive (instant : datetime)
| aware (instant : datetime).

(** A mapped object after [setattr(obj, "modified_at", value)]: the
    attribute holds the Python value as it was assigned, the other
    attributes are those of [object]. *)
Record Stamped (A : Type) : Type := Stamp {
  object : A;
  modified_at_value : pydatetime
}.
Arguments Stamp {A} _ _.
Arguments object {A} _.
Arguments modified_at_value {A} _.

Definition assign_modified_at {A} (value : pydatetime) (obj : A) : Stamped A :=
  Stamp obj value.

Module User.
Record t : Type := mk {
  id : Z;
  email : string;
  passwd : string;
  salt : string;
  is_active : bool;
  otp : option Z;
  image : option string;
  created_at : datetime;
  modified_at : datetime
}.

(** [setattr(user, "otp", v)] and [setattr(user, "is_active", v)]. *)
Definition set_otp (v : option Z) (u : t) : t :=
  mk (id u) (email u) (passwd u) (salt u) (is_active u) v (image u)
     (created_at u) (modified_at u).

Definition set_is_active (v : bool) (u : t) : t :=
  mk (id u) (email u) (passwd u) (salt u) v (otp u) (image u)
     (created_at u) (modified_at u).
End User.

Module Contact.
Record t : Type := mk {
  id : Z;
  first_name : option string;
  last_name : option string;
  email : option string;
  birth_date : date;
  created_by : Z;
  created_at : datetime;
  modified_at : datetime
}.

Definition set_first_name (v : string) (c : t) : t :=
  mk (id c) (Some v) (last_name c) (email c) (birth_date c) (created_by c)
     (created_at c) (modified_at c).

Definition set_last_name (v : string) (c : t) : t :=
  mk (id c) (first_name c) (Some v) (email c) (birth_date c) (created_by c)
     (created_at c) (modified_at c).

Definition set_email (v : string) (c : t) : t :=
  mk (id c) (first_name c) (last_name c) (Some v) (birth_date c) (created_by c)
     (created_at c) (modified_at c).

Definition set_birth_date (v : date) (c : t) : t :=
  mk (id c) (first_name c) (last_name c) (email c) v (created_by c)
     (created_at c) (modified_at c).

Definition set_modified_at (v : datetime) (c : t) : t :=
  mk (id c) (first_name c) (last_name c) (email c) (birth_date c) (created_by c)
     (created_at c) v.
End Contact.

End Models.

Module Schemas.
Import Models.

(** [schemas/contact.py]: every field of the edit body may be [None]. *)
Record ContactEditSchema : Type := {
  first_name : option string;
  last_name : option string;
  email : option string;
  birth_date : option date
}.

(** Iterating over the body yields its (field, value) pairs in declaration
    order.  A value is carried together with what [setattr] does with it
    on a contact. *)
Definition items (body : ContactEditSchema)
  : list (string * option (Contact.t -> Contact.t)) :=
  [ ("first_name", Contact.set_first_name <$> first_name body);
    ("last_name", Contact.set_last_name <$> last_name body);
    ("email", Contact.set_email <$> email body);
    ("birth_date", Contact.set_birth_date <$> birth_date body) ].

(** [schemas/auth.py]. *)
Record Token (str : Type) : Type := {
  access_token : str;
  refresh_token : str;
  token_type : string
}.
Arguments access_token {str} _.
Arguments refresh_token {str} _.
Arguments token_type {str} _.

(** [OAuth2PasswordRequestForm], the two fields the code reads. *)
Record OAuth2PasswordRequestForm : Type := {
  username : string;
  password : string
}.

End Schemas.

(* ===================================================================== *)
(** * The database session *)
(* ===================================================================== *)

Module Db.
Import Models.

(** The two tables. *)
Record t : Type := {
  users : list User.t;
  contacts : list Contact.t
}.

(** A step of a request handler: it runs in a session on the database,
    may change the tables, and returns or raises.  Changes committed
    before an exception stay. *)
Definition Session (A : Type) : Type := t -> t * result A.

Definition ret {A} (a : A) : Session A := fun db => (db, Ok a).

Definition raise {A} (e : exn) : Session A := fun db => (db, Raise e).

Definition sbind {A B} (m : Session A) (k : A -> Session B) : Session B :=
  fun db =>
    match m db with
    | (db', Ok a) => k a db'
    | (db', Raise e) => (db', Raise e)
    end.

(** A step that cannot touch the database. *)
Definition lift {A} (r : result A) : Session A := fun db => (db, r).

(** [Result.scalar_one_or_none()]. *)
Definition scalar_one_or_none {A} (rows : list A) : result (option A) :=
  match rows with
  | [] => Ok None
  | [row] => Ok (Some row)
  | _ :: _ :: _ => Raise MultipleResultsFound
  end.

(** Committing a changed object writes its row, found by primary key. *)
Definition commit_user (u : User.t) : Session unit :=
  fun db =>
    ({| users := map (fun row => if User.id row =? User.id u then u else row) (users db);
        contacts := contacts db |}, Ok tt).

Definition commit_contact (c : Contact.t) : Session unit :=
  fun db =>
    ({| users := users db;
        contacts := map (fun row => if Contact.id row =? Contact.id c then c else row)
                        (contacts db) |}, Ok tt).

(** Committing a deleted object removes its row. *)
Definition commit_delete_contact (c : Contact.t) : Session unit :=
  fun db =>
    ({| users := users db;
        contacts := List.filter (fun row => negb (Contact.id row =? Contact.id c))
                                (contacts db) |}, Ok tt).

(** The [DateTime] columns are TIMESTAMP WITHOUT TIME ZONE.  The driver
    of the engine encodes the parameter bound to such a column as its
    distance from a naive epoch, a subtraction that Python refuses for an
    aware value; the session hands the driver's refusal on as a
    [DBAPIError].  [offset_mismatch] is the reason the driver gives. *)
Definition offset_mismatch : string :=
  "can't subtract offset-naive and offset-aware datetimes".

Definition bind_timestamp (value : pydatetime) : result datetime :=
  match value with
  | naive instant => Ok instant
  | aware _ => Raise (DBAPIError offset_mismatch)
  end.

(** Committing an object whose [modified_at] was assigned, and reading
    it back ([refresh]): the UPDATE binds the assigned value, and when the
    driver refuses it no row is written. *)
Definition commit_stamped_contact (c : Stamped Contact.t) : Session Contact.t :=
  sbind (lift (bind_timestamp (modified_at_value c))) (fun modified_at =>
  let row := Contact.set_modified_at modified_at (object c) in
  sbind (commit_contact row) (fun _ => ret row)).

(** [session.delete(obj)]: only a mapped instance can be deleted. *)
Definition delete {A} (obj : option A) : result A :=
  match obj with
  | Some o => Ok o
  | None => Raise (UnmappedInstanceError "Class 'builtins.NoneType' is not mapped")
  end.

End Db.

#[export] Instance session_ret : MRet Db.Session := @Db.ret.
#[export] Instance session_bind : MBind Db.Session := fun _ _ k m => Db.sbind m k.

(* ===================================================================== *)
(** * What the deployment supplies *)
(* ===================================================================== *)

(** The signing secret of [conf/secret.py], passlib's verification of a
    password against a stored hash, and the LIKE operator of the database
    engine ([sql_like value pattern]). *)
Class Platform : Type := {
  SECRET : string;
  pwd_context_verify : string -> string -> bool;
  sql_like : string -> string -> bool
}.

(** Attribute access on a variable that may hold [None]. *)
Module Obj.

Definition no_attribute (field : string) : exn :=
  AttributeError ("'NoneType' object has no attribute '" ++ field ++ "'").

(** [obj.field]; [read] is the accessor of that field. *)
Definition getattr {A B} (obj : option A) (field : string) (read : A -> B) : result B :=
  match obj with
  | Some o => Ok (read o)
  | None => Raise (no_attribute field)
  end.

(** [setattr(obj, field, value)]; [set] is the update for that field and
    value. *)
Definition setattr {A B} (obj : option A) (field : string) (set : A -> B) : result B :=
  match obj with
  | Some o => Ok (set o)
  | None => Raise (no_attribute field)
  end.

(** Truth value of an object reference. *)
Definition truthy {A} (obj : option A) : bool :=
  match obj with Some _ => true | None => false end.

(** A call that leaves out a required positional argument. *)
Definition missing_argument (fname param : string) : exn :=
  TypeError (fname ++ "() missing 1 required positional argument: '" ++ param ++ "'").

(** Binding of a required parameter: [None] when the call site passes
    nothing for it. *)
Definition required {A} (fname param : string) (arg : option A) : result A :=
  match arg with
  | Some a => Ok a
  | None => Raise (missing_argument fname param)
  end.

(** A [for] loop whose body may raise: the state after the last item, or
    the first exception. *)
Fixpoint for_each {S A} (body : S -> A -> result S) (xs : list A) (s : S) : result S :=
  match xs with
  | [] => Ok s
  | x :: rest =>
      match body s x with
      | Ok s' => for_each body rest s'
      | Raise e => Raise e
      end
  end.

End Obj.

(* ===================================================================== *)
(** * The token library (python-jose), symbolically *)
(* ===================================================================== *)

Module Jose.
Import Models.

(** Values of a Python dictionary handed to [jwt.encode]. *)
Inductive pyval : Type :=
| PStr (s : string)
| PInt (n : Z)
| PNone
| PDatetime (dt : datetime).

(** Values of a decoded payload. *)
Inductive json : Type :=
| JStr (s : string)
| JInt (n : Z)
| JNull
| JBool (b : bool).

(** A token string is either a signed payload, which remembers the
    algorithm and the key it was signed with, or anything else. *)
Inductive token : Type :=
| Signed (alg key : string) (payload : gmap string json)
| Malformed (raw : string).

(** [payload[k] == s] for a string literal [s]. *)
Definition eq_str (v : json) (s : string) : bool :=
  match v with
  | JStr s' => String.eqb s' s
  | _ => false
  end.

(** A datetime is only converted under the registered time claims;
    elsewhere it cannot be serialised. *)
Definition is_time_claim (k : string) : bool :=
  String.eqb k "exp" || String.eqb k "iat" || String.eqb k "nbf".

Definition to_json (k : string) (v : pyval) : option json :=
  match v with
  | PStr s => Some (JStr s)
  | PInt n => Some (JInt n)
  | PNone => Some JNull
  | PDatetime dt => if is_time_claim k then Some (JInt (timegm dt)) else None
  end.

Definition serialisable (claims : gmap string pyval) : bool :=
  bool_decide (map_Forall (fun k v => is_Some (to_json k v)) claims).

(** [jwt.encode(claims, key, algorithm=alg)] *)
Definition encode (claims : gmap string pyval) (key alg : string) : result token :=
  if serialisable claims
  then Ok (Signed alg key (map_imap to_json claims))
  else Raise (TypeError "Object of type datetime is not JSON serializable").

(** Validation of the registered claims that the code relies on: an
    [exp] in the past and a [sub] that is not a string are refused. *)
Definition valid_exp (payload : gmap string json) (now : Z) : bool :=
  match payload !! "exp" with
  | None => true
  | Some (JInt exp) => negb (exp <? now)
  | Some _ => false
  end.

Definition valid_sub (payload : gmap string json) : bool :=
  match payload !! "sub" with
  | None => true
  | Some (JStr _) => true
  | Some _ => false
  end.

(** [jwt.decode(token, key, algorithms=algs)] at clock reading [utcnow];
    [None] stands for a raised [JWTError]. *)
Definition decode (tok : token) (key : string) (algs : list string) (utcnow : datetime)
  : option (gmap string json) :=
  match tok with
  | Malformed _ => None
  | Signed alg k payload =>
      if existsb (String.eqb alg) algs && String.eqb k key
         && valid_exp payload (timegm utcnow) && valid_sub payload
      then Some payload
      else None
  end.

(** A claim of a signed token, as its holder can read it. *)
Definition claim (tok : token) (k : string) : option json :=
  match tok with
  | Signed _ _ payload => payload !! k
  | Malformed _ => None
  end.

End Jose.

(* ===================================================================== *)
(** * repository/user.py *)
(* ===================================================================== *)

Module RepoUser.
Import Models Db.

(** [select(User).filter_by(email=email)], then [scalar_one_or_none()]. *)
Definition find_user (email : string) : Session (option User.t) :=
  fun db =>
    (db, scalar_one_or_none
           (List.filter (fun row => String.eqb (User.email row) email) (users db))).

(** [random.randint(a, b)]: some integer of the closed range, picked by
    the generator's state [entropy]. *)
Definition randint (a b : Z) (entropy : Z) : Z := a + entropy mod (b - a + 1).

(** [not otp] for [otp : int | None]. *)
Definition not_otp (otp : option Z) : bool :=
  match otp with
  | None => true
  | Some n => n =? 0
  end.

(** [update_otp]; the caller's [user] object is changed in place, so the
    changed object is returned next to the OTP. *)
Definition update_otp (user : option User.t) (otp : option Z) (entropy : Z)
  : Session (User.t * Z) :=
  let otp := if not_otp otp then randint 100000 999999 entropy else default 0 otp in
  user ← lift (Obj.setattr user "otp" (User.set_otp (Some otp)));
  _ ← commit_user user;
  mret (user, otp).

(** [user_activation]; returns the object it changed in place. *)
Definition user_activation (user : option User.t) (is_active : bool) : Session User.t :=
  user ← lift (Obj.setattr user "is_active" (User.set_is_active is_active));
  _ ← commit_user user;
  mret user.

End RepoUser.

(* ===================================================================== *)
(** * service/auth.py *)
(* ===================================================================== *)

Module Auth.
Import Models Db Schemas Jose.

Section WithPlatform.
Context `{Platform}.

Definition SECRET_KEY : string := SECRET.
Definition ALGORITHM : string := "HS256".
Definition ACCESS_TOKEN_EXPIRE_MINUTES : Z := 30.
Definition REFRESH_TOKEN_EXPIRATION : Z := 1440.

Definition verify_password (plain_password hashed_password : string) : bool :=
  pwd_context_verify plain_password hashed_password.

Definition get_user (email : string) : Session (option User.t) :=
  user ← RepoUser.find_user email;
  if Obj.truthy user then mret user else mret None.

Definition authenticate_user (email password : string) : Session (option User.t) :=
  user ← get_user email;
  if negb (Obj.truthy user) then mret None
  else
    passwd ← lift (Obj.getattr user "passwd" User.passwd);
    if negb (verify_password password passwd) then mret None
    else mret user.

(** [if expires_delta:] a missing or a zero delta is false. *)
Definition delta_given (expires_delta : option timedelta) : bool :=
  match expires_delta with
  | None => false
  | Some d => negb (d =? 0)
  end.

(** [create_access_token]; [utcnow k] is what the k-th call of
    [datetime.utcnow()] inside this call returns. *)
Definition create_access_token (data : gmap string pyval)
    (expires_delta : option timedelta) (utcnow : nat -> datetime) : result token :=
  let to_encode := data in
  let expire :=
    if delta_given expires_delta then utcnow 0%nat + default 0 expires_delta
    else utcnow 0%nat + timedelta_minutes 15 in
  let to_encode :=
    <["scope" := PStr "access_token"]>
      (<["iat" := PDatetime (utcnow 1%nat)]>
         (<["exp" := PDatetime expire]> to_encode)) in
  Jose.encode to_encode SECRET_KEY ALGORITHM.

Definition create_refresh_token (data : gmap string pyval)
    (expires_delta : option timedelta) (utcnow : nat -> datetime) : result token :=
  let to_encode := data in
  let expire :=
    if delta_given expires_delta then utcnow 0%nat + default 0 expires_delta
    else utcnow 0%nat + timedelta_minutes 1000 in
  let to_encode :=
    <["scope" := PStr "refresh_token"]>
      (<["iat" := PDatetime (utcnow 1%nat)]>
         (<["exp" := PDatetime expire]> to_encode)) in
  Jose.encode to_encode SECRET_KEY ALGORITHM.

(** [payload[key]] *)
Definition getitem (payload : gmap string json) (key : string) : result json :=
  match payload !! key with
  | Some v => Ok v
  | None => Raise (KeyError key)
  end.

(** The subject as the string handed to the user query.  [Jose.decode]
    returns no payload whose [sub] is anything but a string, so the last
    case never runs. *)
Definition subject (email : json) : result string :=
  match email with
  | JStr s => Ok s
  | _ => Raise (TypeError "subject is not a string")
  end.

Definition credentials_exception : exn :=
  HTTPException HTTP_401_UNAUTHORIZED "Could not validate credentials".

(** The [try] block of [get_current_user]: only [JWTError] is caught. *)
Definition current_user_email (tok : token) (utcnow : datetime) : result json :=
  match Jose.decode tok SECRET_KEY [ALGORITHM] utcnow with
  | None => Raise credentials_exception
  | Some payload =>
      scope ← getitem payload "scope";
      if eq_str scope "access_token" then
        email ← getitem payload "sub";
        match email with
        | JNull => Raise credentials_exception
        | _ => Ok email
        end
      else Raise credentials_exception
  end.

Definition get_current_user (tok : token) (utcnow : datetime) : Session User.t :=
  email ← lift (current_user_email tok utcnow);
  email ← lift (subject email);
  user ← get_user email;
  match user with
  | None => raise credentials_exception
  | Some user => mret user
  end.

Definition decode_refresh_token (refresh_token : token) (utcnow : datetime)
  : result json :=
  match Jose.decode refresh_token SECRET_KEY [ALGORITHM] utcnow with
  | None =>
      Raise (HTTPException HTTP_401_UNAUTHORIZED "Could not validate credentials")
  | Some payload =>
      scope ← getitem payload "scope";
      if eq_str scope "refresh_token" then getitem payload "sub"
      else Raise (HTTPException HTTP_401_UNAUTHORIZED "Invalid scope for token")
  end.

(** [generate_token]; [entropy] feeds the OTP draw, [utcnow k] is the k-th
    clock reading of the call. *)
Definition generate_token (form_data : OAuth2PasswordRequestForm)
    (entropy : Z) (utcnow : nat -> datetime) : Session (Token token) :=
  user ← authenticate_user (username form_data) (password form_data);
  reject ← lift (if negb (Obj.truthy user)
                 then negb <$> Obj.getattr user "is_active" User.is_active
                 else Ok false);
  if (reject : bool) then
    raise (HTTPException HTTP_401_UNAUTHORIZED "Incorrect email or password")
  else
    active ← lift (Obj.getattr user "is_active" User.is_active);
    if (active : bool) then
      updated ← RepoUser.update_otp user None entropy;
      let user := fst updated in
      let access_token_expires := timedelta_minutes ACCESS_TOKEN_EXPIRE_MINUTES in
      let refresh_token_expires := timedelta_minutes REFRESH_TOKEN_EXPIRATION in
      access_token ← lift (create_access_token {["sub" := PStr (User.email user)]}
                             (Some access_token_expires) utcnow);
      refresh_token ← lift (create_refresh_token {["sub" := PStr (User.email user)]}
                              (Some refresh_token_expires)
                              (fun k => utcnow (2 + k)%nat));
      mret {| access_token := access_token; refresh_token := refresh_token;
              token_type := "bearer" |}
    else
      raise (HTTPException HTTP_401_UNAUTHORIZED "User is not activated").

(** [refresh_user_token]; clock reading 0 is the decoder's, the next four
    are the two issuers'. *)
Definition refresh_user_token (tok : token) (utcnow : nat -> datetime)
  : Session (Token token) :=
  email ← lift (decode_refresh_token tok (utcnow 0%nat));
  email ← lift (subject email);
  user ← RepoUser.find_user email;
  active ← lift (if Obj.truthy user
                 then Obj.getattr user "is_active" User.is_active
                 else Ok false);
  if (active : bool) then
    access_token ← lift (create_access_token {["sub" := PStr email]} None
                           (fun k => utcnow (1 + k)%nat));
    refresh_token ← lift (create_refresh_token {["sub" := PStr email]} None
                            (fun k => utcnow (3 + k)%nat));
    mret {| access_token := access_token; refresh_token := refresh_token;
            token_type := "bearer" |}
  else
    raise (HTTPException HTTP_401_UNAUTHORIZED "Invalid token").

(** [user.otp == otp] for the integer [otp] of the query string. *)
Definition otp_eq (stored : option Z) (otp : Z) : bool :=
  match stored with
  | Some n => n =? otp
  | None => false
  end.

(** [activate_user].  In the mismatch branch the exception object is
    built and dropped, and control reaches the final [raise]. *)
Definition activate_user (user_mail : string) (otp : Z) : Session User.t :=
  user ← RepoUser.find_user user_mail;
  returned ←
    (if Obj.truthy user then
       stored ← lift (Obj.getattr user "otp" User.otp);
       if otp_eq stored otp then
         user ← RepoUser.user_activation user true;
         mret (Some user)
       else
         let _ := HTTPException HTTP_401_UNAUTHORIZED "Wrong activation password" in
         mret None
     else mret None);
  match returned with
  | Some user => mret user
  | None => raise (HTTPException HTTP_401_UNAUTHORIZED "User is not found")
  end.

End WithPlatform.
End Auth.

(* ===================================================================== *)
(** * repository/contact.py *)
(* ===================================================================== *)

Module RepoContact.
Import Models Db Schemas.

Section WithPlatform.
Context `{Platform}.

(** [Contact.created_by == user_id] *)
Definition owned_by (user_id : Z) (row : Contact.t) : bool :=
  Contact.created_by row =? user_id.

(** [column.like(pattern)] on a nullable column: NULL matches nothing. *)
Definition like (column : option string) (pattern : string) : bool :=
  match column with
  | Some v => sql_like v pattern
  | None => false
  end.

(** [get_contacts]; the route only lets through [limit] and [offset]
    that are not negative. *)
Definition get_contacts (limit offset : nat) (user_id : Z) : Session (list Contact.t) :=
  fun db =>
    (db, Ok (firstn limit (skipn offset (List.filter (owned_by user_id) (contacts db))))).

Definition get_contact (contact_id : Z) (user_id : Z) : Session (option Contact.t) :=
  fun db =>
    (db, scalar_one_or_none
           (List.filter (fun row => owned_by user_id row && (Contact.id row =? contact_id))
                        (contacts db))).

(** One turn of the loop of [edit_contact]. *)
Definition assign (contact : option Contact.t)
    (item : string * option (Contact.t -> Contact.t)) : result (option Contact.t) :=
  match snd item with
  | Some set => Some <$> Obj.setattr contact (fst item) set
  | None => Ok contact
  end.

(** [edit_contact]; [now] is the instant of [datetime.now(timezone.utc)],
    an aware value. *)
Definition edit_contact (contact_id : Z) (body : ContactEditSchema) (user_id : Z)
    (now : datetime) : Session Contact.t :=
  contact ← get_contact contact_id user_id;
  contact ← lift (Obj.for_each assign (items body) contact);
  contact ← lift (Obj.setattr contact "modified_at" (assign_modified_at (aware now)));
  contact ← commit_stamped_contact contact;
  mret contact.

Definition delete_contact (contact_id : Z) (user_id : Z) : Session Contact.t :=
  contact ← get_contact contact_id user_id;
  contact ← lift (Db.delete contact);
  _ ← commit_delete_contact contact;
  mret contact.

Definition get_contact_by_name (name_query : string) (user_id : Z)
  : Session (list Contact.t) :=
  fun db =>
    (db, Ok (List.filter
               (fun row =>
                  owned_by user_id row
                  && (like (Contact.first_name row) ("%" ++ name_query ++ "%")
                      || like (Contact.last_name row) ("%" ++ name_query ++ "%")))
               (contacts db))).

Definition get_contact_by_mail (mail_query : string) (user_id : Z)
  : Session (list Contact.t) :=
  fun db =>
    (db, Ok (List.filter
               (fun row =>
                  owned_by user_id row
                  && like (Contact.email row) ("%" ++ mail_query ++ "%"))
               (contacts db))).

(** [column.between(lo, hi)], both ends included. *)
Definition between (v lo hi : date) : bool := (lo <=? v) && (v <=? hi).

(** [get_birthday_list]; [today k] is the k-th reading of [date.today()]. *)
Definition get_birthday_list (today : nat -> date) (user_id : Z)
  : Session (list Contact.t) :=
  let horizon := timedelta_days 7 in
  fun db =>
    (db, Ok (List.filter
               (fun row =>
                  owned_by user_id row
                  && between (Contact.birth_date row) (today 0%nat) (today 1%nat + horizon))
               (contacts db))).

End WithPlatform.
End RepoContact.

(* ===================================================================== *)
(** * routers/contact.py *)
(* ===================================================================== *)

Module RouterContact.
Import Models Db Schemas.

(** What [GET /contact/{id}] hands back to the framework. *)
Inductive get_contact_response : Type :=
| ContactFound (contact : Contact.t)
| StatusCode (code : Z).

Section WithPlatform.
Context `{Platform}.

Definition list_contacts (limit offset : nat) (token : Jose.token) (utcnow : datetime)
  : Session (list Contact.t) :=
  user ← Auth.get_current_user token utcnow;
  contacts ← RepoContact.get_contacts limit offset (User.id user);
  mret contacts.

Definition birthday_list (token : Jose.token) (utcnow : datetime) (today : nat -> date)
  : Session (list Contact.t) :=
  user ← Auth.get_current_user token utcnow;
  contacts ← RepoContact.get_birthday_list today (User.id user);
  mret contacts.

(** [get_contact]: the call [repo_contact.get_contact(id_, db)] passes
    nothing for the third parameter, [user_id]. *)
Definition get_contact (id_ : Z) (token : Jose.token) : Session get_contact_response :=
  contact ← (user_id ← lift (Obj.required "get_contact" "user_id" (None : option Z));
             RepoContact.get_contact id_ user_id);
  match contact with
  | None => mret (StatusCode HTTP_303_SEE_OTHER)
  | Some contact => mret (ContactFound contact)
  end.

Definition edit_contact (id_ : Z) (body : ContactEditSchema) (token : Jose.token)
    (utcnow now : datetime) : Session Contact.t :=
  user ← Auth.get_current_user token utcnow;
  contact ← RepoContact.edit_contact id_ body (User.id user) now;
  mret contact.

Definition delete_contact (id_ : Z) (token : Jose.token) (utcnow : datetime)
  : Session Contact.t :=
  user ← Auth.get_current_user token utcnow;
  contact ← RepoContact.delete_contact id_ (User.id user);
  mret contact.

Definition search_name (query : option string) (token : Jose.token) (utcnow : datetime)
  : Session (list Contact.t) :=
  match query with
  | None => mret []
  | Some query =>
      user ← Auth.get_current_user token utcnow;
      contacts ← RepoContact.get_contact_by_name query (User.id user);
      mret contacts
  end.

Definition search_mail (query : option string) (token : Jose.token) (utcnow : datetime)
  : Session (list Contact.t) :=
  match query with
  | None => mret []
  | Some query =>
      user ← Auth.get_current_user token utcnow;
      contacts ← RepoContact.get_contact_by_mail query (User.id user);
      mret contacts
  end.

End WithPlatform.
End RouterContact.

(* ===================================================================== *)
(** * A concrete deployment, for running the model *)
(* ===================================================================== *)

Module Demo.
Import Models.

(** LIKE with the two wildcards: [%] for any run of characters, [_] for
    any one character. *)
Fixpoint like_from (pattern value : string) : bool :=
  match pattern with
  | EmptyString => match value with EmptyString => true | _ => false end
  | String p rest =>
      if Ascii.eqb p "%" then
        (fix skip (v : string) : bool :=
           like_from rest v
           || match v with
              | EmptyString => false
              | String _ v' => skip v'
              end) value
      else
        match value with
        | EmptyString => false
        | String c value' =>
            (Ascii.eqb p "_" || Ascii.eqb p c) && like_from rest value'
        end
  end.

Definition platform : Platform := {|
  SECRET := "change-me";
  pwd_context_verify := fun plain hashed => String.eqb hashed ("bcrypt:" ++ plain);
  sql_like := fun value pattern => like_from pattern value
|}.

Definition ann_owner : User.t :=
  User.mk 1 "a@example.com" "bcrypt:pw-a" "salt-a" true (Some 123456) None 0 0.

Definition bob_owner : User.t :=
  User.mk 2 "b@example.com" "bcrypt:pw-b" "salt-b" true (Some 654321) None 0 0.

Definition carol_inactive : User.t :=
  User.mk 3 "c@example.com" "bcrypt:pw-c" "salt-c" false (Some 111111) None 0 0.

Definition ann : Contact.t :=
  Contact.mk 10 (Some "Ann") (Some "Lee") (Some "ann@example.org") 20003 1 0 0.

Definition bob : Contact.t :=
  Contact.mk 11 (Some "Bob") (Some "Roe") (Some "bob@example.org") 20030 2 0 0.

Definition db : Db.t := {|
  Db.users := [ann_owner; bob_owner; carol_inactive];
  Db.contacts := [ann; bob]
|}.

(** A clock that stands still at second 1000. *)
Definition utcnow : nat -> datetime := fun _ => 1000000000.

Definition token_for (scope email : string) (exp : Z) : Jose.token :=
  Jose.Signed "HS256" "change-me"
    (<["scope" := Jose.JStr scope]>
       (<["exp" := Jose.JInt exp]> {["sub" := Jose.JStr email]})).

End Demo.

(* ===================================================================== *)
(** * Vocabulary of the statements *)
(* ===================================================================== *)

Module Spec.
Import Models Db.

(** Every contact of [cs] is a row of the table and belongs to [user_id]. *)
Definition owned_rows (db : Db.t) (user_id : Z) (cs : list Contact.t) : Prop :=
  Forall (fun c => Contact.created_by c = user_id /\ In c (contacts db)) cs.

(** No row of the table has this id and this owner. *)
Definition no_contact (db : Db.t) (contact_id user_id : Z) : Prop :=
  Forall (fun row => ~ (Contact.id row = contact_id /\ Contact.created_by row = user_id))
         (contacts db).

(** The token carries the expiry [minutes] minutes after the clock
    reading [issued], in whole seconds. *)
Definition expires_after (tok : Jose.token) (issued : datetime) (minutes : Z) : Prop :=
  Jose.claim tok "exp" = Some (Jose.JInt (timegm issued + minutes * 60)).

(** The users table after the row with the primary key of [u'] was
    rewritten. *)
Definition users_with (db : Db.t) (u' : User.t) : Db.t :=
  {| users := map (fun row => if User.id row =? User.id u' then u' else row) (users db);
     contacts := contacts db |}.

(** The primary key of the users table. *)
Definition users_keyed (db : Db.t) : Prop := NoDup (map User.id (users db)).

End Spec.

(** Unfolds the sequencing of sessions and results. *)
Ltac session_unfold :=
  unfold mbind, mret, fmap, session_bind, session_ret, result_bind, result_ret,
    result_fmap, Db.sbind, Db.ret, Db.lift, Db.raise, bind in *.

(* ===================================================================== *)
(** * The rest of the repositories, signup and the auth routes *)
(* ===================================================================== *)

(** [bcrypt.gensalt()], fed by the generator's state, and
    [bcrypt.hashpw(password, salt)]. *)
Class Bcrypt : Type := {
  gensalt : Z -> string;
  hashpw : string -> string -> string
}.

Module UserAttr.
Import Models.

(** [setattr(user, field, value)] for the other columns of a user. *)
Definition set_email (v : string) (u : User.t) : User.t :=
  User.mk (User.id u) v (User.passwd u) (User.salt u) (User.is_active u) (User.otp u)
    (User.image u) (User.created_at u) (User.modified_at u).

Definition set_passwd (v : string) (u : User.t) : User.t :=
  User.mk (User.id u) (User.email u) v (User.salt u) (User.is_active u) (User.otp u)
    (User.image u) (User.created_at u) (User.modified_at u).

Definition set_image (v : string) (u : User.t) : User.t :=
  User.mk (User.id u) (User.email u) (User.passwd u) (User.salt u) (User.is_active u)
    (User.otp u) (Some v) (User.created_at u) (User.modified_at u).

Definition set_modified_at (v : datetime) (u : User.t) : User.t :=
  User.mk (User.id u) (User.email u) (User.passwd u) (User.salt u) (User.is_active u)
    (User.otp u) (User.image u) (User.created_at u) v.

End UserAttr.

Module SchemasMore.
Import Models.

(** [schemas/user.py]: both fields are required. *)
Record UserCreateSchema : Type := {
  email : string;
  passwd : string
}.

(** The (field, value) pairs of a [UserCreateSchema], in declaration
    order, each value with what [setattr] does with it on a user. *)
Definition user_items (body : UserCreateSchema)
  : list (string * option (User.t -> User.t)) :=
  [ ("email", Some (UserAttr.set_email (email body)));
    ("passwd", Some (UserAttr.set_passwd (passwd body))) ].

(** [schemas/contact.py]: all four fields are required. *)
Module ContactCreateSchema.
Record t : Type := {
  first_name : string;
  last_name : string;
  email : string;
  birth_date : date
}.
End ContactCreateSchema.

(** The dictionary that the service hands to the user repository. *)
Record UserRow : Type := {
  row_email : string;
  row_passwd : string;
  row_salt : string
}.

(** One call of [send_email(subject, message, to_email)]. *)
Record Email : Type := {
  subject : string;
  message : string;
  to_email : string
}.

End SchemasMore.

(* --------------------------------------------------------------------- *)
(** ** repository/user.py, the functions not used by login *)
(* --------------------------------------------------------------------- *)

Module RepoUserMore.
Import Models Db SchemasMore.

(** [get_user]: [select(User).filter_by(id=user_id)]. *)
Definition get_user (user_id : Z) : Session (option User.t) :=
  fun db =>
    (db, scalar_one_or_none
           (List.filter (fun row => User.id row =? user_id) (users db))).

(** [create_user]: a [User] built from the keys of [body], with the
    column defaults, then insert.
    [new_id] is the key that the database assigns; [column_defaults] are
    the two values that [datetime.now()] returned when the class was
    defined: they are the defaults of [created_at] and [modified_at]. *)
Definition create_user (body : UserRow) (new_id : Z) (column_defaults : datetime * datetime)
  : Session User.t :=
  fun db =>
    let user := User.mk new_id (row_email body) (row_passwd body) (row_salt body)
                  false None None (fst column_defaults) (snd column_defaults) in
    ({| users := users db ++ [user]; contacts := contacts db |}, Ok user).

(** One turn of the loop of [edit_user]. *)
Definition assign (user : option User.t)
    (item : string * option (User.t -> User.t)) : result (option User.t) :=
  match snd item with
  | Some set => Some <$> Obj.setattr user (fst item) set
  | None => Ok user
  end.

(** Committing a user whose [modified_at] was assigned, and reading it
    back: as [Db.commit_stamped_contact]. *)
Definition commit_stamped_user (u : Stamped User.t) : Session User.t :=
  modified_at ← lift (bind_timestamp (modified_at_value u));
  let row := UserAttr.set_modified_at modified_at (object u) in
  _ ← commit_user row;
  mret row.

(** [edit_user]; [now] is the instant of [datetime.now(timezone.utc)], an
    aware value. *)
Definition edit_user (user_id : Z) (body : UserCreateSchema) (now : datetime)
  : Session User.t :=
  user ← get_user user_id;
  user ← lift (Obj.for_each assign (user_items body) user);
  user ← lift (Obj.setattr user "modified_at" (assign_modified_at (aware now)));
  user ← commit_stamped_user user;
  mret user.

(** [set_image] *)
Definition set_image (user : option User.t) (url : string) : Session User.t :=
  user ← lift (Obj.setattr user "image" (UserAttr.set_image url));
  _ ← commit_user user;
  mret user.

End RepoUserMore.

(* --------------------------------------------------------------------- *)
(** ** repository/contact.py: create_contact *)
(* --------------------------------------------------------------------- *)

Module RepoContactMore.
Import Models Db SchemasMore.

(** [create_contact]: a [Contact] built from the fields of [body], the
    owner set to [user_id], then insert.  [new_id] is the key that the database
    assigns, [column_defaults] the two values of the timestamp defaults
    of the class. *)
Definition create_contact (body : ContactCreateSchema.t) (user_id : Z)
    (new_id : Z) (column_defaults : datetime * datetime) : Session Contact.t :=
  fun db =>
    let contact := Contact.mk new_id (Some (ContactCreateSchema.first_name body))
                     (Some (ContactCreateSchema.last_name body))
                     (Some (ContactCreateSchema.email body))
                     (ContactCreateSchema.birth_date body) user_id
                     (fst column_defaults) (snd column_defaults) in
    ({| users := users db; contacts := contacts db ++ [contact] |}, Ok contact).

End RepoContactMore.

(* --------------------------------------------------------------------- *)
(** ** service/auth.py: signup *)
(* --------------------------------------------------------------------- *)

Module AuthSignup.
Import Models Db SchemasMore.

Section WithBcrypt.
Context `{Bcrypt}.

(** [hash_pwd(pwd)] with no salt given: (digest, salt). *)
Definition hash_pwd (pwd : string) (salt : option string) (salt_entropy : Z)
  : string * string :=
  let salt := match salt with
              | None => gensalt salt_entropy
              | Some s => s
              end in
  (hashpw pwd salt, salt).

(** [create_user] of the service.  The result carries, next to the user,
    the calls of [send_email] that were made; [send_email] catches every
    exception of the mail transport and returns [None]. *)
Definition create_user (body : UserCreateSchema) (salt_entropy : Z) (new_id : Z)
    (column_defaults : datetime * datetime) (otp_entropy : Z) : Session (User.t * list Email) :=
  user ← RepoUser.find_user (email body);
  if negb (Obj.truthy user) then
    let hashed := hash_pwd (passwd body) None salt_entropy in
    let data := {| row_email := email body;
                   row_passwd := fst hashed;
                   row_salt := snd hashed |} in
    user ← RepoUserMore.create_user data new_id column_defaults;
    updated ← RepoUser.update_otp (Some user) None otp_entropy;
    let user := fst updated in
    let otp := snd updated in
    let subject := "Your OTP for registration" in
    let message := "Your OTP is as follows: " ++ pretty otp in
    let to_email := User.email user in
    mret (user, [ {| subject := subject; message := message; to_email := to_email |} ])
  else
    raise (HTTPException HTTP_409_CONFLICT "User already exists").

End WithBcrypt.
End AuthSignup.

(* --------------------------------------------------------------------- *)
(** ** routers/auth.py *)
(* --------------------------------------------------------------------- *)

Module RouterAuth.
Import Models Db Schemas.

(** The state a request runs on: the shared rate limiter and the tables. *)
Definition World : Type := (RateLimiter.t * Db.t)%type.

(** A route with [rl=Depends(limit_allowed)]: the dependency runs first,
    and the handler only if it returned. *)
Definition limited {A} (request : RateLimiter.Request) (current_time : Q)
    (handler : Session A) (w : World) : World * result A :=
  let '(rl, r) := RateLimiter.limit_allowed (fst w) request current_time in
  match r with
  | Ok _ => let '(db, a) := handler (snd w) in ((rl, db), a)
  | Raise e => ((rl, snd w), Raise e)
  end.

Section WithPlatform.
Context `{Platform} `{Bcrypt}.

Definition signup (request : RateLimiter.Request) (current_time : Q)
    (body : SchemasMore.UserCreateSchema) (salt_entropy new_id : Z)
    (column_defaults : datetime * datetime) (otp_entropy : Z) : World -> World * result User.t :=
  limited request current_time
    (created ← AuthSignup.create_user body salt_entropy new_id column_defaults otp_entropy;
     mret (fst created)).

Definition login_for_access_token (request : RateLimiter.Request) (current_time : Q)
    (form_data : OAuth2PasswordRequestForm) (entropy : Z) (utcnow : nat -> datetime)
  : World -> World * result (Token Jose.token) :=
  limited request current_time (Auth.generate_token form_data entropy utcnow).

Definition user_path (request : RateLimiter.Request) (current_time : Q)
    (token : Jose.token) (utcnow : datetime) : World -> World * result User.t :=
  limited request current_time (Auth.get_current_user token utcnow).

Definition refresh_token (request : RateLimiter.Request) (current_time : Q)
    (credentials : Jose.token) (utcnow : nat -> datetime)
  : World -> World * result (Token Jose.token) :=
  limited request current_time (Auth.refresh_user_token credentials utcnow).

Definition activate_user (request : RateLimiter.Request) (current_time : Q)
    (user_mail : string) (otp : Z) : World -> World * result User.t :=
  limited request current_time (Auth.activate_user user_mail otp).

End WithPlatform.
End RouterAuth.

(* --------------------------------------------------------------------- *)
(** ** More vocabulary of the statements *)
(* --------------------------------------------------------------------- *)

Module SpecMore.
Import Models Db.

(** Every stored request count lies between 1 and the maximum (or is 1,
    when the maximum is below 1). *)
Definition counts_bounded (rl : RateLimiter.t) : Prop :=
  forall c start count,
    RateLimiter.requests rl !! c = Some (start, count) ->
    1 <= count <= Z.max 1 (RateLimiter.max_requests rl).

(** Two limiters that hold the same record for a client and the same
    configuration. *)
Definition same_for_client (c : RateLimiter.client_id) (rl1 rl2 : RateLimiter.t) : Prop :=
  RateLimiter.requests rl1 !! c = RateLimiter.requests rl2 !! c /\
  RateLimiter.max_requests rl1 = RateLimiter.max_requests rl2 /\
  RateLimiter.window_time rl1 = RateLimiter.window_time rl2.

(** The requests of one client in a run. *)
Definition requests_of (c : RateLimiter.client_id)
    (reqs : list (RateLimiter.client_id * Q)) : list (RateLimiter.client_id * Q) :=
  List.filter (fun r => bool_decide (fst r = c)) reqs.

(** The answers given to one client in a run. *)
Fixpoint answers_of (c : RateLimiter.client_id)
    (reqs : list (RateLimiter.client_id * Q)) (answers : list bool) : list bool :=
  match reqs, answers with
  | r :: reqs', a :: answers' =>
      if bool_decide (fst r = c) then a :: answers_of c reqs' answers'
      else answers_of c reqs' answers'
  | _, _ => []
  end.

(** A token that has not passed its expiry at the clock reading. *)
Definition unexpired (tok : Jose.token) (utcnow : datetime) : Prop :=
  exists exp, Jose.claim tok "exp" = Some (Jose.JInt exp) /\ timegm utcnow <= exp.

End SpecMore.

Module SpecSignup.
Import Models SchemasMore.

Section WithBcrypt.
Context `{Bcrypt}.

(** The user that a signup leaves in the table. *)
Definition signed_up (body : UserCreateSchema) (salt_entropy new_id : Z)
    (column_defaults : datetime * datetime) (otp_entropy : Z) : User.t :=
  User.mk new_id (email body)
    (hashpw (passwd body) (gensalt salt_entropy)) (gensalt salt_entropy)
    false (Some (RepoUser.randint 100000 999999 otp_entropy)) None
    (fst column_defaults) (snd column_defaults).

End WithBcrypt.
End SpecSignup.

Module DemoMore.

(** A toy digest that the demo platform's check accepts. *)
Definition bcrypt : Bcrypt := {|
  gensalt := fun entropy => "salt" ++ pretty entropy;
  hashpw := fun pwd salt => "bcrypt:" ++ pwd
|}.

Definition client_a : RateLimiter.client_id := Some ("10.0.0.1", 40000).
Definition client_b : RateLimiter.client_id := Some ("10.0.0.2", 40000).

End DemoMore.

(* ===================================================================== *)
(** * Theorems *)
(* ===================================================================== *)

Section RateLimiterFacts.
Import RateLimiter.

Lemma Qlt_bool_iff (x y : Q) : Qlt_bool x y = true <-> (x < y)%Q.
Proof.
  unfold Qlt_bool. rewrite negb_true_iff.
  split.
  - intros H. apply Qnot_le_lt. intros Hle.
    apply Qle_bool_iff in Hle. congruence.
  - intros H. destruct (Qle_bool y x) eqn:E; [|reflexivity].
    apply Qle_bool_iff in E. exfalso. apply (Qlt_not_le _ _ H E).
Qed.

Lemma Qlt_bool_false (x y : Q) : Qlt_bool x y = false <-> ~ (x < y)%Q.
Proof.
  rewrite <- Qlt_bool_iff. destruct (Qlt_bool x y); split; congruence.
Qed.

(** The code takes the same decision as the design's policy. *)
Lemma is_allowed_fixed_window (rl : t) (c : client_id) (T : Q) :
  is_allowed rl c T =
    match fixed_window (max_requests rl) (window_time rl) (requests rl !! c) T with
    | Allow r => (set_entry rl c r, true)
    | Deny => (rl, false)
    end.
Proof.
  unfold is_allowed, fixed_window.
  destruct (requests rl !! c) as [[start count]|]; [|reflexivity].
  destruct (Qlt_bool _ _); [reflexivity|].
  destruct (count <? _); reflexivity.
Qed.

(** A request of one client leaves the records of the others alone. *)
Lemma is_allowed_frame (rl : t) (c c' : client_id) (T : Q) :
  c <> c' -> requests (fst (is_allowed rl c T)) !! c' = requests rl !! c'.
Proof.
  intros Hne. unfold is_allowed.
  destruct (requests rl !! c) as [[start count]|]; cbn.
  - destruct (Qlt_bool _ _); cbn; [by rewrite lookup_insert_ne|].
    destruct (count <? _); cbn; [by rewrite lookup_insert_ne|done].
  - by rewrite lookup_insert_ne.
Qed.

(** The configuration never changes. *)
Lemma is_allowed_config (rl : t) (c : client_id) (T : Q) :
  max_requests (fst (is_allowed rl c T)) = max_requests rl /\
  window_time (fst (is_allowed rl c T)) = window_time rl.
Proof.
  unfold is_allowed.
  destruct (requests rl !! c) as [[start count]|]; cbn; [|done].
  destruct (Qlt_bool _ _); cbn; [done|].
  destruct (count <? _); done.
Qed.

End RateLimiterFacts.

Section RateLimiterClaims.
Import RateLimiter.

Lemma is_allowed_first (rl : t) (c : client_id) (T : Q) :
  requests rl !! c = None ->
  is_allowed rl c T = (set_entry rl c (T, 1), true).
Proof. intros H. unfold is_allowed. by rewrite H. Qed.

Lemma is_allowed_reset (rl : t) (c : client_id) (T start : Q) (count : Z) :
  requests rl !! c = Some (start, count) ->
  (window_time rl < T - start)%Q ->
  is_allowed rl c T = (set_entry rl c (T, 1), true).
Proof.
  intros H Hw. unfold is_allowed. rewrite H.
  apply Qlt_bool_iff in Hw. by rewrite Hw.
Qed.

Lemma is_allowed_count (rl : t) (c : client_id) (T start : Q) (count : Z) :
  requests rl !! c = Some (start, count) ->
  ~ (window_time rl < T - start)%Q ->
  count < max_requests rl ->
  is_allowed rl c T = (set_entry rl c (start, count + 1), true).
Proof.
  intros H Hw Hc. unfold is_allowed. rewrite H.
  apply Qlt_bool_false in Hw. rewrite Hw.
  apply Z.ltb_lt in Hc. by rewrite Hc.
Qed.

Lemma is_allowed_deny (rl : t) (c : client_id) (T start : Q) (count : Z) :
  requests rl !! c = Some (start, count) ->
  ~ (window_time rl < T - start)%Q ->
  ~ count < max_requests rl ->
  is_allowed rl c T = (rl, false).
Proof.
  intros H Hw Hc. unfold is_allowed. rewrite H.
  apply Qlt_bool_false in Hw. rewrite Hw.
  apply Z.ltb_nlt in Hc. by rewrite Hc.
Qed.

Lemma set_entry_lookup (rl : t) (c : client_id) (e : Q * Z) :
  requests (set_entry rl c e) !! c = Some e.
Proof. cbn. apply lookup_insert_eq. Qed.

(** Four requests in ten seconds against a 3-per-120s limiter. *)
Lemma burst_of_four (rl : t) (c : client_id) (t1 t2 t3 t4 : Q) :
  max_requests rl = 3 -> window_time rl = 120%Q ->
  requests rl !! c = None ->
  (t1 <= t2)%Q -> (t2 <= t3)%Q -> (t3 <= t4)%Q -> (t4 - t1 <= 10)%Q ->
  exists rl3,
    serve rl [(c, t1); (c, t2); (c, t3); (c, t4)] = (rl3, [true; true; true; false]) /\
    requests rl3 !! c = Some (t1, 3) /\
    max_requests rl3 = 3 /\ window_time rl3 = 120%Q.
Proof.
  intros Hmax Hwin Hnone H12 H23 H34 H41.
  set (rl1 := set_entry rl c (t1, 1)).
  set (rl2 := set_entry rl1 c (t1, 1 + 1)).
  set (rl3 := set_entry rl2 c (t1, 1 + 1 + 1)).
  exists rl3.
  assert (E1 : is_allowed rl c t1 = (rl1, true)) by by apply is_allowed_first.
  assert (E2 : is_allowed rl1 c t2 = (rl2, true)).
  { apply is_allowed_count; [apply set_entry_lookup | cbn; rewrite Hwin; lra | cbn; lia]. }
  assert (E3 : is_allowed rl2 c t3 = (rl3, true)).
  { apply is_allowed_count; [apply set_entry_lookup | cbn; rewrite Hwin; lra | cbn; lia]. }
  assert (E4 : is_allowed rl3 c t4 = (rl3, false)).
  { apply (is_allowed_deny _ _ _ t1 3);
      [apply set_entry_lookup | cbn; rewrite Hwin; lra | cbn; lia]. }
  cbn [serve]. rewrite E1, E2, E3, E4.
  repeat split; try done. apply set_entry_lookup.
Qed.

(** C2. The rate limiter is the fixed-window algorithm.  A client with no
    record gets the record (start = T, count = 1) and is allowed; a
    client whose window has elapsed (T - start > window) has its record
    reset to (T, 1) and is allowed; otherwise a client below the maximum
    has its count incremented and is allowed; otherwise the request is
    denied and nothing changes.  [limit_allowed] answers [True] for an
    allowed request and raises the 429 error for a denied one.  With
    max = 3 and window = 120 s, the fourth request of a client within
    ten seconds is denied, and a request made after the window has
    elapsed is allowed again, with the counter back at 1. *)
Theorem rate_limiter_fixed_window :
  (forall rl c T,
      requests rl !! c = None ->
      is_allowed rl c T = (set_entry rl c (T, 1), true)) /\
  (forall rl c T start count,
      requests rl !! c = Some (start, count) ->
      (window_time rl < T - start)%Q ->
      is_allowed rl c T = (set_entry rl c (T, 1), true)) /\
  (forall rl c T start count,
      requests rl !! c = Some (start, count) ->
      ~ (window_time rl < T - start)%Q ->
      count < max_requests rl ->
      is_allowed rl c T = (set_entry rl c (start, count + 1), true)) /\
  (forall rl c T start count,
      requests rl !! c = Some (start, count) ->
      ~ (window_time rl < T - start)%Q ->
      ~ count < max_requests rl ->
      is_allowed rl c T = (rl, false)) /\
  (forall rl request T,
      limit_allowed rl request T =
        (fst (is_allowed rl (client request) T),
         if snd (is_allowed rl (client request) T) then Ok true
         else Raise (HTTPException HTTP_429_TOO_MANY_REQUESTS "Too Many Requests"))) /\
  (forall rl c t1 t2 t3 t4 t5,
      max_requests rl = 3 -> window_time rl = 120%Q ->
      requests rl !! c = None ->
      (t1 <= t2)%Q -> (t2 <= t3)%Q -> (t3 <= t4)%Q -> (t4 - t1 <= 10)%Q ->
      (120 < t5 - t1)%Q ->
      exists rl3,
        serve rl [(c, t1); (c, t2); (c, t3); (c, t4)]
          = (rl3, [true; true; true; false]) /\
        is_allowed rl3 c t5 = (set_entry rl3 c (t5, 1), true) /\
        requests (fst (is_allowed rl3 c t5)) !! c = Some (t5, 1)).
Proof.
  split; [exact is_allowed_first|].
  split; [exact is_allowed_reset|].
  split; [exact is_allowed_count|].
  split; [exact is_allowed_deny|].
  split.
  - intros rl request T. unfold limit_allowed.
    destruct (is_allowed rl (client request) T) as [rl' []]; reflexivity.
  - intros rl c t1 t2 t3 t4 t5 Hmax Hwin Hnone H12 H23 H34 H41 H5.
    destruct (burst_of_four rl c t1 t2 t3 t4) as (rl3 & Hrun & Hrec & Hmax3 & Hwin3);
      try done.
    exists rl3. split; [done|].
    assert (E : is_allowed rl3 c t5 = (set_entry rl3 c (t5, 1), true)).
    { apply (is_allowed_reset _ _ _ t1 3); [done | rewrite Hwin3; done]. }
    split; [done|]. rewrite E. apply set_entry_lookup.
Qed.

Lemma rate_limiter_fixed_window_witness :
  exists rl3,
    serve rate_limiter
      [(Some ("127.0.0.1", 50000), 0%Q); (Some ("127.0.0.1", 50000), 2%Q);
       (Some ("127.0.0.1", 50000), 5%Q); (Some ("127.0.0.1", 50000), 9%Q)]
      = (rl3, [true; true; true; false]) /\
    is_allowed rl3 (Some ("127.0.0.1", 50000)) 121%Q
      = (set_entry rl3 (Some ("127.0.0.1", 50000)) (121%Q, 1), true) /\
    requests (fst (is_allowed rl3 (Some ("127.0.0.1", 50000)) 121%Q))
      !! Some ("127.0.0.1", 50000) = Some (121%Q, 1).
Proof.
  destruct rate_limiter_fixed_window as (_ & _ & _ & _ & _ & H).
  apply (H rate_limiter (Some ("127.0.0.1", 50000)) 0%Q 2%Q 5%Q 9%Q 121%Q);
    first [reflexivity | by vm_compute].
Defined.

End RateLimiterClaims.

(* --------------------------------------------------------------------- *)
(** ** Running a session *)
(* --------------------------------------------------------------------- *)

Section SessionFacts.
Import Models Db.
Context `{Platform}.

Lemma find_user_reads (email : string) (db : Db.t) :
  fst (RepoUser.find_user email db) = db.
Proof. reflexivity. Qed.

Lemma get_user_find_user (email : string) (db : Db.t) :
  Auth.get_user email db = RepoUser.find_user email db.
Proof.
  unfold Auth.get_user, RepoUser.find_user. session_unfold.
  destruct (scalar_one_or_none _) as [[u|]|e]; reflexivity.
Qed.

(** Looking up the current user only reads. *)
Lemma get_current_user_reads (tok : Jose.token) (utcnow : datetime) (db : Db.t) :
  fst (Auth.get_current_user tok utcnow db) = db.
Proof.
  unfold Auth.get_current_user. session_unfold.
  destruct (Auth.current_user_email tok utcnow) as [email|e]; [|reflexivity].
  destruct (Auth.subject email) as [s|e]; [|reflexivity].
  rewrite get_user_find_user. unfold RepoUser.find_user.
  destruct (scalar_one_or_none _) as [[u|]|e]; reflexivity.
Qed.

(** What follows the authentication in a route runs on the same tables,
    for the user that was found. *)
Lemma after_current_user {A} (tok : Jose.token) (utcnow : datetime) (db : Db.t)
    (u : User.t) (k : User.t -> Session A) :
  Auth.get_current_user tok utcnow db = (db, Ok u) ->
  (Auth.get_current_user tok utcnow ≫= k) db = k u db.
Proof. intros E. session_unfold. by rewrite E. Qed.

End SessionFacts.

(* --------------------------------------------------------------------- *)
(** ** Owner scoping of the contact queries *)
(* --------------------------------------------------------------------- *)

Section OwnerScoping.
Import Models Db.
Context `{Platform}.

(** Rows selected under the owner predicate belong to that owner and come
    from the table. *)
Lemma filter_owned (user_id : Z) (extra : Contact.t -> bool) (rows : list Contact.t) :
  Forall (fun c => Contact.created_by c = user_id /\ In c rows)
         (List.filter (fun row => RepoContact.owned_by user_id row && extra row) rows).
Proof.
  apply List.Forall_forall. intros c Hc.
  apply List.filter_In in Hc. destruct Hc as [Hin Hp].
  apply andb_prop in Hp. destruct Hp as [Ho _].
  split; [|exact Hin]. unfold RepoContact.owned_by in Ho. lia.
Qed.

Lemma filter_owned_only (user_id : Z) (rows : list Contact.t) :
  Forall (fun c => Contact.created_by c = user_id /\ In c rows)
         (List.filter (RepoContact.owned_by user_id) rows).
Proof.
  apply List.Forall_forall. intros c Hc.
  apply List.filter_In in Hc. destruct Hc as [Hin Ho].
  split; [|exact Hin]. unfold RepoContact.owned_by in Ho. lia.
Qed.

Lemma Forall_page {A} (P : A -> Prop) (limit offset : nat) (rows : list A) :
  Forall P rows -> Forall P (firstn limit (skipn offset rows)).
Proof. intros Hrows. apply Forall_take, Forall_drop, Hrows. Qed.

Lemma scalar_one_or_none_Some {A} (rows : list A) (x : A) :
  scalar_one_or_none rows = Ok (Some x) -> rows = [x].
Proof.
  destruct rows as [|a [|b rest]]; cbn; intros E; try discriminate.
  by inversion E.
Qed.

Lemma scalar_one_or_none_None {A} (rows : list A) :
  scalar_one_or_none rows = Ok None -> rows = [].
Proof. destruct rows as [|a [|b rest]]; cbn; intros E; by try discriminate. Qed.

(** The owner-scoped lookup returns a row of the table that has the id
    asked for and belongs to the owner asked for. *)
Lemma get_contact_Some (contact_id user_id : Z) (db : Db.t) (c : Contact.t) :
  snd (RepoContact.get_contact contact_id user_id db) = Ok (Some c) ->
  Contact.created_by c = user_id /\ Contact.id c = contact_id /\ In c (contacts db).
Proof.
  unfold RepoContact.get_contact. cbn. intros E.
  apply scalar_one_or_none_Some in E.
  assert (Hin : In c (List.filter
                        (fun row => RepoContact.owned_by user_id row
                                    && (Contact.id row =? contact_id)) (contacts db))).
  { rewrite E. by left. }
  apply List.filter_In in Hin. destruct Hin as [Hin Hp].
  apply andb_prop in Hp. destruct Hp as [Ho Hi].
  unfold RepoContact.owned_by in Ho. repeat split; [lia | lia | done].
Qed.

(** The id route never gets as far as a lookup. *)
Lemma router_get_contact_raises (id_ : Z) (token : Jose.token) (db : Db.t) :
  RouterContact.get_contact id_ token db =
    (db, Raise (Obj.missing_argument "get_contact" "user_id")).
Proof. reflexivity. Qed.

(** C1. For an authenticated user [u], every contact-read operation
    returns only contacts of the table whose owner id is [u]'s id: the
    list, name-search, mail-search and birthday routes answer with such a
    list, and the id route returns no contact at all.  Every repository
    query, for whatever owner id it is called with, selects under the
    owner predicate: the four list queries return rows of that owner only
    and the id lookup returns, if anything, a row of that owner. *)
Theorem contact_reads_owner_scoped (db : Db.t) (token : Jose.token)
    (utcnow : datetime) (u : User.t) :
  Auth.get_current_user token utcnow db = (db, Ok u) ->
  (forall limit offset, exists cs,
      RouterContact.list_contacts limit offset token utcnow db = (db, Ok cs) /\
      Spec.owned_rows db (User.id u) cs) /\
  (forall query, exists cs,
      RouterContact.search_name query token utcnow db = (db, Ok cs) /\
      Spec.owned_rows db (User.id u) cs) /\
  (forall query, exists cs,
      RouterContact.search_mail query token utcnow db = (db, Ok cs) /\
      Spec.owned_rows db (User.id u) cs) /\
  (forall today, exists cs,
      RouterContact.birthday_list token utcnow today db = (db, Ok cs) /\
      Spec.owned_rows db (User.id u) cs) /\
  (forall id_ c,
      snd (RouterContact.get_contact id_ token db) <> Ok (RouterContact.ContactFound c)) /\
  (forall user_id,
      (forall limit offset, exists cs,
          RepoContact.get_contacts limit offset user_id db = (db, Ok cs) /\
          Spec.owned_rows db user_id cs) /\
      (forall name_query, exists cs,
          RepoContact.get_contact_by_name name_query user_id db = (db, Ok cs) /\
          Spec.owned_rows db user_id cs) /\
      (forall mail_query, exists cs,
          RepoContact.get_contact_by_mail mail_query user_id db = (db, Ok cs) /\
          Spec.owned_rows db user_id cs) /\
      (forall today, exists cs,
          RepoContact.get_birthday_list today user_id db = (db, Ok cs) /\
          Spec.owned_rows db user_id cs) /\
      (forall contact_id c,
          snd (RepoContact.get_contact contact_id user_id db) = Ok (Some c) ->
          Contact.created_by c = user_id /\ In c (contacts db))).
Proof.
  intros Hauth.
  assert (Hrepo : forall user_id,
      (forall limit offset, exists cs,
          RepoContact.get_contacts limit offset user_id db = (db, Ok cs) /\
          Spec.owned_rows db user_id cs) /\
      (forall name_query, exists cs,
          RepoContact.get_contact_by_name name_query user_id db = (db, Ok cs) /\
          Spec.owned_rows db user_id cs) /\
      (forall mail_query, exists cs,
          RepoContact.get_contact_by_mail mail_query user_id db = (db, Ok cs) /\
          Spec.owned_rows db user_id cs) /\
      (forall today, exists cs,
          RepoContact.get_birthday_list today user_id db = (db, Ok cs) /\
          Spec.owned_rows db user_id cs) /\
      (forall contact_id c,
          snd (RepoContact.get_contact contact_id user_id db) = Ok (Some c) ->
          Contact.created_by c = user_id /\ In c (contacts db))).
  { intros user_id. split; [|split; [|split; [|split]]].
    - intros limit offset. eexists. split; [reflexivity|].
      apply Forall_page, filter_owned_only.
    - intros q. eexists. split; [reflexivity|]. apply filter_owned.
    - intros q. eexists. split; [reflexivity|]. apply filter_owned.
    - intros today. eexists. split; [reflexivity|]. apply filter_owned.
    - intros contact_id c E. by apply get_contact_Some in E as (? & ? & ?). }
  destruct (Hrepo (User.id u)) as (Hlist & Hname & Hmail & Hbirth & _).
  split; [|split; [|split; [|split; [|split]]]].
  - intros limit offset. destruct (Hlist limit offset) as (cs & E & Hcs).
    exists cs. split; [|done].
    unfold RouterContact.list_contacts. rewrite (after_current_user _ _ _ u); [|done].
    session_unfold. by rewrite E.
  - intros [q|].
    + destruct (Hname q) as (cs & E & Hcs). exists cs. split; [|done].
      unfold RouterContact.search_name. rewrite (after_current_user _ _ _ u); [|done].
      session_unfold. by rewrite E.
    + exists []. split; [reflexivity | constructor].
  - intros [q|].
    + destruct (Hmail q) as (cs & E & Hcs). exists cs. split; [|done].
      unfold RouterContact.search_mail. rewrite (after_current_user _ _ _ u); [|done].
      session_unfold. by rewrite E.
    + exists []. split; [reflexivity | constructor].
  - intros today. destruct (Hbirth today) as (cs & E & Hcs).
    exists cs. split; [|done].
    unfold RouterContact.birthday_list. rewrite (after_current_user _ _ _ u); [|done].
    session_unfold. by rewrite E.
  - intros id_ c. rewrite router_get_contact_raises. discriminate.
  - exact Hrepo.
Qed.


End OwnerScoping.

Lemma contact_reads_owner_scoped_witness :
  Auth.get_current_user (H := Demo.platform)
    (Demo.token_for "access_token" "a@example.com" 2000) 1000000000 Demo.db
    = (Demo.db, Ok Demo.ann_owner) /\
  exists cs,
    RouterContact.list_contacts (H := Demo.platform) 10 0
      (Demo.token_for "access_token" "a@example.com" 2000) 1000000000 Demo.db
      = (Demo.db, Ok cs) /\
    Spec.owned_rows Demo.db 1 cs.
Proof.
  assert (Hauth : Auth.get_current_user (H := Demo.platform)
            (Demo.token_for "access_token" "a@example.com" 2000) 1000000000 Demo.db
            = (Demo.db, Ok Demo.ann_owner)) by (vm_compute; reflexivity).
  split; [exact Hauth|].
  destruct (contact_reads_owner_scoped (H := Demo.platform) Demo.db
              (Demo.token_for "access_token" "a@example.com" 2000) 1000000000
              Demo.ann_owner Hauth) as (Hlist & _).
  exact (Hlist 10%nat 0%nat).
Defined.

(* --------------------------------------------------------------------- *)
(** ** Editing and deleting a contact *)
(* --------------------------------------------------------------------- *)

Section EditDelete.
Import Models Db Schemas.
Context `{Platform}.

Lemma get_contact_reads (contact_id user_id : Z) (db : Db.t) :
  RepoContact.get_contact contact_id user_id db =
    (db, snd (RepoContact.get_contact contact_id user_id db)).
Proof. reflexivity. Qed.

(** The loop over the body on a contact that exists. *)
Lemma for_each_assign_Some (body : ContactEditSchema) (c : Contact.t) :
  Obj.for_each RepoContact.assign (items body) (Some c) =
    Ok (Some (Contact.mk (Contact.id c)
                (match first_name body with Some v => Some v | None => Contact.first_name c end)
                (match last_name body with Some v => Some v | None => Contact.last_name c end)
                (match email body with Some v => Some v | None => Contact.email c end)
                (match birth_date body with Some v => v | None => Contact.birth_date c end)
                (Contact.created_by c) (Contact.created_at c) (Contact.modified_at c))).
Proof.
  destruct body as [[fn|] [ln|] [em|] [bd|]], c; reflexivity.
Qed.

(** The loop over the body on [None]: it raises at the first value that
    is not [None], and passes [None] on when there is no such value. *)
Lemma for_each_assign_None (body : ContactEditSchema) :
  Obj.for_each RepoContact.assign (items body) None = Ok None \/
  exists field, Obj.for_each RepoContact.assign (items body) None
                = Raise (Obj.no_attribute field).
Proof.
  destruct body as [[fn|] [ln|] [em|] [bd|]]; cbn;
    first [ by left | right; eexists; reflexivity ].
Qed.

Lemma filter_nil_of_Forall {A} (f : A -> bool) (rows : list A) :
  Forall (fun row => f row = false) rows -> List.filter f rows = [].
Proof.
  induction 1 as [|row rows Hrow _ IH]; [reflexivity|].
  cbn. by rewrite Hrow.
Qed.

Lemma get_contact_None (contact_id user_id : Z) (db : Db.t) :
  Spec.no_contact db contact_id user_id ->
  RepoContact.get_contact contact_id user_id db = (db, Ok None).
Proof.
  intros Hno. unfold RepoContact.get_contact.
  rewrite filter_nil_of_Forall; [reflexivity|].
  eapply Forall_impl; [exact Hno|]. cbn. intros row Hrow.
  apply andb_false_iff. unfold RepoContact.owned_by.
  destruct (Contact.created_by row =? user_id) eqn:Eo; [|by left].
  right. apply Z.eqb_neq. intros Ei. apply Hrow. split; [done | lia].
Qed.

(** [edit_contact] on a contact that the lookup finds ends in the commit
    of the object with the aware [modified_at]. *)
Lemma edit_contact_found (db : Db.t) (contact_id user_id : Z)
    (body : ContactEditSchema) (now : datetime) (c : Contact.t) :
  snd (RepoContact.get_contact contact_id user_id db) = Ok (Some c) ->
  RepoContact.edit_contact contact_id body user_id now db
    = (db, Raise (DBAPIError offset_mismatch)).
Proof.
  intros Hget. unfold RepoContact.edit_contact. session_unfold.
  rewrite get_contact_reads, Hget, for_each_assign_Some.
  reflexivity.
Qed.

(** C9. [edit_contact] assigns [datetime.now(timezone.utc)], a value with
    [tzinfo], to [modified_at], a column of naive timestamps.  For a
    contact that the owner-scoped lookup finds, and any edit body, the
    commit is therefore refused: [edit_contact] raises the session's
    [DBAPIError], which is no HTTP error, and returns no contact.  The
    tables stay exactly as they were: no field of the contact is
    overwritten, [modified_at] is not moved, and the lookup after the
    edit finds the contact as it was before.  The route, which calls
    [edit_contact] for the authenticated user, fails in the same way. *)
Theorem edit_contact_commit_refused (db : Db.t) (contact_id user_id : Z)
    (body : ContactEditSchema) (now : datetime) (c : Contact.t) :
  snd (RepoContact.get_contact contact_id user_id db) = Ok (Some c) ->
  RepoContact.edit_contact contact_id body user_id now db
    = (db, Raise (DBAPIError offset_mismatch)) /\
  unhandled (snd (RepoContact.edit_contact contact_id body user_id now db)) /\
  snd (RepoContact.get_contact contact_id user_id
         (fst (RepoContact.edit_contact contact_id body user_id now db)))
    = Ok (Some c) /\
  (forall token utcnow u,
      Auth.get_current_user token utcnow db = (db, Ok u) ->
      User.id u = user_id ->
      RouterContact.edit_contact contact_id body token utcnow now db
        = (db, Raise (DBAPIError offset_mismatch))).
Proof.
  intros Hget.
  pose proof (edit_contact_found db contact_id user_id body now c Hget) as E.
  split; [exact E|]. split; [by rewrite E|]. split; [by rewrite E|].
  intros token utcnow u Hauth Hid. subst user_id.
  unfold RouterContact.edit_contact.
  rewrite (after_current_user _ _ _ u); [|done].
  session_unfold. by rewrite E.
Qed.

(** C10. When no contact with the given id is owned by the requesting
    user, the owner-scoped lookup returns [None]; [edit_contact] then
    fails with an [AttributeError] on [None] and [delete_contact] with the
    session's refusal to delete [None].  Neither is an HTTP error, and the
    tables are left exactly as they were.  The routes, which call them for
    the authenticated user, fail in the same way. *)
Theorem edit_delete_missing_contact (db : Db.t) (contact_id user_id : Z) :
  Spec.no_contact db contact_id user_id ->
  RepoContact.get_contact contact_id user_id db = (db, Ok None) /\
  (forall body now,
      (exists field,
          RepoContact.edit_contact contact_id body user_id now db
            = (db, Raise (Obj.no_attribute field))) /\
      unhandled (snd (RepoContact.edit_contact contact_id body user_id now db))) /\
  (exists msg,
      RepoContact.delete_contact contact_id user_id db
        = (db, Raise (UnmappedInstanceError msg))) /\
  unhandled (snd (RepoContact.delete_contact contact_id user_id db)) /\
  (forall token utcnow u,
      Auth.get_current_user token utcnow db = (db, Ok u) ->
      User.id u = user_id ->
      (forall body now,
          fst (RouterContact.edit_contact contact_id body token utcnow now db) = db /\
          unhandled (snd (RouterContact.edit_contact contact_id body token utcnow now db))) /\
      fst (RouterContact.delete_contact contact_id token utcnow db) = db /\
      unhandled (snd (RouterContact.delete_contact contact_id token utcnow db))).
Proof.
  intros Hno. pose proof (get_contact_None _ _ _ Hno) as Hget.
  assert (Hedit : forall body now, exists field,
             RepoContact.edit_contact contact_id body user_id now db
               = (db, Raise (Obj.no_attribute field))).
  { intros body now. unfold RepoContact.edit_contact. session_unfold.
    rewrite Hget.
    destruct (for_each_assign_None body) as [E | [field E]]; rewrite E.
    - exists "modified_at". reflexivity.
    - exists field. reflexivity. }
  assert (Hdel : RepoContact.delete_contact contact_id user_id db
                 = (db, Raise (UnmappedInstanceError
                                 "Class 'builtins.NoneType' is not mapped"))).
  { unfold RepoContact.delete_contact. session_unfold. by rewrite Hget. }
  split; [done|]. split; [|split; [|split]].
  - intros body now. split; [apply Hedit|].
    destruct (Hedit body now) as [field E]. by rewrite E.
  - eexists. exact Hdel.
  - by rewrite Hdel.
  - intros token utcnow u Hauth Hid. subst user_id. split; [|split].
    + intros body now. unfold RouterContact.edit_contact.
      rewrite (after_current_user _ _ _ u); [|done].
      destruct (Hedit body now) as [field E].
      session_unfold. by rewrite E.
    + unfold RouterContact.delete_contact.
      rewrite (after_current_user _ _ _ u); [|done].
      session_unfold. by rewrite Hdel.
    + unfold RouterContact.delete_contact.
      rewrite (after_current_user _ _ _ u); [|done].
      session_unfold. by rewrite Hdel.
Qed.

End EditDelete.

Lemma edit_contact_commit_refused_witness :
  snd (RepoContact.get_contact 10 1 Demo.db) = Ok (Some Demo.ann) /\
  RepoContact.edit_contact 10
    {| Schemas.first_name := Some "Anna"; Schemas.last_name := None;
       Schemas.email := None; Schemas.birth_date := None |} 1 77 Demo.db
    = (Demo.db, Raise (DBAPIError Db.offset_mismatch)) /\
  snd (RepoContact.get_contact 10 1
         (fst (RepoContact.edit_contact 10
                 {| Schemas.first_name := Some "Anna"; Schemas.last_name := None;
                    Schemas.email := None; Schemas.birth_date := None |} 1 77 Demo.db)))
    = Ok (Some Demo.ann).
Proof.
  split; [reflexivity|].
  destruct (edit_contact_commit_refused (H := Demo.platform) Demo.db 10 1
              {| Schemas.first_name := Some "Anna"; Schemas.last_name := None;
                 Schemas.email := None; Schemas.birth_date := None |} 77 Demo.ann)
    as (E & _ & Hget & _); [reflexivity|].
  split; [exact E | exact Hget].
Defined.

Lemma edit_delete_missing_contact_witness :
  Spec.no_contact Demo.db 10 2 /\
  RepoContact.get_contact 10 2 Demo.db = (Demo.db, Ok None) /\
  unhandled (snd (RepoContact.delete_contact 10 2 Demo.db)).
Proof.
  assert (Hno : Spec.no_contact Demo.db 10 2).
  { repeat constructor; cbn; lia. }
  split; [exact Hno|].
  destruct (edit_delete_missing_contact (H := Demo.platform) Demo.db 10 2 Hno)
    as (Hget & _ & _ & Hdel & _).
  split; [exact Hget | exact Hdel].
Defined.

(* --------------------------------------------------------------------- *)
(** ** Token scope *)
(* --------------------------------------------------------------------- *)

Section TokenScope.
Import Models Db Schemas Jose.
Context `{Platform}.

Lemma eq_str_true (v : json) (s : string) : eq_str v s = true <-> v = JStr s.
Proof.
  destruct v; cbn; try (split; [discriminate | intros E; discriminate E]).
  rewrite String.eqb_eq. split; [by intros -> | by intros [= ->]].
Qed.

(** The decoder returns no payload whose subject is not a string. *)
Lemma decode_sub_is_str (tok : token) (key : string) (algs : list string)
    (utcnow : datetime) (payload : gmap string json) (v : json) :
  decode tok key algs utcnow = Some payload ->
  payload !! "sub" = Some v -> exists s, v = JStr s.
Proof.
  destruct tok as [alg k p|raw]; cbn; [|discriminate].
  destruct (_ && _) eqn:E; [|discriminate]. intros [= <-] Hsub.
  apply andb_prop in E as [_ E]. unfold valid_sub in E. rewrite Hsub in E.
  destruct v; try discriminate. by eexists.
Qed.

(** The decoder enforces the expiry: a token that decodes has not passed
    its [exp]. *)
Lemma decode_not_expired (tok : token) (key : string) (algs : list string)
    (utcnow : datetime) (payload : gmap string json) (exp : Z) :
  decode tok key algs utcnow = Some payload ->
  claim tok "exp" = Some (JInt exp) -> timegm utcnow <= exp.
Proof.
  destruct tok as [alg k p|raw]; cbn; [|discriminate].
  destruct (_ && _) eqn:E; [|discriminate]. intros _ Hexp.
  apply andb_prop in E as [E _]. apply andb_prop in E as [_ E].
  unfold valid_exp in E. rewrite Hexp in E.
  apply negb_true_iff, Z.ltb_ge in E. exact E.
Qed.

Lemma getitem_Ok (payload : gmap string json) (k : string) (v : json) :
  Auth.getitem payload k = Ok v <-> payload !! k = Some v.
Proof.
  unfold Auth.getitem. destruct (payload !! k); split; congruence.
Qed.

(** The [try] block of [get_current_user] gives an email only for a token
    that decodes with the access scope. *)
Lemma current_user_email_Ok (tok : token) (utcnow : datetime) (email : json) :
  Auth.current_user_email tok utcnow = Ok email ->
  exists payload,
    decode tok Auth.SECRET_KEY [Auth.ALGORITHM] utcnow = Some payload /\
    payload !! "scope" = Some (JStr "access_token") /\
    payload !! "sub" = Some email.
Proof.
  unfold Auth.current_user_email.
  destruct (decode _ _ _ _) as [payload|]; [|discriminate].
  session_unfold.
  destruct (Auth.getitem payload "scope") as [scope|] eqn:Es; [|discriminate].
  destruct (eq_str scope "access_token") eqn:Eq; [|discriminate].
  destruct (Auth.getitem payload "sub") as [sub|] eqn:Ee; [|discriminate].
  intros E. exists payload. apply eq_str_true in Eq. subst scope.
  apply getitem_Ok in Es, Ee. repeat split; try done.
  destruct sub; congruence.
Qed.

Lemma current_user_email_wrong_scope (tok : token) (utcnow : datetime)
    (payload : gmap string json) (scope : json) :
  decode tok Auth.SECRET_KEY [Auth.ALGORITHM] utcnow = Some payload ->
  payload !! "scope" = Some scope -> scope <> JStr "access_token" ->
  Auth.current_user_email tok utcnow = Raise Auth.credentials_exception.
Proof.
  intros Hd Hs Hne. unfold Auth.current_user_email. rewrite Hd.
  apply getitem_Ok in Hs. session_unfold. rewrite Hs.
  destruct (eq_str scope "access_token") eqn:Eq; [|reflexivity].
  apply eq_str_true in Eq. contradiction.
Qed.

Lemma decode_refresh_token_Ok (tok : token) (utcnow : datetime) (email : json) :
  Auth.decode_refresh_token tok utcnow = Ok email ->
  exists payload,
    decode tok Auth.SECRET_KEY [Auth.ALGORITHM] utcnow = Some payload /\
    payload !! "scope" = Some (JStr "refresh_token") /\
    payload !! "sub" = Some email.
Proof.
  unfold Auth.decode_refresh_token.
  destruct (decode _ _ _ _) as [payload|]; [|discriminate].
  session_unfold.
  destruct (Auth.getitem payload "scope") as [scope|] eqn:Es; [|discriminate].
  destruct (eq_str scope "refresh_token") eqn:Eq; [|discriminate].
  intros Ee. exists payload. apply eq_str_true in Eq. subst scope.
  apply getitem_Ok in Es, Ee. done.
Qed.

Lemma decode_refresh_token_wrong_scope (tok : token) (utcnow : datetime)
    (payload : gmap string json) (scope : json) :
  decode tok Auth.SECRET_KEY [Auth.ALGORITHM] utcnow = Some payload ->
  payload !! "scope" = Some scope -> scope <> JStr "refresh_token" ->
  Auth.decode_refresh_token tok utcnow =
    Raise (HTTPException HTTP_401_UNAUTHORIZED "Invalid scope for token").
Proof.
  intros Hd Hs Hne. unfold Auth.decode_refresh_token. rewrite Hd.
  apply getitem_Ok in Hs. session_unfold. rewrite Hs.
  destruct (eq_str scope "refresh_token") eqn:Eq; [|reflexivity].
  apply eq_str_true in Eq. contradiction.
Qed.

Lemma get_current_user_Ok (tok : token) (utcnow : datetime) (db : Db.t) (u : User.t) :
  snd (Auth.get_current_user tok utcnow db) = Ok u ->
  exists email, Auth.current_user_email tok utcnow = Ok email.
Proof.
  unfold Auth.get_current_user. session_unfold.
  destruct (Auth.current_user_email tok utcnow) as [email|e]; [by eexists|].
  cbn. discriminate.
Qed.

Lemma refresh_user_token_Ok (tok : token) (utcnow : nat -> datetime) (db : Db.t)
    (t : Token token) :
  snd (Auth.refresh_user_token tok utcnow db) = Ok t ->
  exists email, Auth.decode_refresh_token tok (utcnow 0%nat) = Ok email.
Proof.
  unfold Auth.refresh_user_token. session_unfold.
  destruct (Auth.decode_refresh_token tok (utcnow 0%nat)) as [email|e]; [by eexists|].
  cbn. discriminate.
Qed.

(** C3. Token scope is enforced by both consumers.  [get_current_user]
    returns a user only for a token that decodes with scope
    [access_token], and answers a token that decodes with scope
    [refresh_token] with the 401 error; [refresh_user_token] (through
    [decode_refresh_token]) returns a token pair only for a token that
    decodes with scope [refresh_token], and answers a token that decodes
    with scope [access_token] with the 401 error. *)
Theorem token_scope_enforced :
  (forall tok utcnow db u,
      snd (Auth.get_current_user tok utcnow db) = Ok u ->
      exists payload,
        decode tok Auth.SECRET_KEY [Auth.ALGORITHM] utcnow = Some payload /\
        payload !! "scope" = Some (JStr "access_token")) /\
  (forall tok utcnow db payload,
      decode tok Auth.SECRET_KEY [Auth.ALGORITHM] utcnow = Some payload ->
      payload !! "scope" = Some (JStr "refresh_token") ->
      Auth.get_current_user tok utcnow db
        = (db, Raise (HTTPException HTTP_401_UNAUTHORIZED "Could not validate credentials"))) /\
  (forall tok utcnow db t,
      snd (Auth.refresh_user_token tok utcnow db) = Ok t ->
      exists payload,
        decode tok Auth.SECRET_KEY [Auth.ALGORITHM] (utcnow 0%nat) = Some payload /\
        payload !! "scope" = Some (JStr "refresh_token")) /\
  (forall tok utcnow db payload,
      decode tok Auth.SECRET_KEY [Auth.ALGORITHM] (utcnow 0%nat) = Some payload ->
      payload !! "scope" = Some (JStr "access_token") ->
      Auth.decode_refresh_token tok (utcnow 0%nat)
        = Raise (HTTPException HTTP_401_UNAUTHORIZED "Invalid scope for token") /\
      Auth.refresh_user_token tok utcnow db
        = (db, Raise (HTTPException HTTP_401_UNAUTHORIZED "Invalid scope for token"))).
Proof.
  split; [|split; [|split]].
  - intros tok utcnow db u Hu.
    apply get_current_user_Ok in Hu as [email He].
    apply current_user_email_Ok in He as (payload & Hd & Hs & _).
    by exists payload.
  - intros tok utcnow db payload Hd Hs.
    unfold Auth.get_current_user. session_unfold.
    rewrite (current_user_email_wrong_scope tok utcnow payload (JStr "refresh_token"));
      [reflexivity | done | done | discriminate].
  - intros tok utcnow db t Ht.
    apply refresh_user_token_Ok in Ht as [email He].
    apply decode_refresh_token_Ok in He as (payload & Hd & Hs & _).
    by exists payload.
  - intros tok utcnow db payload Hd Hs.
    assert (E : Auth.decode_refresh_token tok (utcnow 0%nat)
                = Raise (HTTPException HTTP_401_UNAUTHORIZED "Invalid scope for token")).
    { apply (decode_refresh_token_wrong_scope tok _ payload (JStr "access_token"));
        [done | done | discriminate]. }
    split; [exact E|].
    unfold Auth.refresh_user_token. session_unfold. by rewrite E.
Qed.

End TokenScope.

Lemma token_scope_enforced_witness :
  Auth.get_current_user (H := Demo.platform)
    (Demo.token_for "refresh_token" "a@example.com" 2000) 1000000000 Demo.db
    = (Demo.db, Raise (HTTPException HTTP_401_UNAUTHORIZED "Could not validate credentials")) /\
  Auth.refresh_user_token (H := Demo.platform)
    (Demo.token_for "access_token" "a@example.com" 2000) Demo.utcnow Demo.db
    = (Demo.db, Raise (HTTPException HTTP_401_UNAUTHORIZED "Invalid scope for token")) /\
  (exists payload,
      Jose.decode (Demo.token_for "access_token" "a@example.com" 2000)
        (Auth.SECRET_KEY (H := Demo.platform)) [Auth.ALGORITHM] 1000000000 = Some payload /\
      payload !! "scope" = Some (Jose.JStr "access_token")).
Proof.
  destruct (token_scope_enforced (H := Demo.platform)) as (Hacc & Hrej & _ & Hrej').
  split; [|split].
  - eapply (Hrej (Demo.token_for "refresh_token" "a@example.com" 2000) 1000000000 Demo.db);
      vm_compute; reflexivity.
  - eapply (Hrej' (Demo.token_for "access_token" "a@example.com" 2000) Demo.utcnow Demo.db);
      vm_compute; reflexivity.
  - apply (Hacc (Demo.token_for "access_token" "a@example.com" 2000) 1000000000 Demo.db
             Demo.ann_owner).
    vm_compute; reflexivity.
Defined.

(* --------------------------------------------------------------------- *)
(** ** Login and activation *)
(* --------------------------------------------------------------------- *)

Section Login.
Import Models Db Schemas Jose.
Context `{Platform}.

Lemma find_user_result (email : string) (db : Db.t) :
  RepoUser.find_user email db = (db, snd (RepoUser.find_user email db)).
Proof. reflexivity. Qed.

(** [authenticate_user] by cases on what the query finds. *)
Lemma authenticate_user_cases (email password : string) (db : Db.t) :
  Auth.authenticate_user email password db =
    (db, match snd (RepoUser.find_user email db) with
         | Raise e => Raise e
         | Ok None => Ok None
         | Ok (Some u) =>
             if Auth.verify_password password (User.passwd u) then Ok (Some u)
             else Ok None
         end).
Proof.
  unfold Auth.authenticate_user. session_unfold.
  rewrite get_user_find_user, find_user_result.
  destruct (snd (RepoUser.find_user email db)) as [[u|]|e]; cbn; try reflexivity.
  destruct (Auth.verify_password password (User.passwd u)); reflexivity.
Qed.

(** Failed credentials: the guard of [generate_token] reads [is_active]
    off [None]. *)
Lemma generate_token_no_user (form_data : OAuth2PasswordRequestForm) (entropy : Z)
    (utcnow : nat -> datetime) (db : Db.t) :
  Auth.authenticate_user (username form_data) (password form_data) db = (db, Ok None) ->
  Auth.generate_token form_data entropy utcnow db
    = (db, Raise (Obj.no_attribute "is_active")).
Proof.
  intros E. unfold Auth.generate_token. session_unfold.
  rewrite E. reflexivity.
Qed.

(** An account that is not active is answered with 401. *)
Lemma generate_token_inactive (form_data : OAuth2PasswordRequestForm) (entropy : Z)
    (utcnow : nat -> datetime) (db : Db.t) (u : User.t) :
  Auth.authenticate_user (username form_data) (password form_data) db = (db, Ok (Some u)) ->
  User.is_active u = false ->
  Auth.generate_token form_data entropy utcnow db
    = (db, Raise (HTTPException HTTP_401_UNAUTHORIZED "User is not activated")).
Proof.
  intros E Hact. unfold Auth.generate_token. session_unfold.
  rewrite E. cbn. rewrite Hact. reflexivity.
Qed.

End Login.

(** C4 (the code departs from it).  A login with an email that no user
    has, and a login with a password that does not verify against the
    stored hash, both end in an [AttributeError] raised by the guard
    [not user and not user.is_active], not in the 401 error; no token
    pair is issued and the tables are untouched.  A login to an account
    that is not active does get the 401 error. *)
Theorem generate_token_bad_credentials :
  (forall (P : Platform) entropy utcnow,
      Auth.generate_token (H := P)
        {| Schemas.username := "nobody@example.com"; Schemas.password := "pw" |}
        entropy utcnow Demo.db
      = (Demo.db, Raise (AttributeError "'NoneType' object has no attribute 'is_active'"))) /\
  (forall entropy utcnow,
      Auth.generate_token (H := Demo.platform)
        {| Schemas.username := "a@example.com"; Schemas.password := "wrong" |}
        entropy utcnow Demo.db
      = (Demo.db, Raise (AttributeError "'NoneType' object has no attribute 'is_active'"))) /\
  ~ unauthorized
      (snd (Auth.generate_token (H := Demo.platform)
              {| Schemas.username := "nobody@example.com"; Schemas.password := "pw" |}
              0 Demo.utcnow Demo.db)) /\
  (forall entropy utcnow,
      Auth.generate_token (H := Demo.platform)
        {| Schemas.username := "c@example.com"; Schemas.password := "pw-c" |}
        entropy utcnow Demo.db
      = (Demo.db, Raise (HTTPException HTTP_401_UNAUTHORIZED "User is not activated"))).
Proof.
  split; [|split; [|split]].
  - intros P entropy utcnow. by apply generate_token_no_user.
  - intros entropy utcnow. by apply generate_token_no_user.
  - rewrite generate_token_no_user by reflexivity. intros [detail E]. discriminate E.
  - intros entropy utcnow.
    by apply (generate_token_inactive _ _ _ _ Demo.carol_inactive).
Qed.

Section Activation.
Import Models Db Schemas.

Lemma activate_user_unknown (user_mail : string) (otp : Z) (db : Db.t) :
  snd (RepoUser.find_user user_mail db) = Ok None ->
  Auth.activate_user user_mail otp db
    = (db, Raise (HTTPException HTTP_401_UNAUTHORIZED "User is not found")).
Proof.
  intros E. unfold Auth.activate_user. session_unfold.
  rewrite find_user_result, E. reflexivity.
Qed.

Lemma otp_eq_true (stored : option Z) (otp : Z) :
  Auth.otp_eq stored otp = true <-> stored = Some otp.
Proof.
  unfold Auth.otp_eq. destruct stored as [n|]; [|split; discriminate].
  rewrite Z.eqb_eq. split; [by intros -> | by intros [= ->]].
Qed.

Lemma activate_user_mismatch (user_mail : string) (otp : Z) (db : Db.t) (u : User.t) :
  snd (RepoUser.find_user user_mail db) = Ok (Some u) ->
  User.otp u <> Some otp ->
  Auth.activate_user user_mail otp db
    = (db, Raise (HTTPException HTTP_401_UNAUTHORIZED "User is not found")).
Proof.
  intros E Hne. unfold Auth.activate_user. session_unfold.
  rewrite find_user_result, E. cbn.
  destruct (Auth.otp_eq (User.otp u) otp) eqn:Eo; [|reflexivity].
  apply otp_eq_true in Eo. contradiction.
Qed.

Lemma activate_user_match (user_mail : string) (otp : Z) (db : Db.t) (u : User.t) :
  snd (RepoUser.find_user user_mail db) = Ok (Some u) ->
  User.otp u = Some otp ->
  Auth.activate_user user_mail otp db
    = (Spec.users_with db (User.set_is_active true u), Ok (User.set_is_active true u)).
Proof.
  intros E Ho. unfold Auth.activate_user. session_unfold.
  rewrite find_user_result, E. cbn.
  apply otp_eq_true in Ho. rewrite Ho. reflexivity.
Qed.

(** C5, as the code has it.  Activation with an email that no user has
    fails with the 401 error (not with a 404); activation of an existing
    user with an OTP that differs from the persisted one fails with a 401
    error; in both cases nothing is written.  With the persisted OTP the
    user is written back with [is_active] set and is returned.  For an
    existing user, activation succeeds exactly when the submitted OTP
    equals the persisted one. *)
Theorem activate_user_outcomes (db : Db.t) (user_mail : string) (otp : Z) :
  (snd (RepoUser.find_user user_mail db) = Ok None ->
   fst (Auth.activate_user user_mail otp db) = db /\
   unauthorized (snd (Auth.activate_user user_mail otp db))) /\
  (forall u,
      snd (RepoUser.find_user user_mail db) = Ok (Some u) ->
      User.otp u <> Some otp ->
      fst (Auth.activate_user user_mail otp db) = db /\
      unauthorized (snd (Auth.activate_user user_mail otp db))) /\
  (forall u,
      snd (RepoUser.find_user user_mail db) = Ok (Some u) ->
      User.otp u = Some otp ->
      exists u',
        Auth.activate_user user_mail otp db = (Spec.users_with db u', Ok u') /\
        u' = User.set_is_active true u /\
        User.is_active u' = true) /\
  (forall u,
      snd (RepoUser.find_user user_mail db) = Ok (Some u) ->
      (is_ok (snd (Auth.activate_user user_mail otp db)) = true <-> User.otp u = Some otp)).
Proof.
  split; [|split; [|split]].
  - intros E. rewrite (activate_user_unknown _ _ _ E). split; [done | by eexists].
  - intros u E Hne. rewrite (activate_user_mismatch _ _ _ _ E Hne).
    split; [done | by eexists].
  - intros u E Ho. eexists. split; [by apply activate_user_match|]. done.
  - intros u E. split.
    + intros Hok. destruct (decide (User.otp u = Some otp)) as [|Hne]; [done|].
      rewrite (activate_user_mismatch _ _ _ _ E Hne) in Hok. discriminate.
    + intros Ho. by rewrite (activate_user_match _ _ _ _ E Ho).
Qed.

End Activation.

(** C5 as stated fails: an unknown email is answered with status 401, not
    with NotFound. *)
Lemma activate_user_unknown_email_is_401 :
  snd (RepoUser.find_user "nobody@example.com" Demo.db) = Ok None /\
  snd (Auth.activate_user "nobody@example.com" 123456 Demo.db)
    = Raise (HTTPException 401 "User is not found") /\
  ~ not_found (snd (Auth.activate_user "nobody@example.com" 123456 Demo.db)).
Proof.
  split; [reflexivity|]. split; [reflexivity|].
  intros [detail E]. discriminate E.
Qed.

Lemma activate_user_outcomes_witness :
  snd (RepoUser.find_user "c@example.com" Demo.db) = Ok (Some Demo.carol_inactive) /\
  Models.User.otp Demo.carol_inactive = Some 111111 /\
  exists u',
    Auth.activate_user "c@example.com" 111111 Demo.db = (Spec.users_with Demo.db u', Ok u') /\
    u' = Models.User.set_is_active true Demo.carol_inactive /\
    Models.User.is_active u' = true.
Proof.
  split; [reflexivity|]. split; [reflexivity|].
  destruct (activate_user_outcomes Demo.db "c@example.com" 111111) as (_ & _ & Hmatch & _).
  apply (Hmatch Demo.carol_inactive); reflexivity.
Defined.

(* --------------------------------------------------------------------- *)
(** ** Issued tokens *)
(* --------------------------------------------------------------------- *)

Section IssuedTokens.
Import Models Db Schemas Jose.
Context `{Platform}.

Lemma timegm_add_minutes (t : datetime) (minutes : Z) :
  timegm (t + timedelta_minutes minutes) = timegm t + minutes * 60.
Proof.
  unfold timegm, timedelta_minutes.
  replace (t + minutes * 60 * 1000000) with (t + (minutes * 60) * 1000000) by lia.
  by rewrite Z.div_add.
Qed.

Lemma encode_Ok (claims : gmap string pyval) (key alg : string) (tok : token) :
  encode claims key alg = Ok tok -> tok = Signed alg key (map_imap to_json claims).
Proof. unfold encode. destruct (serialisable claims); congruence. Qed.

(** The claims that the two issuers build can always be serialised. *)
Lemma issuer_claims_serialisable (email scope : string) (expire iat : datetime) :
  serialisable (<["scope" := PStr scope]>
                  (<["iat" := PDatetime iat]>
                     (<["exp" := PDatetime expire]> {["sub" := PStr email]}))) = true.
Proof.
  unfold serialisable. apply bool_decide_eq_true.
  apply map_Forall_insert_2; [by exists (JStr scope)|].
  apply map_Forall_insert_2; [by exists (JInt (timegm iat))|].
  apply map_Forall_insert_2; [by exists (JInt (timegm expire))|].
  apply map_Forall_singleton. by exists (JStr email).
Qed.

Lemma issued_claims (data : gmap string pyval) (scope : string) (expire iat : datetime)
    (key alg : string) (tok : token) :
  encode (<["scope" := PStr scope]>
            (<["iat" := PDatetime iat]> (<["exp" := PDatetime expire]> data))) key alg
    = Ok tok ->
  claim tok "exp" = Some (JInt (timegm expire)) /\
  claim tok "iat" = Some (JInt (timegm iat)) /\
  claim tok "scope" = Some (JStr scope).
Proof.
  intros E. apply encode_Ok in E. subst tok. cbn.
  rewrite !map_lookup_imap.
  split; [|split].
  - rewrite lookup_insert_ne by done. rewrite lookup_insert_ne by done.
    by rewrite lookup_insert_eq.
  - rewrite lookup_insert_ne by done. by rewrite lookup_insert_eq.
  - by rewrite lookup_insert_eq.
Qed.

(** An access token expires after the given delta, or after 15 minutes
    when none is given. *)
Lemma create_access_token_minutes (data : gmap string pyval) (minutes : Z)
    (utcnow : nat -> datetime) (tok : token) :
  minutes <> 0 ->
  Auth.create_access_token data (Some (timedelta_minutes minutes)) utcnow = Ok tok ->
  Spec.expires_after tok (utcnow 0%nat) minutes.
Proof.
  intros Hm E. unfold Auth.create_access_token in E.
  apply issued_claims in E as (He & _ & _).
  unfold Spec.expires_after. rewrite He.
  assert (Hg : Auth.delta_given (Some (timedelta_minutes minutes)) = true).
  { unfold Auth.delta_given, timedelta_minutes.
    apply negb_true_iff, Z.eqb_neq. lia. }
  rewrite Hg. cbv beta iota zeta.
  change (default 0 (Some (timedelta_minutes minutes)))
    with (timedelta_minutes minutes).
  by rewrite timegm_add_minutes.
Qed.

Lemma create_access_token_default (data : gmap string pyval)
    (utcnow : nat -> datetime) (tok : token) :
  Auth.create_access_token data None utcnow = Ok tok ->
  Spec.expires_after tok (utcnow 0%nat) 15.
Proof.
  intros E. unfold Auth.create_access_token in E.
  apply issued_claims in E as (He & _ & _).
  unfold Spec.expires_after. rewrite He.
  change (Auth.delta_given None) with false. cbv beta iota zeta.
  by rewrite timegm_add_minutes.
Qed.

(** A refresh token expires after the given delta, or after 1000 minutes
    when none is given. *)
Lemma create_refresh_token_minutes (data : gmap string pyval) (minutes : Z)
    (utcnow : nat -> datetime) (tok : token) :
  minutes <> 0 ->
  Auth.create_refresh_token data (Some (timedelta_minutes minutes)) utcnow = Ok tok ->
  Spec.expires_after tok (utcnow 0%nat) minutes.
Proof.
  intros Hm E. unfold Auth.create_refresh_token in E.
  apply issued_claims in E as (He & _ & _).
  unfold Spec.expires_after. rewrite He.
  assert (Hg : Auth.delta_given (Some (timedelta_minutes minutes)) = true).
  { unfold Auth.delta_given, timedelta_minutes.
    apply negb_true_iff, Z.eqb_neq. lia. }
  rewrite Hg. cbv beta iota zeta.
  change (default 0 (Some (timedelta_minutes minutes)))
    with (timedelta_minutes minutes).
  by rewrite timegm_add_minutes.
Qed.

Lemma create_refresh_token_default (data : gmap string pyval)
    (utcnow : nat -> datetime) (tok : token) :
  Auth.create_refresh_token data None utcnow = Ok tok ->
  Spec.expires_after tok (utcnow 0%nat) 1000.
Proof.
  intros E. unfold Auth.create_refresh_token in E.
  apply issued_claims in E as (He & _ & _).
  unfold Spec.expires_after. rewrite He.
  change (Auth.delta_given None) with false. cbv beta iota zeta.
  by rewrite timegm_add_minutes.
Qed.

Lemma create_access_token_total (email : string) (delta : option timedelta)
    (utcnow : nat -> datetime) :
  exists tok, Auth.create_access_token {["sub" := PStr email]} delta utcnow = Ok tok.
Proof.
  unfold Auth.create_access_token, encode.
  rewrite issuer_claims_serialisable. by eexists.
Qed.

Lemma create_refresh_token_total (email : string) (delta : option timedelta)
    (utcnow : nat -> datetime) :
  exists tok, Auth.create_refresh_token {["sub" := PStr email]} delta utcnow = Ok tok.
Proof.
  unfold Auth.create_refresh_token, encode.
  rewrite issuer_claims_serialisable. by eexists.
Qed.

(** Resetting the OTP of a user object writes the drawn value. *)
Lemma update_otp_draw (u : User.t) (entropy : Z) (db : Db.t) :
  RepoUser.update_otp (Some u) None entropy db =
    (Spec.users_with db (User.set_otp (Some (RepoUser.randint 100000 999999 entropy)) u),
     Ok (User.set_otp (Some (RepoUser.randint 100000 999999 entropy)) u,
         RepoUser.randint 100000 999999 entropy)).
Proof. reflexivity. Qed.

(** What a successful login has done. *)
Lemma generate_token_Ok (form_data : OAuth2PasswordRequestForm) (entropy : Z)
    (utcnow : nat -> datetime) (db : Db.t) (tokens : Token token) :
  snd (Auth.generate_token form_data entropy utcnow db) = Ok tokens ->
  exists u,
    snd (RepoUser.find_user (username form_data) db) = Ok (Some u) /\
    Auth.verify_password (password form_data) (User.passwd u) = true /\
    User.is_active u = true /\
    fst (Auth.generate_token form_data entropy utcnow db)
      = Spec.users_with db (User.set_otp (Some (RepoUser.randint 100000 999999 entropy)) u) /\
    Auth.create_access_token {["sub" := PStr (User.email u)]}
      (Some (timedelta_minutes Auth.ACCESS_TOKEN_EXPIRE_MINUTES)) utcnow
      = Ok (access_token tokens) /\
    Auth.create_refresh_token {["sub" := PStr (User.email u)]}
      (Some (timedelta_minutes Auth.REFRESH_TOKEN_EXPIRATION))
      (fun k => utcnow (2 + k)%nat)
      = Ok (refresh_token tokens).
Proof.
  unfold Auth.generate_token. session_unfold.
  rewrite authenticate_user_cases.
  destruct (snd (RepoUser.find_user (username form_data) db)) as [[u|]|e] eqn:Ef;
    cbn -[Auth.create_access_token Auth.create_refresh_token RepoUser.randint]; try discriminate.
  destruct (Auth.verify_password (password form_data) (User.passwd u)) eqn:Ev;
    cbn -[Auth.create_access_token Auth.create_refresh_token RepoUser.randint]; [|discriminate].
  destruct (User.is_active u) eqn:Ea; cbn -[Auth.create_access_token Auth.create_refresh_token RepoUser.randint]; [|discriminate].
  rewrite update_otp_draw.
  cbn -[Auth.create_access_token Auth.create_refresh_token RepoUser.randint].
  destruct (Auth.create_access_token _ _ _) as [a|e] eqn:Eacc; cbn -[Auth.create_access_token Auth.create_refresh_token RepoUser.randint]; [|discriminate].
  destruct (Auth.create_refresh_token _ _ _) as [r|e] eqn:Eref; cbn -[Auth.create_access_token Auth.create_refresh_token RepoUser.randint]; [|discriminate].
  intros [= <-]. exists u. cbn. repeat split; done.
Qed.

(** A login with the right password to an active account succeeds. *)
Lemma generate_token_succeeds (form_data : OAuth2PasswordRequestForm) (entropy : Z)
    (utcnow : nat -> datetime) (db : Db.t) (u : User.t) :
  snd (RepoUser.find_user (username form_data) db) = Ok (Some u) ->
  Auth.verify_password (password form_data) (User.passwd u) = true ->
  User.is_active u = true ->
  is_ok (snd (Auth.generate_token form_data entropy utcnow db)) = true.
Proof.
  intros Ef Ev Ea. unfold Auth.generate_token. session_unfold.
  rewrite authenticate_user_cases, Ef, Ev.
  cbn -[Auth.create_access_token Auth.create_refresh_token RepoUser.randint].
  rewrite Ea, update_otp_draw.
  cbn -[Auth.create_access_token Auth.create_refresh_token RepoUser.randint].
  destruct (create_access_token_total (User.email u)
              (Some (timedelta_minutes Auth.ACCESS_TOKEN_EXPIRE_MINUTES)) utcnow)
    as [a Ha].
  destruct (create_refresh_token_total (User.email u)
              (Some (timedelta_minutes Auth.REFRESH_TOKEN_EXPIRATION))
              (fun k => utcnow (2 + k)%nat)) as [r Hr].
  change (fun k : nat => utcnow (S (S k))) with (fun k => utcnow (2 + k)%nat).
  rewrite Ha, Hr. reflexivity.
Qed.

(** What a successful refresh has done. *)
Lemma refresh_user_token_issued (tok : token) (utcnow : nat -> datetime) (db : Db.t)
    (tokens : Token token) :
  snd (Auth.refresh_user_token tok utcnow db) = Ok tokens ->
  exists email,
    Auth.create_access_token {["sub" := PStr email]} None (fun k => utcnow (1 + k)%nat)
      = Ok (access_token tokens) /\
    Auth.create_refresh_token {["sub" := PStr email]} None (fun k => utcnow (3 + k)%nat)
      = Ok (refresh_token tokens).
Proof.
  unfold Auth.refresh_user_token. session_unfold.
  destruct (Auth.decode_refresh_token tok (utcnow 0%nat)) as [email|e]; [|discriminate].
  destruct (Auth.subject email) as [s|e]; [|discriminate].
  rewrite find_user_result.
  destruct (snd (RepoUser.find_user s db)) as [[u|]|e]; cbn -[Auth.create_access_token Auth.create_refresh_token]; try discriminate.
  destruct (User.is_active u); cbn -[Auth.create_access_token Auth.create_refresh_token]; [|discriminate].
  destruct (Auth.create_access_token _ _ _) as [a|e] eqn:Eacc; cbn -[Auth.create_access_token Auth.create_refresh_token]; [|discriminate].
  destruct (Auth.create_refresh_token _ _ _) as [r|e] eqn:Eref; cbn -[Auth.create_access_token Auth.create_refresh_token]; [|discriminate].
  intros [= <-]. exists s. split; [exact Eacc | exact Eref].
Qed.

(** The refresh path issues its access token with the issuer's default
    of 15 minutes. *)
Lemma refresh_path_access_token_15 (tok : token) (utcnow : nat -> datetime) (db : Db.t)
    (tokens : Token token) :
  snd (Auth.refresh_user_token tok utcnow db) = Ok tokens ->
  Spec.expires_after (access_token tokens) (utcnow 1%nat) 15.
Proof.
  intros E. apply refresh_user_token_issued in E as (email & Ha & _).
  exact (create_access_token_default _ _ _ Ha).
Qed.

Lemma login_refresh_token_1440 (form_data : OAuth2PasswordRequestForm) (entropy : Z)
    (utcnow : nat -> datetime) (db : Db.t) (tokens : Token token) :
  snd (Auth.generate_token form_data entropy utcnow db) = Ok tokens ->
  Spec.expires_after (refresh_token tokens) (utcnow 2%nat) 1440.
Proof.
  intros E. apply generate_token_Ok in E as (u & _ & _ & _ & _ & _ & Hr).
  apply create_refresh_token_minutes in Hr; [exact Hr | discriminate].
Qed.

(** C6, as the code has it.  On the login path every issued access token
    expires 30 minutes, and every issued refresh token 1440 minutes,
    after the clock reading taken when it is issued; on the refresh path
    every issued refresh token expires 1000 minutes after that reading. *)
Theorem token_lifetimes :
  (forall form_data entropy utcnow db tokens,
      snd (Auth.generate_token form_data entropy utcnow db) = Ok tokens ->
      Spec.expires_after (access_token tokens) (utcnow 0%nat) 30 /\
      Spec.expires_after (refresh_token tokens) (utcnow 2%nat) 1440) /\
  (forall tok utcnow db tokens,
      snd (Auth.refresh_user_token tok utcnow db) = Ok tokens ->
      Spec.expires_after (refresh_token tokens) (utcnow 3%nat) 1000).
Proof.
  split.
  - intros form_data entropy utcnow db tokens E.
    split; [|exact (login_refresh_token_1440 _ _ _ _ _ E)].
    apply generate_token_Ok in E as (u & _ & _ & _ & _ & Ha & _).
    apply create_access_token_minutes in Ha; [exact Ha | discriminate].
  - intros tok utcnow db tokens E.
    apply refresh_user_token_issued in E as (email & _ & Hr).
    exact (create_refresh_token_default _ _ _ Hr).
Qed.

End IssuedTokens.

(** C6 as stated fails on both paths: the refresh token of a login lives
    1440 minutes, not 1000, and the access token of a refresh lives 15
    minutes, not 30. *)
Lemma token_lifetimes_not_30_and_1000 :
  (exists tokens,
      snd (Auth.generate_token (H := Demo.platform)
             {| Schemas.username := "a@example.com"; Schemas.password := "pw-a" |}
             0 Demo.utcnow Demo.db) = Ok tokens /\
      ~ Spec.expires_after (Schemas.refresh_token tokens) (Demo.utcnow 2%nat) 1000) /\
  (exists tokens,
      snd (Auth.refresh_user_token (H := Demo.platform)
             (Demo.token_for "refresh_token" "a@example.com" 2000)
             Demo.utcnow Demo.db) = Ok tokens /\
      ~ Spec.expires_after (Schemas.access_token tokens) (Demo.utcnow 1%nat) 30).
Proof.
  split.
  - destruct (snd (Auth.generate_token (H := Demo.platform)
               {| Schemas.username := "a@example.com"; Schemas.password := "pw-a" |}
               0 Demo.utcnow Demo.db)) as [tokens|e] eqn:E.
    + exists tokens. split; [reflexivity|].
      apply login_refresh_token_1440 in E. unfold Spec.expires_after in *.
      rewrite E. intros Habs.
      apply (f_equal (fun o => match o with Some (Jose.JInt n) => n | _ => 0 end)) in Habs.
      vm_compute in Habs. discriminate Habs.
    + assert (Hok : is_ok (snd (Auth.generate_token (H := Demo.platform)
                 {| Schemas.username := "a@example.com"; Schemas.password := "pw-a" |}
                 0 Demo.utcnow Demo.db)) = true).
      { by apply (generate_token_succeeds _ _ _ _ Demo.ann_owner). }
      rewrite E in Hok. discriminate Hok.
  - destruct (snd (Auth.refresh_user_token (H := Demo.platform)
               (Demo.token_for "refresh_token" "a@example.com" 2000)
               Demo.utcnow Demo.db)) as [tokens|e] eqn:E.
    + exists tokens. split; [reflexivity|].
      apply refresh_path_access_token_15 in E. unfold Spec.expires_after in *.
      rewrite E. intros Habs.
      apply (f_equal (fun o => match o with Some (Jose.JInt n) => n | _ => 0 end)) in Habs.
      vm_compute in Habs. discriminate Habs.
    + exfalso. vm_compute in E. discriminate E.
Qed.

Lemma token_lifetimes_witness :
  exists tokens,
    snd (Auth.generate_token (H := Demo.platform)
           {| Schemas.username := "a@example.com"; Schemas.password := "pw-a" |}
           0 Demo.utcnow Demo.db) = Ok tokens /\
    Spec.expires_after (Schemas.access_token tokens) (Demo.utcnow 0%nat) 30 /\
    Spec.expires_after (Schemas.refresh_token tokens) (Demo.utcnow 2%nat) 1440.
Proof.
  destruct (snd (Auth.generate_token (H := Demo.platform)
             {| Schemas.username := "a@example.com"; Schemas.password := "pw-a" |}
             0 Demo.utcnow Demo.db)) as [tokens|e] eqn:E.
  - exists tokens. split; [reflexivity|].
    destruct (token_lifetimes (H := Demo.platform)) as [Hlogin _].
    exact (Hlogin _ _ _ _ _ E).
  - assert (Hok : is_ok (snd (Auth.generate_token (H := Demo.platform)
               {| Schemas.username := "a@example.com"; Schemas.password := "pw-a" |}
               0 Demo.utcnow Demo.db)) = true).
    { by apply (generate_token_succeeds _ _ _ _ Demo.ann_owner). }
    rewrite E in Hok. discriminate Hok.
Defined.

(* --------------------------------------------------------------------- *)
(** ** The OTP after a login *)
(* --------------------------------------------------------------------- *)

Section OtpReset.
Import Models Db Schemas Jose.
Context `{Platform}.

(** The draw is a six-digit number, whatever the generator's state. *)
Lemma randint_six_digits (entropy : Z) :
  100000 <= RepoUser.randint 100000 999999 entropy <= 999999.
Proof.
  unfold RepoUser.randint.
  pose proof (Z.mod_pos_bound entropy (999999 - 100000 + 1)). lia.
Qed.

(** Every six-digit number can be drawn. *)
Lemma randint_onto (n : Z) :
  100000 <= n <= 999999 -> RepoUser.randint 100000 999999 (n - 100000) = n.
Proof.
  intros Hn. unfold RepoUser.randint. rewrite Z.mod_small by lia. lia.
Qed.

Lemma filter_map_commute {A} (p : A -> bool) (f : A -> A) (rows : list A) :
  (forall row, In row rows -> p (f row) = p row) ->
  List.filter p (map f rows) = map f (List.filter p rows).
Proof.
  induction rows as [|row rows IH]; intros Hp; [reflexivity|].
  cbn. rewrite (Hp row) by (by left).
  rewrite IH by (intros r Hr; apply Hp; by right).
  by destruct (p row).
Qed.

(** Under the primary key, two rows with one id are one row. *)
Lemma keyed_rows_equal (rows : list User.t) (x y : User.t) :
  NoDup (map User.id rows) -> In x rows -> In y rows ->
  User.id x = User.id y -> x = y.
Proof.
  induction rows as [|row rows IH]; intros Hnd Hx Hy Hid; [destruct Hx|].
  cbn in Hnd. apply NoDup_cons in Hnd as [Hnotin Hnd].
  destruct Hx as [->|Hx], Hy as [->|Hy].
  - reflexivity.
  - exfalso. apply Hnotin, list_elem_of_In. rewrite Hid. by apply List.in_map.
  - exfalso. apply Hnotin, list_elem_of_In. rewrite <- Hid. by apply List.in_map.
  - by apply IH.
Qed.

(** After a committed change that keeps id and email, the query by email
    finds the changed object. *)
Lemma find_user_after_commit (email : string) (db : Db.t) (u u' : User.t) :
  Spec.users_keyed db ->
  snd (RepoUser.find_user email db) = Ok (Some u) ->
  User.id u' = User.id u -> User.email u' = User.email u ->
  snd (RepoUser.find_user email (Spec.users_with db u')) = Ok (Some u').
Proof.
  intros Hkey Hfind Hid Hemail.
  unfold RepoUser.find_user, Spec.users_with in *. cbn [snd users] in *.
  set (p := fun row : User.t => String.eqb (User.email row) email) in *.
  apply scalar_one_or_none_Some in Hfind.
  assert (Hu : In u (List.filter p (users db))) by (rewrite Hfind; by left).
  apply List.filter_In in Hu as [Hin Hmail].
  rewrite filter_map_commute.
  - rewrite Hfind. cbn [map]. rewrite Hid, Z.eqb_refl. reflexivity.
  - intros row Hrow.
    destruct (Z.eqb_spec (User.id row) (User.id u')) as [E|_]; [|reflexivity].
    assert (row = u) by (apply (keyed_rows_equal (users db)); try done; congruence).
    subst row. unfold p. by rewrite Hemail.
Qed.

(** C7, as the code has it.  A successful login writes, as the persisted
    OTP of the user that logged in, the number that [randint] draws; the
    draw is a six-digit number, and the token pair is issued for that
    user.  Under the primary key of the users table the user is then
    found with the drawn OTP, and a new activation with the OTP from
    before the login fails with a 401 error whenever the draw differs
    from that OTP. *)
Theorem login_resets_otp (form_data : OAuth2PasswordRequestForm) (entropy : Z)
    (utcnow : nat -> datetime) (db : Db.t) (tokens : Token token) :
  snd (Auth.generate_token form_data entropy utcnow db) = Ok tokens ->
  exists u drawn,
    snd (RepoUser.find_user (username form_data) db) = Ok (Some u) /\
    drawn = RepoUser.randint 100000 999999 entropy /\
    100000 <= drawn <= 999999 /\
    fst (Auth.generate_token form_data entropy utcnow db)
      = Spec.users_with db (User.set_otp (Some drawn) u) /\
    claim (access_token tokens) "sub" = Some (JStr (User.email u)) /\
    claim (refresh_token tokens) "sub" = Some (JStr (User.email u)) /\
    (Spec.users_keyed db ->
     snd (RepoUser.find_user (username form_data)
            (fst (Auth.generate_token form_data entropy utcnow db)))
       = Ok (Some (User.set_otp (Some drawn) u)) /\
     forall old,
       User.otp u = Some old -> old <> drawn ->
       unauthorized
         (snd (Auth.activate_user (username form_data) old
                 (fst (Auth.generate_token form_data entropy utcnow db))))).
Proof.
  intros E.
  apply generate_token_Ok in E as (u & Hfind & _ & _ & Hdb & Hacc & Href).
  exists u, (RepoUser.randint 100000 999999 entropy).
  split; [done|]. split; [done|]. split; [apply randint_six_digits|].
  split; [done|].
  assert (Hsub : forall tok scope expire iat,
             encode (<["scope" := PStr scope]>
                       (<["iat" := PDatetime iat]>
                          (<["exp" := PDatetime expire]> {["sub" := PStr (User.email u)]})))
                    Auth.SECRET_KEY Auth.ALGORITHM = Ok tok ->
             claim tok "sub" = Some (JStr (User.email u))).
  { intros tok scope expire iat Henc. apply encode_Ok in Henc. subst tok. cbn.
    rewrite map_lookup_imap. rewrite !lookup_insert_ne by done.
    by rewrite lookup_singleton_eq. }
  split; [by eapply Hsub|]. split; [by eapply Hsub|].
  intros Hkey. rewrite Hdb.
  assert (Hfound : snd (RepoUser.find_user (username form_data)
                          (Spec.users_with db
                             (User.set_otp (Some (RepoUser.randint 100000 999999 entropy)) u)))
                   = Ok (Some (User.set_otp (Some (RepoUser.randint 100000 999999 entropy)) u))).
  { apply (find_user_after_commit _ _ u); [exact Hkey | exact Hfind | reflexivity..]. }
  split; [exact Hfound|].
  intros old Hold Hne.
  rewrite (activate_user_mismatch _ _ _ _ Hfound).
  - by eexists.
  - cbn. congruence.
Qed.

End OtpReset.

(** C7 as stated fails: the draw can be the OTP that is already stored.
    The login then leaves the tables exactly as they were, and the
    activation with the OTP from before the login succeeds. *)
Lemma login_may_redraw_the_same_otp :
  Models.User.otp Demo.ann_owner = Some 123456 /\
  is_ok (snd (Auth.generate_token (H := Demo.platform)
                {| Schemas.username := "a@example.com"; Schemas.password := "pw-a" |}
                23456 Demo.utcnow Demo.db)) = true /\
  fst (Auth.generate_token (H := Demo.platform)
         {| Schemas.username := "a@example.com"; Schemas.password := "pw-a" |}
         23456 Demo.utcnow Demo.db) = Demo.db /\
  is_ok (snd (Auth.activate_user "a@example.com" 123456
                (fst (Auth.generate_token (H := Demo.platform)
                        {| Schemas.username := "a@example.com"; Schemas.password := "pw-a" |}
                        23456 Demo.utcnow Demo.db)))) = true.
Proof.
  split; [reflexivity|]. split; [vm_compute; reflexivity|].
  split; vm_compute; reflexivity.
Qed.

Lemma login_resets_otp_witness :
  exists tokens u drawn,
    snd (Auth.generate_token (H := Demo.platform)
           {| Schemas.username := "a@example.com"; Schemas.password := "pw-a" |}
           7 Demo.utcnow Demo.db) = Ok tokens /\
    snd (RepoUser.find_user "a@example.com" Demo.db) = Ok (Some u) /\
    drawn = RepoUser.randint 100000 999999 7 /\
    100000 <= drawn <= 999999 /\
    fst (Auth.generate_token (H := Demo.platform)
           {| Schemas.username := "a@example.com"; Schemas.password := "pw-a" |}
           7 Demo.utcnow Demo.db)
      = Spec.users_with Demo.db (Models.User.set_otp (Some drawn) u).
Proof.
  destruct (snd (Auth.generate_token (H := Demo.platform)
             {| Schemas.username := "a@example.com"; Schemas.password := "pw-a" |}
             7 Demo.utcnow Demo.db)) as [tokens|e] eqn:E.
  - destruct (login_resets_otp (H := Demo.platform) _ _ _ _ _ E)
      as (u & drawn & Hfind & Hdrawn & Hrange & Hdb & _).
    exists tokens, u, drawn.
    split; [reflexivity|]. split; [exact Hfind|]. split; [exact Hdrawn|].
    split; [exact Hrange | exact Hdb].
  - assert (Hok : is_ok (snd (Auth.generate_token (H := Demo.platform)
               {| Schemas.username := "a@example.com"; Schemas.password := "pw-a" |}
               7 Demo.utcnow Demo.db)) = true).
    { by apply (generate_token_succeeds _ _ _ _ Demo.ann_owner). }
    rewrite E in Hok. discriminate Hok.
Defined.

(* --------------------------------------------------------------------- *)
(** ** The id route *)
(* --------------------------------------------------------------------- *)

(** C8 (the code departs from it).  [GET /contact/{id}] calls the
    repository lookup without the owner id, so for every id, every token
    and every state of the tables the route ends in a [TypeError]: it
    returns neither the contact with that id when there is one, nor the
    status code 303 when there is none. *)
Theorem get_contact_route_raises_type_error :
  (forall id_ token db,
      RouterContact.get_contact id_ token db
        = (db, Raise (TypeError
                        "get_contact() missing 1 required positional argument: 'user_id'"))) /\
  In Demo.ann (Db.contacts Demo.db) /\ Models.Contact.id Demo.ann = 10 /\
  snd (RouterContact.get_contact 10
         (Demo.token_for "access_token" "a@example.com" 2000) Demo.db)
    <> Ok (RouterContact.ContactFound Demo.ann) /\
  Forall (fun row => Models.Contact.id row <> 99) (Db.contacts Demo.db) /\
  snd (RouterContact.get_contact 99
         (Demo.token_for "access_token" "a@example.com" 2000) Demo.db)
    <> Ok (RouterContact.StatusCode HTTP_303_SEE_OTHER).
Proof.
  split; [reflexivity|]. split; [by left|]. split; [reflexivity|].
  split; [discriminate|]. split; [|discriminate].
  repeat constructor; cbn; lia.
Qed.

(* ===================================================================== *)
(** * Further properties *)
(* ===================================================================== *)

(* --------------------------------------------------------------------- *)
(** ** The rate limiter over whole runs *)
(* --------------------------------------------------------------------- *)

Section RateLimiterRuns.
Import RateLimiter.

Lemma serve_cons (rl : t) (c : client_id) (T : Q) (rest : list (client_id * Q)) :
  serve rl ((c, T) :: rest) =
    (fst (serve (fst (is_allowed rl c T)) rest),
     snd (is_allowed rl c T) :: snd (serve (fst (is_allowed rl c T)) rest)).
Proof.
  cbn [serve]. destruct (is_allowed rl c T) as [rl1 a]. cbn [fst snd].
  by destruct (serve rl1 rest).
Qed.

Lemma is_allowed_counts_bounded (rl : t) (c : client_id) (T : Q) :
  SpecMore.counts_bounded rl -> SpecMore.counts_bounded (fst (is_allowed rl c T)).
Proof.
  intros Hb c' start' count'. unfold is_allowed.
  destruct (requests rl !! c) as [[start count]|] eqn:Ec.
  - destruct (Qlt_bool _ _); cbn.
    + destruct (decide (c = c')) as [->|Hne].
      * rewrite lookup_insert_eq. intros [= _ <-]. lia.
      * rewrite lookup_insert_ne by done. apply Hb.
    + destruct (Z.ltb_spec count (max_requests rl)) as [Hlt|Hge]; cbn.
      * destruct (decide (c = c')) as [->|Hne].
        -- rewrite lookup_insert_eq. intros [= _ <-].
           specialize (Hb _ _ _ Ec). lia.
        -- rewrite lookup_insert_ne by done. apply Hb.
      * apply Hb.
  - cbn. destruct (decide (c = c')) as [->|Hne].
    + rewrite lookup_insert_eq. intros [= _ <-]. lia.
    + rewrite lookup_insert_ne by done. apply Hb.
Qed.

Lemma serve_counts_bounded (reqs : list (client_id * Q)) (rl : t) :
  SpecMore.counts_bounded rl -> SpecMore.counts_bounded (fst (serve rl reqs)).
Proof.
  revert rl. induction reqs as [|[c T] rest IH]; intros rl Hb; [exact Hb|].
  rewrite serve_cons. cbn [fst]. apply IH, is_allowed_counts_bounded, Hb.
Qed.

Lemma serve_config (reqs : list (client_id * Q)) (rl : t) :
  max_requests (fst (serve rl reqs)) = max_requests rl /\
  window_time (fst (serve rl reqs)) = window_time rl.
Proof.
  revert rl. induction reqs as [|[c T] rest IH]; intros rl; [done|].
  rewrite serve_cons. cbn [fst].
  destruct (IH (fst (is_allowed rl c T))) as [-> ->].
  apply is_allowed_config.
Qed.

(** X1. Whatever requests arrive, in whatever order and at whatever
    times, a limiter that started empty never stores a count below 1 or
    above its maximum (above 1, when the maximum is below 1), and its
    configuration stays what it was constructed with. *)
Theorem rate_limiter_counts_bounded (max : Z) (window : Q) (reqs : list (client_id * Q)) :
  SpecMore.counts_bounded (fst (serve (init max window) reqs)) /\
  max_requests (fst (serve (init max window) reqs)) = max /\
  window_time (fst (serve (init max window) reqs)) = window.
Proof.
  split; [|apply (serve_config reqs (init max window))].
  apply serve_counts_bounded. intros c start count. cbn.
  rewrite lookup_empty. discriminate.
Qed.

Lemma is_allowed_same_for_client (c : client_id) (T : Q) (rl1 rl2 : t) :
  SpecMore.same_for_client c rl1 rl2 ->
  snd (is_allowed rl1 c T) = snd (is_allowed rl2 c T) /\
  SpecMore.same_for_client c (fst (is_allowed rl1 c T)) (fst (is_allowed rl2 c T)).
Proof.
  intros (Hr & Hm & Hw). unfold SpecMore.same_for_client, is_allowed.
  rewrite <- Hr, <- Hm, <- Hw.
  destruct (requests rl1 !! c) as [[start count]|] eqn:Ec.
  - destruct (Qlt_bool _ _); cbn.
    + split; [done|]. split; [by rewrite !lookup_insert_eq | done].
    + destruct (count <? max_requests rl1); cbn.
      * split; [done|]. split; [by rewrite !lookup_insert_eq | done].
      * split; [done|]. split; [by rewrite Ec | done].
  - cbn. split; [done|]. split; [by rewrite !lookup_insert_eq | done].
Qed.

Lemma is_allowed_other_client (c c' : client_id) (T : Q) (rl1 rl2 : t) :
  c' <> c -> SpecMore.same_for_client c rl1 rl2 ->
  SpecMore.same_for_client c (fst (is_allowed rl1 c' T)) rl2.
Proof.
  intros Hne (Hr & Hm & Hw).
  destruct (is_allowed_config rl1 c' T) as [Em Ew].
  split; [|split].
  - rewrite is_allowed_frame by done. exact Hr.
  - by rewrite Em.
  - by rewrite Ew.
Qed.

Lemma serve_same_for_client (c : client_id) (reqs : list (client_id * Q)) (rl1 rl2 : t) :
  SpecMore.same_for_client c rl1 rl2 ->
  SpecMore.answers_of c reqs (snd (serve rl1 reqs))
    = snd (serve rl2 (SpecMore.requests_of c reqs)) /\
  SpecMore.same_for_client c (fst (serve rl1 reqs)) (fst (serve rl2 (SpecMore.requests_of c reqs))).
Proof.
  revert rl1 rl2. induction reqs as [|[c' T] rest IH]; intros rl1 rl2 Hs; [done|].
  rewrite serve_cons. cbn [fst snd SpecMore.answers_of SpecMore.requests_of List.filter].
  destruct (bool_decide_reflect (c' = c)) as [->|Hne].
  - fold (SpecMore.requests_of c rest). rewrite serve_cons. cbn [fst snd].
    destruct (is_allowed_same_for_client c T rl1 rl2 Hs) as [Ea Hs'].
    destruct (IH _ _ Hs') as [Eanswers Hfinal].
    split; [by rewrite Ea, Eanswers | exact Hfinal].
  - fold (SpecMore.requests_of c rest).
    apply IH. by apply is_allowed_other_client.
Qed.

(** X2. Clients are limited independently of each other: in any run, the
    answers that a client gets, and the record that is left for it, are
    the ones it would get if its requests were the only ones.  (The
    client is the peer address, host and port, or [None].) *)
Theorem rate_limiter_clients_independent (rl : t) (c : client_id)
    (reqs : list (client_id * Q)) :
  SpecMore.answers_of c reqs (snd (serve rl reqs))
    = snd (serve rl (SpecMore.requests_of c reqs)) /\
  requests (fst (serve rl reqs)) !! c
    = requests (fst (serve rl (SpecMore.requests_of c reqs))) !! c.
Proof.
  destruct (serve_same_for_client c reqs rl rl) as [Ha (Hr & _ & _)]; [done|].
  split; [exact Ha | exact Hr].
Qed.

End RateLimiterRuns.

(* --------------------------------------------------------------------- *)
(** ** Tokens through issue and check *)
(* --------------------------------------------------------------------- *)

Section TokenRoundTrip.
Import Models Db Schemas Jose.
Context `{Platform}.

(** Decoding a token signed with the service's key and algorithm. *)
Lemma decode_signed (payload : gmap string json) (exp : Z) (sub : string)
    (utcnow : datetime) :
  payload !! "exp" = Some (JInt exp) -> payload !! "sub" = Some (JStr sub) ->
  decode (Signed Auth.ALGORITHM Auth.SECRET_KEY payload) Auth.SECRET_KEY
         [Auth.ALGORITHM] utcnow
    = if exp <? timegm utcnow then None else Some payload.
Proof.
  intros He Hs. unfold decode, valid_exp, valid_sub. rewrite He, Hs.
  cbn [existsb]. rewrite !String.eqb_refl. cbn [orb andb negb].
  by destruct (exp <? timegm utcnow).
Qed.

(** The shape of what the two issuers return. *)
Lemma issued_token (email scope : string) (expire iat : datetime) (tok : token) :
  encode (<["scope" := PStr scope]>
            (<["iat" := PDatetime iat]>
               (<["exp" := PDatetime expire]> {["sub" := PStr email]})))
         Auth.SECRET_KEY Auth.ALGORITHM = Ok tok ->
  exists payload,
    tok = Signed Auth.ALGORITHM Auth.SECRET_KEY payload /\
    payload !! "exp" = Some (JInt (timegm expire)) /\
    payload !! "sub" = Some (JStr email) /\
    payload !! "scope" = Some (JStr scope).
Proof.
  intros E. pose proof (issued_claims _ _ _ _ _ _ _ E) as (He & _ & Hs).
  apply encode_Ok in E. subst tok. eexists. split; [reflexivity|].
  cbn [claim] in He, Hs. split; [exact He|]. split; [|exact Hs].
  rewrite map_lookup_imap. rewrite !lookup_insert_ne by done.
  by rewrite lookup_singleton_eq.
Qed.

(** [get_current_user] on a signed access token that has not expired is
    the lookup of its subject. *)
Lemma get_current_user_signed (payload : gmap string json) (exp : Z) (email : string)
    (utcnow : datetime) (db : Db.t) :
  payload !! "scope" = Some (JStr "access_token") ->
  payload !! "sub" = Some (JStr email) ->
  payload !! "exp" = Some (JInt exp) ->
  timegm utcnow <= exp ->
  Auth.get_current_user (Signed Auth.ALGORITHM Auth.SECRET_KEY payload) utcnow db
    = (db, match snd (RepoUser.find_user email db) with
           | Ok (Some u) => Ok u
           | Ok None => Raise Auth.credentials_exception
           | Raise e => Raise e
           end).
Proof.
  intros Hscope Hsub Hexp Hle.
  unfold Auth.get_current_user, Auth.current_user_email.
  rewrite (decode_signed payload exp email) by done.
  destruct (Z.ltb_spec exp (timegm utcnow)) as [Hlt|_]; [lia|].
  unfold Auth.getitem. rewrite Hscope, Hsub. session_unfold.
  change (eq_str (JStr "access_token") "access_token") with true.
  cbn [Auth.subject]. rewrite get_user_find_user, find_user_result.
  destruct (snd (RepoUser.find_user email db)) as [[u|]|e]; reflexivity.
Qed.

(** A signed token that has expired is refused by both consumers. *)
Lemma expired_signed_refused (payload : gmap string json) (exp : Z) (sub : string)
    (utcnow : datetime) :
  payload !! "exp" = Some (JInt exp) -> payload !! "sub" = Some (JStr sub) ->
  exp < timegm utcnow ->
  decode (Signed Auth.ALGORITHM Auth.SECRET_KEY payload) Auth.SECRET_KEY
         [Auth.ALGORITHM] utcnow = None.
Proof.
  intros He Hs Hlt. rewrite (decode_signed payload exp sub) by done.
  destruct (Z.ltb_spec exp (timegm utcnow)); [done | lia].
Qed.

Lemma get_current_user_undecodable (tok : token) (utcnow : datetime) (db : Db.t) :
  decode tok Auth.SECRET_KEY [Auth.ALGORITHM] utcnow = None ->
  Auth.get_current_user tok utcnow db = (db, Raise Auth.credentials_exception).
Proof.
  intros E. unfold Auth.get_current_user, Auth.current_user_email.
  rewrite E. reflexivity.
Qed.

Lemma refresh_user_token_undecodable (tok : token) (utcnow : nat -> datetime) (db : Db.t) :
  decode tok Auth.SECRET_KEY [Auth.ALGORITHM] (utcnow 0%nat) = None ->
  Auth.refresh_user_token tok utcnow db
    = (db, Raise (HTTPException HTTP_401_UNAUTHORIZED "Could not validate credentials")).
Proof.
  intros E. unfold Auth.refresh_user_token, Auth.decode_refresh_token.
  rewrite E. reflexivity.
Qed.

Lemma find_user_email (email : string) (db : Db.t) (u : User.t) :
  snd (RepoUser.find_user email db) = Ok (Some u) ->
  User.email u = email /\ In u (users db).
Proof.
  unfold RepoUser.find_user. cbn [snd]. intros E.
  apply scalar_one_or_none_Some in E.
  assert (Hin : In u (List.filter (fun row => String.eqb (User.email row) email) (users db)))
    by (rewrite E; by left).
  apply List.filter_In in Hin as [Hin Hm]. split; [|exact Hin].
  by apply String.eqb_eq.
Qed.

(** X3. Round trip of a login.  After a successful login on a users table
    with its primary key, the access token that was issued authenticates
    the user who logged in (with the freshly drawn OTP) for every clock
    reading up to 30 minutes after issuance, and is refused with the 401
    error at every later reading; checking it never changes the tables. *)
Theorem login_access_token_round_trip (form_data : OAuth2PasswordRequestForm)
    (entropy : Z) (utcnow : nat -> datetime) (db : Db.t) (tokens : Token token)
    (now : datetime) :
  snd (Auth.generate_token form_data entropy utcnow db) = Ok tokens ->
  Spec.users_keyed db ->
  exists u,
    snd (RepoUser.find_user (username form_data) db) = Ok (Some u) /\
    (timegm now <= timegm (utcnow 0%nat) + 30 * 60 ->
     Auth.get_current_user (access_token tokens) now
        (fst (Auth.generate_token form_data entropy utcnow db))
       = (fst (Auth.generate_token form_data entropy utcnow db),
          Ok (User.set_otp (Some (RepoUser.randint 100000 999999 entropy)) u))) /\
    (timegm (utcnow 0%nat) + 30 * 60 < timegm now ->
     Auth.get_current_user (access_token tokens) now
        (fst (Auth.generate_token form_data entropy utcnow db))
       = (fst (Auth.generate_token form_data entropy utcnow db),
          Raise (HTTPException HTTP_401_UNAUTHORIZED "Could not validate credentials"))).
Proof.
  intros E Hkey.
  pose proof (generate_token_Ok _ _ _ _ _ E) as (u & Hfind & _ & _ & Hdb & Hacc & _).
  exists u. split; [exact Hfind|].
  destruct (find_user_email _ _ _ Hfind) as [Hmail _].
  unfold Auth.create_access_token in Hacc.
  apply issued_token in Hacc as (payload & Htok & Hexp & Hsub & Hscope).
  assert (Hexp' : payload !! "exp" = Some (JInt (timegm (utcnow 0%nat) + 30 * 60))).
  { rewrite Hexp. do 2 f_equal.
    change (Auth.delta_given (Some (timedelta_minutes Auth.ACCESS_TOKEN_EXPIRE_MINUTES)))
      with true. cbv beta iota zeta.
    change (default 0 (Some (timedelta_minutes Auth.ACCESS_TOKEN_EXPIRE_MINUTES)))
      with (timedelta_minutes 30).
    apply timegm_add_minutes. }
  rewrite Htok, Hdb. split.
  - intros Hle.
    rewrite (get_current_user_signed payload _ (User.email u)) by done.
    rewrite Hmail.
    rewrite (find_user_after_commit (username form_data) db u); done.
  - intros Hlt. apply get_current_user_undecodable.
    apply (expired_signed_refused payload (timegm (utcnow 0%nat) + 30 * 60) (User.email u));
      [exact Hexp' | exact Hsub | exact Hlt].
Qed.

(** X4. The two tokens of a login cannot stand in for each other.  At
    every clock reading and on every state of the tables, the refresh
    token is refused by [get_current_user] and the access token is
    refused by [refresh_user_token], each with a 401 error and without
    any change to the tables. *)
Theorem login_tokens_not_interchangeable (form_data : OAuth2PasswordRequestForm)
    (entropy : Z) (utcnow : nat -> datetime) (db : Db.t) (tokens : Token token) :
  snd (Auth.generate_token form_data entropy utcnow db) = Ok tokens ->
  (forall now db',
      Auth.get_current_user (refresh_token tokens) now db'
        = (db', Raise (HTTPException HTTP_401_UNAUTHORIZED "Could not validate credentials"))) /\
  (forall utcnow' db',
      fst (Auth.refresh_user_token (access_token tokens) utcnow' db') = db' /\
      unauthorized (snd (Auth.refresh_user_token (access_token tokens) utcnow' db'))).
Proof.
  intros E.
  pose proof (generate_token_Ok _ _ _ _ _ E) as (u & _ & _ & _ & _ & Hacc & Href).
  unfold Auth.create_access_token in Hacc. unfold Auth.create_refresh_token in Href.
  apply issued_token in Hacc as (pa & Ha & Hea & Hsa & Hsca).
  apply issued_token in Href as (pr & Hr & Her & Hsr & Hscr).
  split.
  - intros now db'. rewrite Hr.
    destruct (decode (Signed Auth.ALGORITHM Auth.SECRET_KEY pr) Auth.SECRET_KEY
                [Auth.ALGORITHM] now) as [payload|] eqn:Ed.
    + assert (payload = pr).
      { rewrite (decode_signed pr _ (User.email u) now Her Hsr) in Ed.
        destruct (_ <? _); [discriminate Ed | by injection Ed]. }
      subst payload.
      unfold Auth.get_current_user. session_unfold.
      rewrite (current_user_email_wrong_scope _ now pr (JStr "refresh_token"));
        [reflexivity | exact Ed | exact Hscr | discriminate].
    + by apply get_current_user_undecodable.
  - intros utcnow' db'. rewrite Ha.
    destruct (decode (Signed Auth.ALGORITHM Auth.SECRET_KEY pa) Auth.SECRET_KEY
                [Auth.ALGORITHM] (utcnow' 0%nat)) as [payload|] eqn:Ed.
    + assert (payload = pa).
      { rewrite (decode_signed pa _ (User.email u) (utcnow' 0%nat) Hea Hsa) in Ed.
        destruct (_ <? _); [discriminate Ed | by injection Ed]. }
      subst payload.
      unfold Auth.refresh_user_token. session_unfold.
      rewrite (decode_refresh_token_wrong_scope _ _ pa (JStr "access_token"));
        [| exact Ed | exact Hsca | discriminate].
      split; [reflexivity | by eexists].
    + rewrite (refresh_user_token_undecodable _ _ _ Ed).
      split; [reflexivity | by eexists].
Qed.

End TokenRoundTrip.

Lemma login_access_token_round_trip_witness :
  exists tokens u,
    snd (Auth.generate_token (H := Demo.platform)
           {| Schemas.username := "a@example.com"; Schemas.password := "pw-a" |}
           7 Demo.utcnow Demo.db) = Ok tokens /\
    Spec.users_keyed Demo.db /\
    Auth.get_current_user (H := Demo.platform) (Schemas.access_token tokens) 2800000000
      (fst (Auth.generate_token (H := Demo.platform)
              {| Schemas.username := "a@example.com"; Schemas.password := "pw-a" |}
              7 Demo.utcnow Demo.db))
      = (fst (Auth.generate_token (H := Demo.platform)
                {| Schemas.username := "a@example.com"; Schemas.password := "pw-a" |}
                7 Demo.utcnow Demo.db),
         Ok (Models.User.set_otp (Some (RepoUser.randint 100000 999999 7)) u)).
Proof.
  assert (Hkey : Spec.users_keyed Demo.db).
  { unfold Spec.users_keyed. cbn. repeat constructor; set_solver. }
  destruct (snd (Auth.generate_token (H := Demo.platform)
             {| Schemas.username := "a@example.com"; Schemas.password := "pw-a" |}
             7 Demo.utcnow Demo.db)) as [tokens|e] eqn:E.
  - destruct (login_access_token_round_trip (H := Demo.platform) _ _ _ _ _ 2800000000 E Hkey)
      as (u & _ & Hok & _).
    exists tokens, u. split; [reflexivity|]. split; [exact Hkey|].
    apply Hok. by vm_compute.
  - assert (Hok : is_ok (snd (Auth.generate_token (H := Demo.platform)
               {| Schemas.username := "a@example.com"; Schemas.password := "pw-a" |}
               7 Demo.utcnow Demo.db)) = true).
    { by apply (generate_token_succeeds _ _ _ _ Demo.ann_owner). }
    rewrite E in Hok. discriminate Hok.
Defined.

Lemma login_tokens_not_interchangeable_witness :
  exists tokens,
    snd (Auth.generate_token (H := Demo.platform)
           {| Schemas.username := "a@example.com"; Schemas.password := "pw-a" |}
           7 Demo.utcnow Demo.db) = Ok tokens /\
    Auth.get_current_user (H := Demo.platform) (Schemas.refresh_token tokens)
      1000000000 Demo.db
      = (Demo.db,
         Raise (HTTPException HTTP_401_UNAUTHORIZED "Could not validate credentials")).
Proof.
  destruct (snd (Auth.generate_token (H := Demo.platform)
             {| Schemas.username := "a@example.com"; Schemas.password := "pw-a" |}
             7 Demo.utcnow Demo.db)) as [tokens|e] eqn:E.
  - destruct (login_tokens_not_interchangeable (H := Demo.platform) _ _ _ _ _ E)
      as [Hrefused _].
    exists tokens. split; [reflexivity | apply Hrefused].
  - assert (Hok : is_ok (snd (Auth.generate_token (H := Demo.platform)
               {| Schemas.username := "a@example.com"; Schemas.password := "pw-a" |}
               7 Demo.utcnow Demo.db)) = true).
    { by apply (generate_token_succeeds _ _ _ _ Demo.ann_owner). }
    rewrite E in Hok. discriminate Hok.
Defined.

Section TokenChecks.
Import Models Db Schemas Jose.
Context `{Platform}.

(** [refresh_user_token] on a signed refresh token that has not expired
    is decided by the account of its subject. *)
Lemma refresh_user_token_signed (payload : gmap string json) (exp : Z) (email : string)
    (utcnow : nat -> datetime) (db : Db.t) :
  payload !! "scope" = Some (JStr "refresh_token") ->
  payload !! "sub" = Some (JStr email) ->
  payload !! "exp" = Some (JInt exp) ->
  timegm (utcnow 0%nat) <= exp ->
  Auth.refresh_user_token (Signed Auth.ALGORITHM Auth.SECRET_KEY payload) utcnow db
    = (db, match snd (RepoUser.find_user email db) with
           | Ok (Some u) =>
               if User.is_active u then
                 access_token ← Auth.create_access_token {["sub" := PStr email]} None
                                  (fun k => utcnow (1 + k)%nat);
                 refresh_token ← Auth.create_refresh_token {["sub" := PStr email]} None
                                   (fun k => utcnow (3 + k)%nat);
                 Ok {| access_token := access_token; refresh_token := refresh_token;
                       token_type := "bearer" |}
               else Raise (HTTPException HTTP_401_UNAUTHORIZED "Invalid token")
           | Ok None => Raise (HTTPException HTTP_401_UNAUTHORIZED "Invalid token")
           | Raise e => Raise e
           end).
Proof.
  intros Hscope Hsub Hexp Hle.
  unfold Auth.refresh_user_token, Auth.decode_refresh_token.
  rewrite (decode_signed payload exp email _ Hexp Hsub).
  destruct (Z.ltb_spec exp (timegm (utcnow 0%nat))) as [Hlt|_]; [lia|].
  unfold Auth.getitem. rewrite Hscope, Hsub. session_unfold.
  change (eq_str (JStr "refresh_token") "refresh_token") with true.
  cbn [Auth.subject]. rewrite find_user_result.
  destruct (snd (RepoUser.find_user email db)) as [[u|]|e];
    cbn -[Auth.create_access_token Auth.create_refresh_token]; try reflexivity.
  destruct (User.is_active u);
    cbn -[Auth.create_access_token Auth.create_refresh_token]; [|reflexivity].
  destruct (Auth.create_access_token _ _ _) as [a|e]; [|reflexivity].
  by destruct (Auth.create_refresh_token _ _ _) as [r|e].
Qed.

(** X5. Round trip of a refresh.  After a successful login on a users
    table with its primary key, the refresh token that was issued, used
    at a clock reading up to 1440 minutes after its issuance, yields a
    new token pair for the same subject and leaves the tables exactly as
    they are: the refresh token is not used up. *)
Theorem login_refresh_token_round_trip (form_data : OAuth2PasswordRequestForm)
    (entropy : Z) (utcnow utcnow' : nat -> datetime) (db : Db.t) (tokens : Token token) :
  snd (Auth.generate_token form_data entropy utcnow db) = Ok tokens ->
  Spec.users_keyed db ->
  timegm (utcnow' 0%nat) <= timegm (utcnow 2%nat) + 1440 * 60 ->
  exists tokens',
    Auth.refresh_user_token (refresh_token tokens) utcnow'
        (fst (Auth.generate_token form_data entropy utcnow db))
      = (fst (Auth.generate_token form_data entropy utcnow db), Ok tokens') /\
    claim (access_token tokens') "sub" = Some (JStr (username form_data)) /\
    claim (access_token tokens') "scope" = Some (JStr "access_token") /\
    claim (refresh_token tokens') "sub" = Some (JStr (username form_data)) /\
    claim (refresh_token tokens') "scope" = Some (JStr "refresh_token").
Proof.
  intros E Hkey Hle.
  pose proof (generate_token_Ok _ _ _ _ _ E) as (u & Hfind & _ & Hact & Hdb & _ & Href).
  destruct (find_user_email _ _ _ Hfind) as [Hmail _].
  unfold Auth.create_refresh_token in Href.
  apply issued_token in Href as (payload & Htok & Hexp & Hsub & Hscope).
  assert (Hexp' : payload !! "exp" = Some (JInt (timegm (utcnow 2%nat) + 1440 * 60))).
  { rewrite Hexp. do 2 f_equal.
    change (Auth.delta_given (Some (timedelta_minutes Auth.REFRESH_TOKEN_EXPIRATION)))
      with true. cbv beta iota zeta.
    change (default 0 (Some (timedelta_minutes Auth.REFRESH_TOKEN_EXPIRATION)))
      with (timedelta_minutes 1440).
    apply timegm_add_minutes. }
  rewrite Htok, Hdb.
  rewrite (refresh_user_token_signed payload _ (User.email u) utcnow' _ Hscope Hsub Hexp' Hle).
  rewrite Hmail.
  rewrite (find_user_after_commit (username form_data) db u
             (User.set_otp (Some (RepoUser.randint 100000 999999 entropy)) u)
             Hkey Hfind eq_refl eq_refl).
  change (User.is_active (User.set_otp (Some (RepoUser.randint 100000 999999 entropy)) u))
    with (User.is_active u). rewrite Hact.
  destruct (create_access_token_total (username form_data) None
              (fun k => utcnow' (1 + k)%nat)) as [a Ha].
  destruct (create_refresh_token_total (username form_data) None
              (fun k => utcnow' (3 + k)%nat)) as [r Hr].
  session_unfold. rewrite Ha, Hr.
  eexists. split; [reflexivity|]. cbn [access_token refresh_token].
  unfold Auth.create_access_token in Ha. unfold Auth.create_refresh_token in Hr.
  apply issued_token in Ha as (pa & -> & _ & Hsa & Hsca).
  apply issued_token in Hr as (pr & -> & _ & Hsr & Hscr).
  cbn [claim]. done.
Qed.

(** X6. A token that was not signed with the service's key and
    algorithm, and anything that is not a signed token at all, is
    refused by both consumers with a 401 error, whatever it claims; the
    tables are not changed. *)
Theorem foreign_token_refused (tok : token) (utcnow : nat -> datetime) (db : Db.t) :
  (match tok with
   | Signed alg key _ => alg <> Auth.ALGORITHM \/ key <> Auth.SECRET_KEY
   | Malformed _ => True
   end) ->
  Auth.get_current_user tok (utcnow 0%nat) db
    = (db, Raise (HTTPException HTTP_401_UNAUTHORIZED "Could not validate credentials")) /\
  Auth.refresh_user_token tok utcnow db
    = (db, Raise (HTTPException HTTP_401_UNAUTHORIZED "Could not validate credentials")).
Proof.
  intros Hforeign.
  assert (Hd : decode tok Auth.SECRET_KEY [Auth.ALGORITHM] (utcnow 0%nat) = None).
  { destruct tok as [alg key payload|raw]; [|reflexivity].
    unfold decode. cbn [existsb]. rewrite orb_false_r.
    destruct (String.eqb_spec alg Auth.ALGORITHM) as [->|Ha].
    - destruct (String.eqb_spec key Auth.SECRET_KEY) as [->|Hk]; [|reflexivity].
      destruct Hforeign; contradiction.
    - rewrite String.eqb_sym.
      destruct (String.eqb_spec alg Auth.ALGORITHM); [contradiction | reflexivity]. }
  split; [by apply get_current_user_undecodable | by apply refresh_user_token_undecodable].
Qed.

(** X7. A token with the service's signature that lacks a claim the code
    indexes is not answered with 401: without a [scope] both consumers
    raise [KeyError] on it, and with the right scope but without a [sub]
    they raise [KeyError] on that.  Only [JWTError] is caught. *)
Theorem token_missing_claim_key_error (tok : token) (utcnow : nat -> datetime) (db : Db.t)
    (payload : gmap string json) :
  decode tok Auth.SECRET_KEY [Auth.ALGORITHM] (utcnow 0%nat) = Some payload ->
  (payload !! "scope" = None ->
   Auth.get_current_user tok (utcnow 0%nat) db = (db, Raise (KeyError "scope")) /\
   Auth.refresh_user_token tok utcnow db = (db, Raise (KeyError "scope"))) /\
  (payload !! "scope" = Some (JStr "access_token") -> payload !! "sub" = None ->
   Auth.get_current_user tok (utcnow 0%nat) db = (db, Raise (KeyError "sub"))) /\
  (payload !! "scope" = Some (JStr "refresh_token") -> payload !! "sub" = None ->
   Auth.refresh_user_token tok utcnow db = (db, Raise (KeyError "sub"))).
Proof.
  intros Hd. split; [|split].
  - intros Hs. split.
    + unfold Auth.get_current_user, Auth.current_user_email, Auth.getitem.
      rewrite Hd, Hs. reflexivity.
    + unfold Auth.refresh_user_token, Auth.decode_refresh_token, Auth.getitem.
      rewrite Hd, Hs. reflexivity.
  - intros Hs Hsub.
    unfold Auth.get_current_user, Auth.current_user_email, Auth.getitem.
    rewrite Hd, Hs. session_unfold.
    change (eq_str (JStr "access_token") "access_token") with true.
    rewrite Hsub. reflexivity.
  - intros Hs Hsub.
    unfold Auth.refresh_user_token, Auth.decode_refresh_token, Auth.getitem.
    rewrite Hd, Hs. session_unfold.
    change (eq_str (JStr "refresh_token") "refresh_token") with true.
    rewrite Hsub. reflexivity.
Qed.

(** X8. A refresh token that decodes with the refresh scope is still
    refused, with the 401 error "Invalid token" and no change to the
    tables, when no user has its subject as email or when that user is
    not active. *)
Theorem refresh_needs_active_user (tok : token) (utcnow : nat -> datetime) (db : Db.t)
    (payload : gmap string json) (email : string) :
  decode tok Auth.SECRET_KEY [Auth.ALGORITHM] (utcnow 0%nat) = Some payload ->
  payload !! "scope" = Some (JStr "refresh_token") ->
  payload !! "sub" = Some (JStr email) ->
  (snd (RepoUser.find_user email db) = Ok None \/
   exists u, snd (RepoUser.find_user email db) = Ok (Some u) /\ User.is_active u = false) ->
  Auth.refresh_user_token tok utcnow db
    = (db, Raise (HTTPException HTTP_401_UNAUTHORIZED "Invalid token")).
Proof.
  intros Hd Hs Hsub Huser.
  unfold Auth.refresh_user_token, Auth.decode_refresh_token, Auth.getitem.
  rewrite Hd, Hs. session_unfold.
  change (eq_str (JStr "refresh_token") "refresh_token") with true.
  rewrite Hsub. cbn [Auth.subject]. rewrite find_user_result.
  destruct Huser as [-> | (u & -> & Hact)]; [reflexivity|].
  cbn -[Auth.create_access_token Auth.create_refresh_token]. rewrite Hact. reflexivity.
Qed.

(** X9. The user that [get_current_user] returns is a row of the users
    table whose email is the subject of the token, the token decodes with
    the access scope, and the check has not changed the tables. *)
Theorem current_user_is_token_subject (tok : token) (utcnow : datetime) (db : Db.t)
    (u : User.t) :
  snd (Auth.get_current_user tok utcnow db) = Ok u ->
  fst (Auth.get_current_user tok utcnow db) = db /\
  In u (users db) /\
  exists payload,
    decode tok Auth.SECRET_KEY [Auth.ALGORITHM] utcnow = Some payload /\
    payload !! "scope" = Some (JStr "access_token") /\
    payload !! "sub" = Some (JStr (User.email u)).
Proof.
  intros E. split; [apply get_current_user_reads|].
  unfold Auth.get_current_user in E. session_unfold.
  destruct (Auth.current_user_email tok utcnow) as [email|e] eqn:Ee; [|discriminate E].
  apply current_user_email_Ok in Ee as (payload & Hd & Hs & Hsub).
  destruct (Auth.subject email) as [s|e] eqn:Esub; [|discriminate E].
  destruct email; try discriminate Esub. injection Esub as ->.
  rewrite get_user_find_user, find_user_result in E.
  destruct (snd (RepoUser.find_user s db)) as [[u'|]|e] eqn:Ef; try discriminate E.
  injection E as ->.
  apply find_user_email in Ef as [Hmail Hin].
  split; [exact Hin|]. exists payload. by rewrite Hmail.
Qed.

End TokenChecks.

Lemma login_refresh_token_round_trip_witness :
  exists tokens tokens',
    snd (Auth.generate_token (H := Demo.platform)
           {| Schemas.username := "a@example.com"; Schemas.password := "pw-a" |}
           7 Demo.utcnow Demo.db) = Ok tokens /\
    Auth.refresh_user_token (H := Demo.platform) (Schemas.refresh_token tokens) Demo.utcnow
      (fst (Auth.generate_token (H := Demo.platform)
              {| Schemas.username := "a@example.com"; Schemas.password := "pw-a" |}
              7 Demo.utcnow Demo.db))
      = (fst (Auth.generate_token (H := Demo.platform)
                {| Schemas.username := "a@example.com"; Schemas.password := "pw-a" |}
                7 Demo.utcnow Demo.db), Ok tokens') /\
    Jose.claim (Schemas.access_token tokens') "sub" = Some (Jose.JStr "a@example.com").
Proof.
  assert (Hkey : Spec.users_keyed Demo.db).
  { unfold Spec.users_keyed. cbn. repeat constructor; set_solver. }
  destruct (snd (Auth.generate_token (H := Demo.platform)
             {| Schemas.username := "a@example.com"; Schemas.password := "pw-a" |}
             7 Demo.utcnow Demo.db)) as [tokens|e] eqn:E.
  - destruct (login_refresh_token_round_trip (H := Demo.platform) _ _ _ Demo.utcnow _ _ E Hkey)
      as (tokens' & Hrefresh & Hsub & _); [by vm_compute|].
    exists tokens, tokens'. split; [reflexivity|]. split; [exact Hrefresh | exact Hsub].
  - assert (Hok : is_ok (snd (Auth.generate_token (H := Demo.platform)
               {| Schemas.username := "a@example.com"; Schemas.password := "pw-a" |}
               7 Demo.utcnow Demo.db)) = true).
    { by apply (generate_token_succeeds _ _ _ _ Demo.ann_owner). }
    rewrite E in Hok. discriminate Hok.
Defined.

Lemma foreign_token_refused_witness :
  Auth.get_current_user (H := Demo.platform)
    (Jose.Signed "HS256" "guessed-key"
       (<["scope" := Jose.JStr "access_token"]> {["sub" := Jose.JStr "a@example.com"]}))
    (Demo.utcnow 0%nat) Demo.db
    = (Demo.db, Raise (HTTPException HTTP_401_UNAUTHORIZED "Could not validate credentials")).
Proof.
  apply (foreign_token_refused (H := Demo.platform)
           (Jose.Signed "HS256" "guessed-key"
              (<["scope" := Jose.JStr "access_token"]> {["sub" := Jose.JStr "a@example.com"]}))
           Demo.utcnow Demo.db).
  right. discriminate.
Defined.

Lemma token_missing_claim_key_error_witness :
  Jose.decode (Jose.Signed "HS256" "change-me" {["sub" := Jose.JStr "a@example.com"]})
    (Auth.SECRET_KEY (H := Demo.platform)) [Auth.ALGORITHM] (Demo.utcnow 0%nat)
    = Some {["sub" := Jose.JStr "a@example.com"]} /\
  Auth.get_current_user (H := Demo.platform)
    (Jose.Signed "HS256" "change-me" {["sub" := Jose.JStr "a@example.com"]})
    (Demo.utcnow 0%nat) Demo.db
    = (Demo.db, Raise (KeyError "scope")).
Proof.
  assert (Hd : Jose.decode
                 (Jose.Signed "HS256" "change-me" {["sub" := Jose.JStr "a@example.com"]})
                 (Auth.SECRET_KEY (H := Demo.platform)) [Auth.ALGORITHM] (Demo.utcnow 0%nat)
               = Some {["sub" := Jose.JStr "a@example.com"]}) by (vm_compute; reflexivity).
  split; [exact Hd|].
  destruct (token_missing_claim_key_error (H := Demo.platform) _ Demo.utcnow Demo.db _ Hd)
    as (Hscope & _).
  apply Hscope. vm_compute. reflexivity.
Defined.

Lemma refresh_needs_active_user_witness :
  snd (RepoUser.find_user "c@example.com" Demo.db) = Ok (Some Demo.carol_inactive) /\
  Auth.refresh_user_token (H := Demo.platform)
    (Demo.token_for "refresh_token" "c@example.com" 2000) Demo.utcnow Demo.db
    = (Demo.db, Raise (HTTPException HTTP_401_UNAUTHORIZED "Invalid token")).
Proof.
  split; [reflexivity|].
  eapply (refresh_needs_active_user (H := Demo.platform)
            (Demo.token_for "refresh_token" "c@example.com" 2000) Demo.utcnow Demo.db
            _ "c@example.com").
  - vm_compute. reflexivity.
  - vm_compute. reflexivity.
  - vm_compute. reflexivity.
  - right. exists Demo.carol_inactive. split; reflexivity.
Defined.

Lemma current_user_is_token_subject_witness :
  snd (Auth.get_current_user (H := Demo.platform)
         (Demo.token_for "access_token" "b@example.com" 2000) 1000000000 Demo.db)
    = Ok Demo.bob_owner /\
  In Demo.bob_owner (Db.users Demo.db).
Proof.
  assert (E : snd (Auth.get_current_user (H := Demo.platform)
                     (Demo.token_for "access_token" "b@example.com" 2000) 1000000000 Demo.db)
              = Ok Demo.bob_owner) by (vm_compute; reflexivity).
  split; [exact E|].
  destruct (current_user_is_token_subject (H := Demo.platform) _ _ _ _ E) as (_ & Hin & _).
  exact Hin.
Defined.

(* --------------------------------------------------------------------- *)
(** ** Login, activation and signup *)
(* --------------------------------------------------------------------- *)

Section LoginMore.
Import Models Db Schemas Jose.
Context `{Platform}.

(** X10. A login that fails leaves the tables exactly as they were, and
    it fails in one of three ways: with the [AttributeError] of the guard
    (no such user, or wrong password), with the 401 error for an account
    that is not active, or with the [MultipleResultsFound] of the user
    query. *)
Theorem failed_login_changes_nothing (form_data : OAuth2PasswordRequestForm)
    (entropy : Z) (utcnow : nat -> datetime) (db : Db.t) (e : exn) :
  snd (Auth.generate_token form_data entropy utcnow db) = Raise e ->
  fst (Auth.generate_token form_data entropy utcnow db) = db /\
  (e = Obj.no_attribute "is_active" \/
   e = HTTPException HTTP_401_UNAUTHORIZED "User is not activated" \/
   e = MultipleResultsFound).
Proof.
  unfold Auth.generate_token. session_unfold.
  rewrite authenticate_user_cases.
  destruct (snd (RepoUser.find_user (username form_data) db)) as [[u|]|e'] eqn:Ef;
    cbn -[Auth.create_access_token Auth.create_refresh_token RepoUser.randint].
  - destruct (Auth.verify_password (password form_data) (User.passwd u));
      cbn -[Auth.create_access_token Auth.create_refresh_token RepoUser.randint].
    + destruct (User.is_active u);
        cbn -[Auth.create_access_token Auth.create_refresh_token RepoUser.randint].
      * rewrite update_otp_draw.
        cbn -[Auth.create_access_token Auth.create_refresh_token RepoUser.randint].
        destruct (create_access_token_total (User.email u)
                    (Some (timedelta_minutes Auth.ACCESS_TOKEN_EXPIRE_MINUTES)) utcnow)
          as [a Ha].
        destruct (create_refresh_token_total (User.email u)
                    (Some (timedelta_minutes Auth.REFRESH_TOKEN_EXPIRATION))
                    (fun k => utcnow (2 + k)%nat)) as [r Hr].
        change (fun k : nat => utcnow (S (S k))) with (fun k => utcnow (2 + k)%nat).
        rewrite Ha, Hr. intros E. discriminate E.
      * intros [= <-]. split; [reflexivity | right; left; reflexivity].
    + intros [= <-]. split; [reflexivity | left; reflexivity].
  - intros [= <-]. split; [reflexivity | left; reflexivity].
  - intros [= <-]. split; [reflexivity|]. right. right.
    unfold RepoUser.find_user in Ef. cbn [snd] in Ef.
    destruct (List.filter _ _) as [|x [|y rest]]; cbn in Ef; congruence.
Qed.

(** The user query with two or more rows for the email. *)
Lemma find_user_multiple (email : string) (db : Db.t) :
  (2 <= length (List.filter (fun row => String.eqb (User.email row) email) (users db)))%nat ->
  RepoUser.find_user email db = (db, Raise MultipleResultsFound).
Proof.
  unfold RepoUser.find_user. intros Hlen.
  destruct (List.filter _ _) as [|x [|y rest]]; cbn in Hlen; [lia | lia | reflexivity].
Qed.

(** X11. The email column has no uniqueness of its own.  Once two rows
    carry the same email, every login and every activation for that
    email, and every check of an unexpired access token of that subject,
    ends in the [MultipleResultsFound] of the user query, with the tables
    unchanged. *)
Theorem duplicate_email_breaks_auth (email : string) (db : Db.t) :
  (2 <= length (List.filter (fun row => String.eqb (User.email row) email) (users db)))%nat ->
  (forall password entropy utcnow,
      Auth.generate_token {| username := email; password := password |} entropy utcnow db
        = (db, Raise MultipleResultsFound)) /\
  (forall otp, Auth.activate_user email otp db = (db, Raise MultipleResultsFound)) /\
  (forall payload exp utcnow,
      payload !! "scope" = Some (JStr "access_token") ->
      payload !! "sub" = Some (JStr email) ->
      payload !! "exp" = Some (JInt exp) ->
      timegm utcnow <= exp ->
      Auth.get_current_user (Signed Auth.ALGORITHM Auth.SECRET_KEY payload) utcnow db
        = (db, Raise MultipleResultsFound)).
Proof.
  intros Hdup. pose proof (find_user_multiple email db Hdup) as Hfind.
  split; [|split].
  - intros password entropy utcnow. unfold Auth.generate_token. session_unfold.
    rewrite authenticate_user_cases. cbn [username].
    rewrite Hfind. reflexivity.
  - intros otp. unfold Auth.activate_user. session_unfold. rewrite Hfind. reflexivity.
  - intros payload exp utcnow Hscope Hsub Hexp Hle.
    rewrite (get_current_user_signed payload exp email utcnow db Hscope Hsub Hexp Hle).
    rewrite Hfind. reflexivity.
Qed.

End LoginMore.

Section ActivationMore.
Import Models Db Schemas.

Lemma users_with_idem (db : Db.t) (u : User.t) :
  Spec.users_with (Spec.users_with db u) u = Spec.users_with db u.
Proof.
  unfold Spec.users_with. cbn [users contacts]. f_equal.
  rewrite map_map. apply map_ext. intros row.
  destruct (Z.eqb_spec (User.id row) (User.id u)) as [_|Hne].
  - by rewrite Z.eqb_refl.
  - by destruct (Z.eqb_spec (User.id row) (User.id u)).
Qed.

(** X12. Activation does not use the OTP up.  On a users table with its
    primary key, after an activation has succeeded, activating again with
    the same OTP succeeds again, returns the same active user and leaves
    the tables as the first activation left them. *)
Theorem activation_repeatable (db : Db.t) (user_mail : string) (otp : Z) (u : User.t) :
  Spec.users_keyed db ->
  snd (RepoUser.find_user user_mail db) = Ok (Some u) ->
  User.otp u = Some otp ->
  Auth.activate_user user_mail otp (fst (Auth.activate_user user_mail otp db))
    = (fst (Auth.activate_user user_mail otp db), Ok (User.set_is_active true u)) /\
  snd (Auth.activate_user user_mail otp db) = Ok (User.set_is_active true u).
Proof.
  intros Hkey Hfind Hotp.
  rewrite (activate_user_match _ _ _ _ Hfind Hotp). cbn [fst snd]. split; [|reflexivity].
  assert (Hfind' : snd (RepoUser.find_user user_mail
                          (Spec.users_with db (User.set_is_active true u)))
                   = Ok (Some (User.set_is_active true u))).
  { by apply (find_user_after_commit _ _ u). }
  rewrite (activate_user_match _ _ _ _ Hfind' Hotp).
  change (User.set_is_active true (User.set_is_active true u))
    with (User.set_is_active true u).
  by rewrite users_with_idem.
Qed.

End ActivationMore.

Lemma failed_login_changes_nothing_witness :
  snd (Auth.generate_token (H := Demo.platform)
         {| Schemas.username := "c@example.com"; Schemas.password := "pw-c" |}
         7 Demo.utcnow Demo.db)
    = Raise (HTTPException HTTP_401_UNAUTHORIZED "User is not activated") /\
  fst (Auth.generate_token (H := Demo.platform)
         {| Schemas.username := "c@example.com"; Schemas.password := "pw-c" |}
         7 Demo.utcnow Demo.db) = Demo.db.
Proof.
  assert (E : snd (Auth.generate_token (H := Demo.platform)
                     {| Schemas.username := "c@example.com"; Schemas.password := "pw-c" |}
                     7 Demo.utcnow Demo.db)
              = Raise (HTTPException HTTP_401_UNAUTHORIZED "User is not activated")).
  { by rewrite (generate_token_inactive _ _ _ _ Demo.carol_inactive). }
  split; [exact E|].
  exact (proj1 (failed_login_changes_nothing (H := Demo.platform) _ _ _ _ _ E)).
Defined.

Lemma duplicate_email_breaks_auth_witness :
  Auth.activate_user "a@example.com" 123456
    {| Db.users := [Demo.ann_owner; Demo.ann_owner]; Db.contacts := [] |}
    = ({| Db.users := [Demo.ann_owner; Demo.ann_owner]; Db.contacts := [] |},
       Raise MultipleResultsFound).
Proof.
  destruct (duplicate_email_breaks_auth (H := Demo.platform) "a@example.com"
              {| Db.users := [Demo.ann_owner; Demo.ann_owner]; Db.contacts := [] |})
    as (_ & Hact & _); [cbn; lia|].
  apply Hact.
Defined.

Lemma activation_repeatable_witness :
  Spec.users_keyed Demo.db /\
  Auth.activate_user "c@example.com" 111111
    (fst (Auth.activate_user "c@example.com" 111111 Demo.db))
    = (fst (Auth.activate_user "c@example.com" 111111 Demo.db),
       Ok (Models.User.set_is_active true Demo.carol_inactive)).
Proof.
  assert (Hkey : Spec.users_keyed Demo.db).
  { unfold Spec.users_keyed. cbn. repeat constructor; set_solver. }
  split; [exact Hkey|].
  exact (proj1 (activation_repeatable Demo.db "c@example.com" 111111 Demo.carol_inactive
                  Hkey eq_refl eq_refl)).
Defined.

(* --------------------------------------------------------------------- *)
(** ** Signup *)
(* --------------------------------------------------------------------- *)

Section Signup.
Import Models Db Schemas SchemasMore.
Context `{Platform} `{Bcrypt}.

(** Rewriting the row of a key that no row has changes nothing. *)
Lemma map_other_ids (rows : list User.t) (u' : User.t) :
  Forall (fun row => User.id row <> User.id u') rows ->
  map (fun row => if User.id row =? User.id u' then u' else row) rows = rows.
Proof.
  induction 1 as [|row rows Hrow _ IH]; [reflexivity|].
  cbn. rewrite IH. by destruct (Z.eqb_spec (User.id row) (User.id u')).
Qed.

(** Rewriting the last row, inserted under a fresh key. *)
Lemma users_with_appended (db : Db.t) (u u' : User.t) :
  Forall (fun row => User.id row <> User.id u) (users db) ->
  User.id u' = User.id u ->
  Spec.users_with {| users := users db ++ [u]; contacts := contacts db |} u'
    = {| users := users db ++ [u']; contacts := contacts db |}.
Proof.
  intros Hfresh Hid. unfold Spec.users_with. cbn [users contacts]. f_equal.
  rewrite map_app. cbn [map]. rewrite Hid, Z.eqb_refl.
  rewrite <- Hid. by rewrite map_other_ids by (by rewrite Hid).
Qed.

(** The user query after a user with an unused email was appended. *)
Lemma find_user_appended (db : Db.t) (u : User.t) :
  snd (RepoUser.find_user (User.email u) db) = Ok None ->
  snd (RepoUser.find_user (User.email u)
         {| users := users db ++ [u]; contacts := contacts db |}) = Ok (Some u).
Proof.
  unfold RepoUser.find_user. cbn [snd users]. intros E.
  apply scalar_one_or_none_None in E.
  rewrite List.filter_app, E. cbn. by rewrite String.eqb_refl.
Qed.

Lemma create_user_new (body : UserCreateSchema) (salt_entropy new_id : Z)
    (column_defaults : datetime * datetime) (otp_entropy : Z) (db : Db.t) :
  snd (RepoUser.find_user (email body) db) = Ok None ->
  Forall (fun row => User.id row <> new_id) (users db) ->
  AuthSignup.create_user body salt_entropy new_id column_defaults otp_entropy db
    = ({| users := users db ++ [SpecSignup.signed_up body salt_entropy new_id column_defaults otp_entropy];
          contacts := contacts db |},
       Ok (SpecSignup.signed_up body salt_entropy new_id column_defaults otp_entropy,
           [ {| subject := "Your OTP for registration";
                message := "Your OTP is as follows: "
                           ++ pretty (RepoUser.randint 100000 999999 otp_entropy);
                to_email := email body |} ])).
Proof.
  intros Hnone Hfresh. unfold AuthSignup.create_user. session_unfold.
  rewrite find_user_result, Hnone.
  cbn -[RepoUser.randint RepoUser.update_otp pretty].
  rewrite update_otp_draw. cbn -[RepoUser.randint pretty Spec.users_with].
  apply pair_equal_spec. split; [|reflexivity].
  exact (users_with_appended db
           (User.mk new_id (email body) (hashpw (passwd body) (gensalt salt_entropy))
              (gensalt salt_entropy) false None None (fst column_defaults) (snd column_defaults))
           (SpecSignup.signed_up body salt_entropy new_id column_defaults otp_entropy)
           Hfresh eq_refl).
Qed.

(** X13. Signup with an email that a user already has fails with the 409
    error whatever the password is; nothing is written and no mail is
    handed to the mailer. *)
Theorem signup_existing_email_conflict (body : UserCreateSchema)
    (salt_entropy new_id : Z) (column_defaults : datetime * datetime) (otp_entropy : Z)
    (db : Db.t) (u : User.t) :
  snd (RepoUser.find_user (email body) db) = Ok (Some u) ->
  AuthSignup.create_user body salt_entropy new_id column_defaults otp_entropy db
    = (db, Raise (HTTPException HTTP_409_CONFLICT "User already exists")).
Proof.
  intros Hfound. unfold AuthSignup.create_user. session_unfold.
  rewrite find_user_result, Hfound. reflexivity.
Qed.

(** X14. Signup with an email that no user has, under a key that the
    database has not used, appends one user: with that email, the digest
    and the salt of the hasher, not active, and with a six-digit OTP.
    Exactly one mail goes to the mailer, addressed to that email and
    carrying that OTP; the user query then finds the new user. *)
Theorem signup_creates_inactive_user (body : UserCreateSchema)
    (salt_entropy new_id : Z) (column_defaults : datetime * datetime) (otp_entropy : Z) (db : Db.t) :
  snd (RepoUser.find_user (email body) db) = Ok None ->
  Forall (fun row => User.id row <> new_id) (users db) ->
  exists (user : Models.User.t) (otp : Z) (db' : Db.t),
    AuthSignup.create_user body salt_entropy new_id column_defaults otp_entropy db
      = (db', Ok (user, [ {| subject := "Your OTP for registration";
                             message := "Your OTP is as follows: " ++ pretty otp;
                             to_email := email body |} ])) /\
    users db' = (users db ++ [user])%list /\ contacts db' = contacts db /\
    User.id user = new_id /\ User.email user = email body /\
    User.passwd user = hashpw (passwd body) (User.salt user) /\
    User.is_active user = false /\
    User.otp user = Some otp /\ 100000 <= otp <= 999999 /\
    snd (RepoUser.find_user (email body) db') = Ok (Some user).
Proof.
  intros Hnone Hfresh.
  exists (SpecSignup.signed_up body salt_entropy new_id column_defaults otp_entropy),
         (RepoUser.randint 100000 999999 otp_entropy),
         {| users := users db ++ [SpecSignup.signed_up body salt_entropy new_id column_defaults otp_entropy];
            contacts := contacts db |}.
  split; [by apply create_user_new|].
  repeat (split; [reflexivity|]).
  split; [apply randint_six_digits|].
  exact (find_user_appended db (SpecSignup.signed_up body salt_entropy new_id column_defaults otp_entropy)
           Hnone).
Qed.

(** X15. From signup to login.  After a signup as in X14, a login with
    the signup password is refused with the 401 error "User is not
    activated"; the activation with the OTP of the mail succeeds and makes
    the user active; and if the password check accepts the digest that
    the hasher made of the password, the login then succeeds. *)
Theorem signup_activate_login (body : UserCreateSchema)
    (salt_entropy new_id : Z) (column_defaults : datetime * datetime) (otp_entropy : Z) (db : Db.t)
    (entropy : Z) (utcnow : nat -> datetime) :
  snd (RepoUser.find_user (email body) db) = Ok None ->
  Forall (fun row => User.id row <> new_id) (users db) ->
  pwd_context_verify (passwd body) (hashpw (passwd body) (gensalt salt_entropy)) = true ->
  exists db1 db2 user,
    fst (AuthSignup.create_user body salt_entropy new_id column_defaults otp_entropy db) = db1 /\
    Auth.generate_token {| username := email body; password := passwd body |}
        entropy utcnow db1
      = (db1, Raise (HTTPException HTTP_401_UNAUTHORIZED "User is not activated")) /\
    Auth.activate_user (email body) (RepoUser.randint 100000 999999 otp_entropy) db1
      = (db2, Ok user) /\
    User.is_active user = true /\ User.email user = email body /\
    is_ok (snd (Auth.generate_token {| username := email body; password := passwd body |}
                  entropy utcnow db2)) = true.
Proof.
  intros Hnone Hfresh Hverify.
  set (u := SpecSignup.signed_up body salt_entropy new_id column_defaults otp_entropy).
  exists {| users := users db ++ [u]; contacts := contacts db |},
         {| users := users db ++ [User.set_is_active true u]; contacts := contacts db |},
         (User.set_is_active true u).
  assert (Hfind1 : snd (RepoUser.find_user (email body)
                          {| users := users db ++ [u]; contacts := contacts db |})
                   = Ok (Some u)) by exact (find_user_appended db u Hnone).
  split; [by rewrite (create_user_new _ _ _ _ _ _ Hnone Hfresh)|].
  split.
  { apply (generate_token_inactive _ _ _ _ u); [|reflexivity].
    rewrite authenticate_user_cases. cbn [username password].
    rewrite Hfind1. unfold Auth.verify_password.
    change (User.passwd u) with (hashpw (passwd body) (gensalt salt_entropy)).
    by rewrite Hverify. }
  split.
  { rewrite (activate_user_match _ _ _ u Hfind1 eq_refl). f_equal.
    by apply users_with_appended. }
  split; [reflexivity|]. split; [reflexivity|].
  apply (generate_token_succeeds _ _ _ _ (User.set_is_active true u)).
  - cbn [username]. exact (find_user_appended db (User.set_is_active true u) Hnone).
  - exact Hverify.
  - reflexivity.
Qed.

End Signup.

Lemma signup_existing_email_conflict_witness :
  AuthSignup.create_user (H := DemoMore.bcrypt)
    {| SchemasMore.email := "a@example.com"; SchemasMore.passwd := "other" |}
    1 4 (0, 1) 5 Demo.db
    = (Demo.db, Raise (HTTPException HTTP_409_CONFLICT "User already exists")).
Proof.
  apply (signup_existing_email_conflict (H0 := DemoMore.bcrypt) _ _ _ _ _ _ Demo.ann_owner).
  reflexivity.
Defined.

Lemma signup_creates_inactive_user_witness :
  exists (user : Models.User.t) (otp : Z) (db' : Db.t),
    AuthSignup.create_user (H := DemoMore.bcrypt)
      {| SchemasMore.email := "d@example.com"; SchemasMore.passwd := "pw-d" |}
      1 4 (0, 1) 5 Demo.db
      = (db', Ok (user, [ {| SchemasMore.subject := "Your OTP for registration";
                             SchemasMore.message := "Your OTP is as follows: " ++ pretty otp;
                             SchemasMore.to_email := "d@example.com" |} ])) /\
    Models.User.is_active user = false /\ 100000 <= otp <= 999999.
Proof.
  destruct (signup_creates_inactive_user (H0 := DemoMore.bcrypt)
              {| SchemasMore.email := "d@example.com"; SchemasMore.passwd := "pw-d" |}
              1 4 (0, 1) 5 Demo.db)
    as (user & otp & db' & Hrun & _ & _ & _ & _ & _ & Hact & _ & Hotp & _).
  - reflexivity.
  - repeat constructor; cbn; lia.
  - exists user, otp, db'. split; [exact Hrun|]. split; [exact Hact | exact Hotp].
Defined.

Lemma signup_activate_login_witness :
  exists db1 db2 user,
    fst (AuthSignup.create_user (H := DemoMore.bcrypt)
           {| SchemasMore.email := "d@example.com"; SchemasMore.passwd := "pw-d" |}
           1 4 (0, 1) 5 Demo.db) = db1 /\
    Auth.activate_user "d@example.com" (RepoUser.randint 100000 999999 5) db1
      = (db2, Ok user) /\
    is_ok (snd (Auth.generate_token (H := Demo.platform)
                  {| Schemas.username := "d@example.com"; Schemas.password := "pw-d" |}
                  7 Demo.utcnow db2)) = true.
Proof.
  destruct (signup_activate_login (H := Demo.platform) (H0 := DemoMore.bcrypt)
              {| SchemasMore.email := "d@example.com"; SchemasMore.passwd := "pw-d" |}
              1 4 (0, 1) 5 Demo.db 7 Demo.utcnow)
    as (db1 & db2 & user & Hdb1 & _ & Hact & _ & _ & Hlogin).
  - reflexivity.
  - repeat constructor; cbn; lia.
  - reflexivity.
  - exists db1, db2, user. split; [exact Hdb1|]. split; [exact Hact | exact Hlogin].
Defined.

(* --------------------------------------------------------------------- *)
(** ** Creating, deleting, paging *)
(* --------------------------------------------------------------------- *)

Section ContactsMore.
Import Models Db Schemas.
Context `{Platform}.

(** X16. Insert and look up.  A contact created under a key that the
    database has not used is appended with the fields of the body and
    with the caller as owner.  The owner's lookup by that key then
    returns it, the lookup of every other user returns nothing, the
    owner's unpaged selection grows by exactly that contact and the
    selection of every other user is what it was. *)
Theorem create_contact_round_trip (body : SchemasMore.ContactCreateSchema.t)
    (user_id new_id : Z) (column_defaults : datetime * datetime) (db : Db.t) :
  Forall (fun row => Contact.id row <> new_id) (contacts db) ->
  exists c db',
    RepoContactMore.create_contact body user_id new_id column_defaults db = (db', Ok c) /\
    contacts db' = (contacts db ++ [c])%list /\ users db' = users db /\
    Contact.id c = new_id /\ Contact.created_by c = user_id /\
    Contact.first_name c = Some (SchemasMore.ContactCreateSchema.first_name body) /\
    Contact.last_name c = Some (SchemasMore.ContactCreateSchema.last_name body) /\
    Contact.email c = Some (SchemasMore.ContactCreateSchema.email body) /\
    Contact.birth_date c = SchemasMore.ContactCreateSchema.birth_date body /\
    RepoContact.get_contact new_id user_id db' = (db', Ok (Some c)) /\
    (forall other, other <> user_id ->
        RepoContact.get_contact new_id other db' = (db', Ok None) /\
        List.filter (RepoContact.owned_by other) (contacts db')
          = List.filter (RepoContact.owned_by other) (contacts db)) /\
    List.filter (RepoContact.owned_by user_id) (contacts db')
      = (List.filter (RepoContact.owned_by user_id) (contacts db) ++ [c])%list.
Proof.
  intros Hfresh.
  set (c := Contact.mk new_id (Some (SchemasMore.ContactCreateSchema.first_name body))
              (Some (SchemasMore.ContactCreateSchema.last_name body)) (Some (SchemasMore.ContactCreateSchema.email body))
              (SchemasMore.ContactCreateSchema.birth_date body) user_id (fst column_defaults) (snd column_defaults)).
  exists c, {| users := users db; contacts := contacts db ++ [c] |}.
  split; [reflexivity|]. do 8 (split; [reflexivity|]).
  assert (Hold : forall uid,
             List.filter (fun row => RepoContact.owned_by uid row
                                     && (Contact.id row =? new_id)) (contacts db) = []).
  { intros uid. apply filter_nil_of_Forall.
    eapply Forall_impl; [exact Hfresh|]. cbn. intros row Hrow.
    apply andb_false_iff. right. by apply Z.eqb_neq. }
  split; [|split].
  - unfold RepoContact.get_contact. cbn [contacts].
    rewrite List.filter_app, Hold. cbn.
    unfold RepoContact.owned_by. cbn. by rewrite !Z.eqb_refl.
  - intros other Hne. split.
    + unfold RepoContact.get_contact. cbn [contacts].
      rewrite List.filter_app, Hold. cbn.
      unfold RepoContact.owned_by. cbn.
      by destruct (Z.eqb_spec user_id other); [congruence|].
    + cbn [contacts]. rewrite List.filter_app. cbn.
      unfold RepoContact.owned_by at 2. cbn.
      destruct (Z.eqb_spec user_id other); [congruence|]. by rewrite app_nil_r.
  - cbn [contacts]. rewrite List.filter_app. cbn.
    unfold RepoContact.owned_by at 2. cbn. by rewrite Z.eqb_refl.
Qed.

(** X17. Delete and look up.  Deleting a contact that the owner-scoped
    lookup finds returns it and removes the row with its key; no user's
    lookup by that key finds anything afterwards, every row with another
    key is kept, and the users table is untouched. *)
Theorem delete_contact_removes (db : Db.t) (contact_id user_id : Z) (c : Contact.t) :
  snd (RepoContact.get_contact contact_id user_id db) = Ok (Some c) ->
  exists db',
    RepoContact.delete_contact contact_id user_id db = (db', Ok c) /\
    users db' = users db /\
    (forall row, In row (contacts db') <->
                 In row (contacts db) /\ Contact.id row <> contact_id) /\
    (forall anyone, RepoContact.get_contact contact_id anyone db' = (db', Ok None)).
Proof.
  intros Hget. destruct (get_contact_Some _ _ _ _ Hget) as (_ & Hid & _).
  exists {| users := users db;
            contacts := List.filter (fun row => negb (Contact.id row =? Contact.id c))
                                    (contacts db) |}.
  split; [|split; [reflexivity|split]].
  - unfold RepoContact.delete_contact. session_unfold.
    rewrite get_contact_reads, Hget. reflexivity.
  - intros row. cbn [contacts]. rewrite List.filter_In, Hid.
    rewrite negb_true_iff, Z.eqb_neq. reflexivity.
  - intros anyone. unfold RepoContact.get_contact. cbn [contacts].
    rewrite (filter_nil_of_Forall
               (fun row => RepoContact.owned_by anyone row && (Contact.id row =? contact_id)));
      [reflexivity|].
    apply List.Forall_forall. intros row Hrow.
    apply List.filter_In in Hrow as [_ Hrow]. rewrite Hid in Hrow.
    apply andb_false_iff. right.
    apply negb_true_iff in Hrow. exact Hrow.
Qed.

(** [edit_contact] on a contact that the lookup does not find stops at
    the first [setattr] on [None]. *)
Lemma edit_contact_missing (db : Db.t) (contact_id user_id : Z)
    (body : ContactEditSchema) (now : datetime) :
  snd (RepoContact.get_contact contact_id user_id db) = Ok None ->
  exists field,
    RepoContact.edit_contact contact_id body user_id now db
      = (db, Raise (Obj.no_attribute field)).
Proof.
  intros Hget. unfold RepoContact.edit_contact. session_unfold.
  rewrite get_contact_reads, Hget.
  destruct (for_each_assign_None body) as [E | [field E]]; rewrite E.
  - exists "modified_at". reflexivity.
  - exists field. reflexivity.
Qed.

(** Every run of [edit_contact] ends in an exception, with the tables as
    they were; which one is decided by the lookup. *)
Lemma edit_contact_raises (db : Db.t) (contact_id user_id : Z)
    (body : ContactEditSchema) (now : datetime) :
  exists e,
    RepoContact.edit_contact contact_id body user_id now db = (db, Raise e) /\
    ((exists c, snd (RepoContact.get_contact contact_id user_id db) = Ok (Some c) /\
                e = DBAPIError offset_mismatch) \/
     (snd (RepoContact.get_contact contact_id user_id db) = Ok None /\
      exists field, e = Obj.no_attribute field) \/
     snd (RepoContact.get_contact contact_id user_id db) = Raise e).
Proof.
  destruct (snd (RepoContact.get_contact contact_id user_id db)) as [[c|]|e] eqn:Hget.
  - exists (DBAPIError offset_mismatch). split.
    + by apply (edit_contact_found db contact_id user_id body now c).
    + left. by exists c.
  - destruct (edit_contact_missing db contact_id user_id body now Hget) as [field E].
    exists (Obj.no_attribute field). split; [exact E|].
    right. left. split; [reflexivity | by exists field].
  - exists e. split.
    + unfold RepoContact.edit_contact. session_unfold.
      rewrite get_contact_reads, Hget. reflexivity.
    + right. right. reflexivity.
Qed.

(** X18. The edit route never succeeds.  Whatever the token, the id, the
    body and the state, [PATCH /contact/{id}/edit] raises and leaves both
    tables as they were.  When the token does not authenticate, the
    exception is the one of [get_current_user].  When it does, the
    exception is the one of [edit_contact] for that user: the
    [DBAPIError] of the refused commit when the owner-scoped lookup finds
    the contact, an [AttributeError] when it finds none, and the
    lookup's own exception otherwise; none of them is an HTTP error. *)
Theorem edit_contact_route_never_returns (id_ : Z) (body : ContactEditSchema)
    (token : Jose.token) (utcnow now : datetime) (db : Db.t) :
  exists e,
    RouterContact.edit_contact id_ body token utcnow now db = (db, Raise e) /\
    (snd (Auth.get_current_user token utcnow db) = Raise e \/
     exists u,
       snd (Auth.get_current_user token utcnow db) = Ok u /\
       RepoContact.edit_contact id_ body (User.id u) now db = (db, Raise e) /\
       ((exists c, snd (RepoContact.get_contact id_ (User.id u) db) = Ok (Some c) /\
                   e = DBAPIError offset_mismatch) \/
        (snd (RepoContact.get_contact id_ (User.id u) db) = Ok None /\
         exists field, e = Obj.no_attribute field) \/
        (snd (RepoContact.get_contact id_ (User.id u) db) = Raise e /\
         e = MultipleResultsFound))).
Proof.
  pose proof (get_current_user_reads token utcnow db) as Hreads.
  destruct (Auth.get_current_user token utcnow db) as [db' [u|e]] eqn:Hauth;
    cbn [fst] in Hreads; subst db'.
  - destruct (edit_contact_raises db id_ (User.id u) body now) as (e & E & Hwhich).
    exists e. split.
    + unfold RouterContact.edit_contact.
      rewrite (after_current_user _ _ _ u); [|exact Hauth].
      session_unfold. by rewrite E.
    + right. exists u. split; [reflexivity|]. split; [exact E|].
      destruct Hwhich as [Hfound | [Hnone | Hraise]]; [by left | by right; left |].
      right. right. split; [exact Hraise|].
      unfold RepoContact.get_contact in Hraise. cbn [snd] in Hraise.
      destruct (List.filter _ _) as [|r1 [|r2 rest]]; cbn in Hraise; congruence.
  - exists e. split; [|by left].
    unfold RouterContact.edit_contact. session_unfold. by rewrite Hauth.
Qed.

Lemma take_add_split {A} (a b : nat) (l : list A) :
  firstn (a + b) l = (firstn a l ++ firstn b (skipn a l))%list.
Proof.
  revert l. induction a as [|a IH]; intros l; [reflexivity|].
  destruct l as [|x l]; cbn; [by rewrite List.firstn_nil | by rewrite IH].
Qed.

(** X19. Pages.  A page never has more rows than its limit; a page of
    [l1 + l2] rows is the page of [l1] rows followed by the page of [l2]
    rows that starts where the first ends; and a page that starts at or
    beyond the number of the owner's contacts is empty. *)
Theorem get_contacts_pages (limit l1 l2 offset : nat) (user_id : Z) (db : Db.t) :
  (exists page, snd (RepoContact.get_contacts limit offset user_id db) = Ok page /\
                (length page <= limit)%nat) /\
  (exists p1 p2,
      snd (RepoContact.get_contacts l1 offset user_id db) = Ok p1 /\
      snd (RepoContact.get_contacts l2 (offset + l1) user_id db) = Ok p2 /\
      snd (RepoContact.get_contacts (l1 + l2) offset user_id db) = Ok (p1 ++ p2)%list) /\
  ((length (List.filter (RepoContact.owned_by user_id) (contacts db)) <= offset)%nat ->
   snd (RepoContact.get_contacts limit offset user_id db) = Ok []).
Proof.
  unfold RepoContact.get_contacts. cbn [snd].
  set (owned := List.filter (RepoContact.owned_by user_id) (contacts db)).
  split; [|split].
  - eexists. split; [reflexivity|]. rewrite length_take. lia.
  - eexists _, _. split; [reflexivity|]. split; [reflexivity|]. f_equal.
    rewrite take_add_split. f_equal. f_equal.
    by rewrite drop_drop.
  - intros Hlen. rewrite (drop_ge owned offset Hlen). by rewrite List.firstn_nil.
Qed.

End ContactsMore.

Lemma create_contact_round_trip_witness :
  exists c db',
    RepoContactMore.create_contact
      {| SchemasMore.ContactCreateSchema.first_name := "Cy"; SchemasMore.ContactCreateSchema.last_name := "Poe";
         SchemasMore.ContactCreateSchema.email := "cy@example.org"; SchemasMore.ContactCreateSchema.birth_date := 20010 |}
      2 12 (0, 1) Demo.db = (db', Ok c) /\
    RepoContact.get_contact 12 2 db' = (db', Ok (Some c)) /\
    RepoContact.get_contact 12 1 db' = (db', Ok None).
Proof.
  destruct (create_contact_round_trip
              {| SchemasMore.ContactCreateSchema.first_name := "Cy"; SchemasMore.ContactCreateSchema.last_name := "Poe";
                 SchemasMore.ContactCreateSchema.email := "cy@example.org";
                 SchemasMore.ContactCreateSchema.birth_date := 20010 |} 2 12 (0, 1) Demo.db)
    as (c & db' & Hrun & _ & _ & _ & _ & _ & _ & _ & _ & Hget & Hother & _).
  - repeat constructor; cbn; lia.
  - exists c, db'. split; [exact Hrun|]. split; [exact Hget|].
    apply (Hother 1). lia.
Defined.

Lemma delete_contact_removes_witness :
  exists db',
    RepoContact.delete_contact 10 1 Demo.db = (db', Ok Demo.ann) /\
    RepoContact.get_contact 10 1 db' = (db', Ok None).
Proof.
  destruct (delete_contact_removes Demo.db 10 1 Demo.ann eq_refl)
    as (db' & Hrun & _ & _ & Hgone).
  exists db'. split; [exact Hrun | apply Hgone].
Defined.

Lemma edit_contact_route_never_returns_witness :
  RouterContact.edit_contact (H := Demo.platform) 10
    {| Schemas.first_name := Some "Anna"; Schemas.last_name := None;
       Schemas.email := None; Schemas.birth_date := None |}
    (Demo.token_for "access_token" "a@example.com" 2000) 1000000000 77 Demo.db
    = (Demo.db, Raise (DBAPIError Db.offset_mismatch)).
Proof.
  destruct (edit_contact_route_never_returns (H := Demo.platform) 10
              {| Schemas.first_name := Some "Anna"; Schemas.last_name := None;
                 Schemas.email := None; Schemas.birth_date := None |}
              (Demo.token_for "access_token" "a@example.com" 2000) 1000000000 77 Demo.db)
    as (e & E & Hwhich).
  rewrite E. f_equal. f_equal.
  assert (Hauth : Auth.get_current_user (H := Demo.platform)
            (Demo.token_for "access_token" "a@example.com" 2000) 1000000000 Demo.db
            = (Demo.db, Ok Demo.ann_owner)) by (vm_compute; reflexivity).
  rewrite Hauth in Hwhich. cbn [snd] in Hwhich.
  destruct Hwhich as [Habs | (u & Hu & _ & Hcase)]; [discriminate Habs|].
  injection Hu as <-.
  destruct Hcase as [(c & _ & He) | [(Hnone & _) | (Hraise & _)]];
    [exact He | discriminate Hnone | discriminate Hraise].
Defined.

Lemma get_contacts_pages_witness :
  snd (RepoContact.get_contacts 10 5 1 Demo.db) = Ok [].
Proof.
  destruct (get_contacts_pages 10 0 0 5 1 Demo.db) as (_ & _ & Hbeyond).
  apply Hbeyond. cbn. lia.
Defined.

Section BirthdayList.
Import Models Db.

(** X20. The birthday list is a range of full dates.  It holds exactly
    the contacts of the owner whose [birth_date], year included, lies
    between today and seven days from today, both ends included; so a
    contact whose birth date is earlier than today is never listed. *)
Theorem birthday_list_is_date_range (today : nat -> date) (user_id : Z) (db : Db.t) :
  exists cs,
    RepoContact.get_birthday_list today user_id db = (db, Ok cs) /\
    (forall c, In c cs <->
               In c (contacts db) /\ Contact.created_by c = user_id /\
               today 0%nat <= Contact.birth_date c <= today 1%nat + 7) /\
    (forall c, Contact.birth_date c < today 0%nat -> ~ In c cs).
Proof.
  eexists. split; [reflexivity|].
  assert (Hchar : forall c,
    In c (List.filter
            (fun row => RepoContact.owned_by user_id row
                        && RepoContact.between (Contact.birth_date row) (today 0%nat)
                             (today 1%nat + timedelta_days 7)) (contacts db)) <->
    In c (contacts db) /\ Contact.created_by c = user_id /\
    today 0%nat <= Contact.birth_date c <= today 1%nat + 7).
  { intros c. rewrite List.filter_In.
    unfold RepoContact.owned_by, RepoContact.between, timedelta_days.
    rewrite !andb_true_iff, Z.eqb_eq, !Z.leb_le. tauto. }
  split; [exact Hchar|].
  intros c Hpast Hin. apply Hchar in Hin. lia.
Qed.

End BirthdayList.

Lemma birthday_list_is_date_range_witness :
  exists cs,
    RepoContact.get_birthday_list (fun _ => 20000) 1 Demo.db = (Demo.db, Ok cs) /\
    In Demo.ann cs /\ ~ In Demo.bob cs.
Proof.
  destruct (birthday_list_is_date_range (fun _ => 20000) 1 Demo.db)
    as (cs & Hrun & Hchar & _).
  exists cs. split; [exact Hrun|]. split.
  - apply Hchar. split; [by left|]. cbn. lia.
  - intros Hin. apply Hchar in Hin as (_ & Hown & _). cbn in Hown. lia.
Defined.

(* --------------------------------------------------------------------- *)
(** ** The auth routes behind the rate limiter *)
(* --------------------------------------------------------------------- *)

Section LimitedRoutes.
Import Models Db Schemas RateLimiter.
Context `{Platform} `{Bcrypt}.

Lemma limited_denied {A} (request : Request) (T start : Q) (count : Z)
    (handler : Session A) (rl : RateLimiter.t) (db : Db.t) :
  requests rl !! client request = Some (start, count) ->
  ~ (window_time rl < T - start)%Q ->
  ~ count < max_requests rl ->
  RouterAuth.limited request T handler (rl, db)
    = ((rl, db), Raise (HTTPException 429 "Too Many Requests")).
Proof.
  intros Hrec Hw Hc. unfold RouterAuth.limited, limit_allowed. cbn [fst snd].
  by rewrite (is_allowed_deny rl (client request) T start count Hrec Hw Hc).
Qed.

(** The limiter moves on by the request alone, whatever the handler does. *)
Lemma limited_limiter {A} (request : Request) (T : Q) (handler : Session A)
    (w : RouterAuth.World) :
  fst (fst (RouterAuth.limited request T handler w))
    = fst (is_allowed (fst w) (client request) T).
Proof.
  unfold RouterAuth.limited, limit_allowed.
  destruct (is_allowed (fst w) (client request) T) as [rl' []]; cbn [fst snd].
  - by destruct (handler (snd w)).
  - reflexivity.
Qed.

(** X21. A request of a client whose window is running and whose count
    has reached the maximum is answered with the 429 error by every auth
    route, before the handler runs: the tables and the limiter are left
    exactly as they were.  In particular such a login resets no OTP and
    such a signup creates no user, whatever the credentials are. *)
Theorem auth_routes_denied_untouched (request : Request) (T start : Q) (count : Z)
    (rl : RateLimiter.t) (db : Db.t) :
  requests rl !! client request = Some (start, count) ->
  ~ (window_time rl < T - start)%Q ->
  ~ count < max_requests rl ->
  (forall body salt_entropy new_id column_defaults otp_entropy,
      RouterAuth.signup request T body salt_entropy new_id column_defaults otp_entropy (rl, db)
        = ((rl, db), Raise (HTTPException 429 "Too Many Requests"))) /\
  (forall form_data entropy utcnow,
      RouterAuth.login_for_access_token request T form_data entropy utcnow (rl, db)
        = ((rl, db), Raise (HTTPException 429 "Too Many Requests"))) /\
  (forall token utcnow,
      RouterAuth.user_path request T token utcnow (rl, db)
        = ((rl, db), Raise (HTTPException 429 "Too Many Requests"))) /\
  (forall credentials utcnow,
      RouterAuth.refresh_token request T credentials utcnow (rl, db)
        = ((rl, db), Raise (HTTPException 429 "Too Many Requests"))) /\
  (forall user_mail otp,
      RouterAuth.activate_user request T user_mail otp (rl, db)
        = ((rl, db), Raise (HTTPException 429 "Too Many Requests"))).
Proof.
  intros Hrec Hw Hc.
  split; [|split; [|split; [|split]]]; intros;
    by apply (limited_denied _ _ start count).
Qed.

(** X22. The auth routes draw on one budget per client.  With 3 requests
    per 120 seconds and a client that has no record, a signup, an
    activation and a token check within ten seconds use the budget up,
    whatever their outcomes: the login that follows within those ten
    seconds is answered with the 429 error and changes nothing. *)
Theorem auth_routes_share_budget (request : Request) (t1 t2 t3 t4 : Q)
    (rl : RateLimiter.t) (db : Db.t)
    (body : SchemasMore.UserCreateSchema) (salt_entropy new_id : Z)
    (column_defaults : datetime * datetime) (otp_entropy : Z)
    (user_mail : string) (otp : Z) (token : Jose.token) (now : datetime)
    (form_data : OAuth2PasswordRequestForm) (entropy : Z) (utcnow : nat -> datetime) :
  max_requests rl = 3 -> window_time rl = 120%Q ->
  requests rl !! client request = None ->
  (t1 <= t2)%Q -> (t2 <= t3)%Q -> (t3 <= t4)%Q -> (t4 - t1 <= 10)%Q ->
  exists w3,
    fst (RouterAuth.user_path request t3 token now
           (fst (RouterAuth.activate_user request t2 user_mail otp
                   (fst (RouterAuth.signup request t1 body salt_entropy new_id
                           column_defaults otp_entropy (rl, db)))))) = w3 /\
    RouterAuth.login_for_access_token request t4 form_data entropy utcnow w3
      = (w3, Raise (HTTPException 429 "Too Many Requests")).
Proof.
  intros Hmax Hwin Hnone H12 H23 H34 H41.
  set (c := client request) in *.
  set (w1 := fst (RouterAuth.signup request t1 body salt_entropy new_id
                    column_defaults otp_entropy (rl, db))).
  set (w2 := fst (RouterAuth.activate_user request t2 user_mail otp w1)).
  set (w3 := fst (RouterAuth.user_path request t3 token now w2)).
  exists w3. split; [reflexivity|].
  set (rl1 := set_entry rl c (t1, 1)).
  set (rl2 := set_entry rl1 c (t1, 1 + 1)).
  set (rl3 := set_entry rl2 c (t1, 1 + 1 + 1)).
  assert (E1 : fst w1 = rl1).
  { unfold w1, RouterAuth.signup. rewrite limited_limiter. cbn [fst].
    fold c. by rewrite (is_allowed_first rl c t1 Hnone). }
  assert (E2 : fst w2 = rl2).
  { unfold w2, RouterAuth.activate_user. rewrite limited_limiter, E1. fold c.
    rewrite (is_allowed_count rl1 c t2 t1 1); [reflexivity | apply set_entry_lookup | |].
    - cbn. rewrite Hwin. lra.
    - cbn. lia. }
  assert (E3 : fst w3 = rl3).
  { unfold w3, RouterAuth.user_path. rewrite limited_limiter, E2. fold c.
    rewrite (is_allowed_count rl2 c t3 t1 (1 + 1)); [reflexivity | apply set_entry_lookup | |].
    - cbn. rewrite Hwin. lra.
    - cbn. lia. }
  destruct w3 as [rl3' db3]. cbn [fst] in E3. subst rl3'.
  apply (limited_denied _ _ t1 (1 + 1 + 1)).
  - apply set_entry_lookup.
  - cbn. rewrite Hwin. lra.
  - cbn. lia.
Qed.

End LimitedRoutes.

(* --------------------------------------------------------------------- *)
(** ** Editing a user *)
(* --------------------------------------------------------------------- *)

Section EditUser.
Import Models Db SchemasMore.

Lemma get_user_reads (user_id : Z) (db : Db.t) :
  RepoUserMore.get_user user_id db = (db, snd (RepoUserMore.get_user user_id db)).
Proof. reflexivity. Qed.

(** [edit_user] on a user that the lookup finds ends in the commit of the
    object with the aware [modified_at], which is refused. *)
Lemma edit_user_found (user_id : Z) (body : UserCreateSchema) (now : datetime)
    (db : Db.t) (u : User.t) :
  snd (RepoUserMore.get_user user_id db) = Ok (Some u) ->
  RepoUserMore.edit_user user_id body now db
    = (db, Raise (DBAPIError offset_mismatch)).
Proof.
  intros Hget. unfold RepoUserMore.edit_user. session_unfold.
  rewrite get_user_reads, Hget. reflexivity.
Qed.

(** X23. [edit_user] never stores anything.  Like [edit_contact] it
    assigns [datetime.now(timezone.utc)], a value with [tzinfo], to
    [modified_at], a column of naive timestamps.  On a user that the
    lookup by id finds, the commit is refused with the session's
    [DBAPIError]: neither the email nor the password of the body reaches
    the table, and the lookup afterwards returns the user as before.  On
    an id that no user has, it fails with an [AttributeError] on [None].
    Whatever the id, the body and the state, it raises an exception that
    is no HTTP error and leaves the tables as they were. *)
Theorem edit_user_outcomes (user_id : Z) (body : UserCreateSchema) (now : datetime)
    (db : Db.t) :
  (forall u,
      snd (RepoUserMore.get_user user_id db) = Ok (Some u) ->
      RepoUserMore.edit_user user_id body now db
        = (db, Raise (DBAPIError offset_mismatch)) /\
      snd (RepoUserMore.get_user user_id
             (fst (RepoUserMore.edit_user user_id body now db))) = Ok (Some u)) /\
  (snd (RepoUserMore.get_user user_id db) = Ok None ->
   RepoUserMore.edit_user user_id body now db = (db, Raise (Obj.no_attribute "email"))) /\
  fst (RepoUserMore.edit_user user_id body now db) = db /\
  unhandled (snd (RepoUserMore.edit_user user_id body now db)).
Proof.
  assert (Hnone : snd (RepoUserMore.get_user user_id db) = Ok None ->
                  RepoUserMore.edit_user user_id body now db
                  = (db, Raise (Obj.no_attribute "email"))).
  { intros Hget. unfold RepoUserMore.edit_user. session_unfold.
    rewrite get_user_reads, Hget. reflexivity. }
  split; [|split; [exact Hnone|]].
  - intros u Hget. rewrite (edit_user_found _ body now _ _ Hget).
    split; [reflexivity | exact Hget].
  - destruct (snd (RepoUserMore.get_user user_id db)) as [[u|]|e] eqn:Hget.
    + by rewrite (edit_user_found _ body now _ _ Hget).
    + by rewrite (Hnone eq_refl).
    + assert (E : RepoUserMore.edit_user user_id body now db = (db, Raise e)).
      { unfold RepoUserMore.edit_user. session_unfold.
        rewrite get_user_reads, Hget. reflexivity. }
      rewrite E. split; [reflexivity|].
      unfold RepoUserMore.get_user in Hget. cbn [snd] in Hget.
      destruct (List.filter _ _) as [|r1 [|r2 rest]]; cbn in Hget; try discriminate Hget.
      injection Hget as <-. exact I.
Qed.

End EditUser.

Lemma auth_routes_denied_untouched_witness :
  RouterAuth.login_for_access_token (H := Demo.platform)
    {| RateLimiter.client := DemoMore.client_a |} 5%Q
    {| Schemas.username := "a@example.com"; Schemas.password := "pw-a" |} 7 Demo.utcnow
    (RateLimiter.set_entry RateLimiter.rate_limiter DemoMore.client_a (0%Q, 3), Demo.db)
    = ((RateLimiter.set_entry RateLimiter.rate_limiter DemoMore.client_a (0%Q, 3), Demo.db),
       Raise (HTTPException 429 "Too Many Requests")).
Proof.
  destruct (auth_routes_denied_untouched (H := Demo.platform) (H0 := DemoMore.bcrypt)
              {| RateLimiter.client := DemoMore.client_a |} 5%Q 0%Q 3
              (RateLimiter.set_entry RateLimiter.rate_limiter DemoMore.client_a (0%Q, 3))
              Demo.db)
    as (_ & Hlogin & _).
  - apply set_entry_lookup.
  - by vm_compute.
  - cbn. lia.
  - apply Hlogin.
Defined.

Lemma auth_routes_share_budget_witness :
  exists w3,
    RouterAuth.login_for_access_token (H := Demo.platform)
      {| RateLimiter.client := DemoMore.client_a |} 9%Q
      {| Schemas.username := "a@example.com"; Schemas.password := "pw-a" |} 7 Demo.utcnow w3
      = (w3, Raise (HTTPException 429 "Too Many Requests")).
Proof.
  destruct (auth_routes_share_budget (H := Demo.platform) (H0 := DemoMore.bcrypt)
              {| RateLimiter.client := DemoMore.client_a |} 0%Q 2%Q 5%Q 9%Q
              RateLimiter.rate_limiter Demo.db
              {| SchemasMore.email := "d@example.com"; SchemasMore.passwd := "pw-d" |}
              1 4 (0, 1) 5 "d@example.com" 100005
              (Demo.token_for "access_token" "a@example.com" 2000) 1000000000
              {| Schemas.username := "a@example.com"; Schemas.password := "pw-a" |}
              7 Demo.utcnow)
    as (w3 & _ & Hdenied);
    [reflexivity | reflexivity | reflexivity
    | by vm_compute | by vm_compute | by vm_compute | by vm_compute |].
  exists w3. exact Hdenied.
Defined.

Lemma edit_user_outcomes_witness :
  snd (RepoUserMore.get_user 2 Demo.db) = Ok (Some Demo.bob_owner) /\
  RepoUserMore.edit_user 2
    {| SchemasMore.email := "a@example.com"; SchemasMore.passwd := "pw-b" |} 77 Demo.db
    = (Demo.db, Raise (DBAPIError Db.offset_mismatch)) /\
  snd (RepoUserMore.get_user 9 Demo.db) = Ok None /\
  RepoUserMore.edit_user 9
    {| SchemasMore.email := "x@example.com"; SchemasMore.passwd := "pw-x" |} 77 Demo.db
    = (Demo.db, Raise (Obj.no_attribute "email")).
Proof.
  split; [reflexivity|]. split.
  - apply (proj1 (edit_user_outcomes 2
                    {| SchemasMore.email := "a@example.com"; SchemasMore.passwd := "pw-b" |}
                    77 Demo.db) Demo.bob_owner).
    reflexivity.
  - split; [reflexivity|].
    apply (proj1 (proj2 (edit_user_outcomes 9
                    {| SchemasMore.email := "x@example.com"; SchemasMore.passwd := "pw-x" |}
                    77 Demo.db))).
    reflexivity.
Defined.
